(** * terraform-provider-azurerm: resource templates, ID parsers and SDK glue

    A shallow embedding of the pieces of the provider that its description
    talks about: the generated resource-ID formatter and parser of the Cosmos
    DB SQL role assignment, the SKU expansion of the SQL managed instance, the
    resource declarations and the Create/Read functions of the resource
    template, the provisioning wait of the PowerShell 7.2 automation module,
    the paged List of the embedded Chaos SDK and the parameter validation of
    the Kusto scripts client.

    Go strings are [string]; a Go [(T, error)] pair is a [result]; a nil-able
    pointer is an [option]; a Go map is a [gmap]; calls on a remote API are
    recorded in an explicit trace that is threaded through each operation.

    The first part of the file holds the embedding, the second part the
    properties proved about it. *)

From Stdlib Require Import Ascii String List ZArith Bool Lia.
From stdpp Require Import base option list strings gmap.

Local Open Scope string_scope.

(** * Part I: the embedding *)

(** ** Results: Go's [(value, error)] convention *)

Inductive result (E A : Type) : Type :=
| Ok (a : A)
| Err (e : E).
Arguments Ok {E A} a.
Arguments Err {E A} e.

Definition rbind {E A B} (r : result E A) (k : A -> result E B) : result E B :=
  match r with
  | Ok a => k a
  | Err e => Err e
  end.

Notation "x <-! r ; k" := (rbind r (fun x => k))
  (at level 100, r at next level, right associativity, only parsing).

Definition is_ok {E A} (r : result E A) : bool :=
  match r with Ok _ => true | Err _ => false end.

Definition is_err {E A} (r : result E A) : bool := negb (is_ok r).

(** [p != nil] for a Go pointer. *)
Definition isSome {A} (o : option A) : bool :=
  match o with Some _ => true | None => false end.

(** ** The fragment of Go's [strings] and [fmt] packages the sources use *)

Module GoStrings.

(** [contains c s]: the byte [c] occurs in [s]. *)
Fixpoint contains (c : ascii) (s : string) : bool :=
  match s with
  | EmptyString => false
  | String a s' => Ascii.eqb a c || contains c s'
  end.

(** One pass of [strings.Split] for a separator of length one: the text up to
    the first separator, and the pieces after it. *)
Fixpoint split_go (sep : ascii) (s : string) : string * list string :=
  match s with
  | EmptyString => (EmptyString, [])
  | String a s' =>
      let '(h, t) := split_go sep s' in
      if Ascii.eqb a sep then (EmptyString, h :: t) else (String a h, t)
  end.

(** [strings.Split(s, sep)] with [sep] a one-byte separator: always at least
    one piece, [Split "" sep = [""]]. *)
Definition Split (s : string) (sep : ascii) : list string :=
  let '(h, t) := split_go sep s in h :: t.

(** [strings.Join(parts, sep)] for a one-byte separator. *)
Fixpoint Join (parts : list string) (sep : ascii) : string :=
  match parts with
  | [] => EmptyString
  | [p] => p
  | p :: rest => p +:+ String sep (Join rest sep)
  end.

(** [strings.TrimPrefix(s, c)] for a one-byte prefix. *)
Definition TrimPrefix (s : string) (c : ascii) : string :=
  match s with
  | String a s' => if Ascii.eqb a c then s' else s
  | EmptyString => EmptyString
  end.

(** [strings.TrimSuffix(s, c)] for a one-byte suffix. *)
Fixpoint TrimSuffix (s : string) (c : ascii) : string :=
  match s with
  | EmptyString => EmptyString
  | String a s' =>
      match s' with
      | EmptyString => if Ascii.eqb a c then EmptyString else s
      | String _ _ => String a (TrimSuffix s' c)
      end
  end.

(** [fmt.Sprintf] restricted to the [%s] verb, the only one the ID formatters
    use.  A verb without an argument prints Go's [%!s(MISSING)]. *)
Fixpoint Sprintf (format : string) (args : list string) : string :=
  match format with
  | EmptyString => EmptyString
  | String "%" (String "s" rest) =>
      match args with
      | a :: args' => a +:+ Sprintf rest args'
      | [] => "%!s(MISSING)" +:+ Sprintf rest []
      end
  | String c rest => String c (Sprintf rest args)
  end.

End GoStrings.

Import GoStrings.

(** ** SQL managed instance: [expandManagedInstanceSkuName] *)

Module SqlManagedInstance.

(** [sql.Sku] of the Azure SDK: every field is a pointer. *)
Record Sku := {
  Name : option string;
  Tier : option string;
  Size : option string;
  Family : option string;
  Capacity : option Z
}.

Inductive error :=
| WrongNumberOfParts (skuName : string) (parts : nat)
| UnknownSkuTier (skuName tier : string).

Definition expandManagedInstanceSkuName (skuName : string) : result error Sku :=
  let parts := Split skuName "_" in
  if negb (length parts =? 2)%nat then
    Err (WrongNumberOfParts skuName (length parts))
  else
    let part0 := nth 0 parts EmptyString in
    let part1 := nth 1 parts EmptyString in
    tier <-! (if String.eqb part0 "GP" then Ok "GeneralPurpose"
              else if String.eqb part0 "BC" then Ok "BusinessCritical"
              else Err (UnknownSkuTier skuName part0));
    Ok {| Name := Some skuName;
          Tier := Some tier;
          Size := None;
          Family := Some part1;
          Capacity := None |}.

End SqlManagedInstance.

(** ** Resource IDs *)

(** *** [helpers/azure]: the generic resource-ID parser *)

Module azure.

(** Modelled from the spec: the package [helpers/azure] of this repository
    ([ResourceID], [ParseAzureResourceID], [PopSegment],
    [ValidateNoEmptySegments]) is imported by the generated parsers but is not
    among the source files.  It is modelled here as the key/value path parser
    that its callers and their test tables rely on: the ID is a sequence of
    [/key/value] segments, the subscription and the provider are kept apart,
    the resource group is lifted out of the remaining segments, and every
    other segment waits in [Path] until a caller pops it.  The URL syntax
    check that the helper delegates to Go's [net/url] is reduced to rejecting
    the empty string: escapes and query strings are outside this model. *)
Record ResourceID := {
  SubscriptionID : string;
  ResourceGroup : string;
  Provider : string;
  Path : gmap string string
}.

Inductive error :=
| CannotParse (id : string)
| OddNumberOfSegments (path : string)
| EmptyKeyOrValue (key value : string)
| NoSubscriptionID (path : string)
| MissingElement (name : string)
| MoreSegmentsThanRequired (sourceId : string).

(** Modelled from the spec: the loop of [ParseAzureResourceID] over the
    key/value pairs of the path.  The first [subscriptions] and the first
    [providers] segments are captured, every other pair goes to the map (a
    later pair with the same key overwrites an earlier one). *)
Fixpoint parseComponents (components : list string)
    (subscriptionID provider : string) (componentMap : gmap string string)
  : result error (string * string * gmap string string) :=
  match components with
  | key :: value :: rest =>
      if String.eqb key "" || String.eqb value "" then
        Err (EmptyKeyOrValue key value)
      else if String.eqb key "subscriptions" && String.eqb subscriptionID "" then
        parseComponents rest value provider componentMap
      else if String.eqb key "providers" && String.eqb provider "" then
        parseComponents rest subscriptionID value componentMap
      else
        parseComponents rest subscriptionID provider (<[key := value]> componentMap)
  | _ => Ok (subscriptionID, provider, componentMap)
  end.

(** The path components of an ID: one leading and one trailing slash are
    trimmed, the rest is split on the slash. *)
Definition pathComponents (id : string) : list string :=
  Split (TrimSuffix (TrimPrefix id "/") "/") "/".

(** Modelled from the spec: [ParseAzureResourceID], absent from the source
    files (see [ResourceID]). *)
Definition ParseAzureResourceID (id : string) : result error ResourceID :=
  if String.eqb id "" then Err (CannotParse id)
  else
    let path := TrimSuffix (TrimPrefix id "/") "/" in
    let components := Split path "/" in
    if negb (Nat.even (length components)) then Err (OddNumberOfSegments path)
    else
      parsed <-! parseComponents components "" "" ∅;
      let '(subscriptionID, provider, componentMap) := parsed in
      if String.eqb subscriptionID "" then Err (NoSubscriptionID path)
      else
        match componentMap !! "resourceGroups" with
        | Some resourceGroup =>
            Ok {| SubscriptionID := subscriptionID;
                  ResourceGroup := resourceGroup;
                  Provider := provider;
                  Path := delete "resourceGroups" componentMap |}
        | None =>
            Ok {| SubscriptionID := subscriptionID;
                  ResourceGroup := "";
                  Provider := provider;
                  Path := componentMap |}
        end.

(** Modelled from the spec: the [PopSegment] method of [ResourceID], absent
    from the source files.  The Go method deletes the key from the receiver's map; here the
    updated ID is returned beside the value. *)
Definition PopSegment (id : ResourceID) (name : string)
  : result error (string * ResourceID) :=
  match Path id !! name with
  | None => Err (MissingElement name)
  | Some val =>
      Ok (val, {| SubscriptionID := SubscriptionID id;
                  ResourceGroup := ResourceGroup id;
                  Provider := Provider id;
                  Path := delete name (Path id) |})
  end.

(** Modelled from the spec: the [ValidateNoEmptySegments] method of
    [ResourceID], absent from the source files: an error when segments are left in [Path]. *)
Definition ValidateNoEmptySegments (id : ResourceID) (sourceId : string)
  : result error unit :=
  if (size (Path id) =? 0)%nat then Ok tt
  else Err (MoreSegmentsThanRequired sourceId).

End azure.

(** *** [internal/services/cosmos/parse]: the SQL role assignment ID *)

Module CosmosParse.
Import azure.

Record SqlRoleAssigmentId := {
  SubscriptionId : string;
  ResourceGroup : string;
  DatabaseAccountName : string;
  SqlRoleAssignmentName : string
}.

Definition NewSqlRoleAssigmentID
    (subscriptionId resourceGroup databaseAccountName sqlRoleAssignmentName : string)
  : SqlRoleAssigmentId :=
  {| SubscriptionId := subscriptionId;
     ResourceGroup := resourceGroup;
     DatabaseAccountName := databaseAccountName;
     SqlRoleAssignmentName := sqlRoleAssignmentName |}.

Definition fmtString : string :=
  "/subscriptions/%s/resourceGroups/%s/providers/Microsoft.DocumentDB/databaseAccounts/%s/sqlRoleAssignments/%s".

Definition ID (id : SqlRoleAssigmentId) : string :=
  Sprintf fmtString
    [SubscriptionId id; ResourceGroup id; DatabaseAccountName id;
     SqlRoleAssignmentName id].

(** [SqlRoleAssigmentID] parses a SqlRoleAssigment ID into a
    [SqlRoleAssigmentId]; Go's [(nil, err)] is [Err err]. *)
Definition SqlRoleAssigmentID (input : string) : result error SqlRoleAssigmentId :=
  id <-! ParseAzureResourceID input;
  let subscriptionId := azure.SubscriptionID id in
  let resourceGroup := azure.ResourceGroup id in
  if String.eqb subscriptionId "" then Err (MissingElement "subscriptions")
  else if String.eqb resourceGroup "" then Err (MissingElement "resourceGroups")
  else
    popped <-! PopSegment id "databaseAccounts";
    let '(databaseAccountName, id) := popped in
    popped <-! PopSegment id "sqlRoleAssignments";
    let '(sqlRoleAssignmentName, id) := popped in
    _ <-! ValidateNoEmptySegments id input;
    Ok {| SubscriptionId := subscriptionId;
          ResourceGroup := resourceGroup;
          DatabaseAccountName := databaseAccountName;
          SqlRoleAssignmentName := sqlRoleAssignmentName |}.

(** The four segments a SQL role assignment ID must carry, and the five keys
    the parser consumes. *)
Definition requiredSegments : list string :=
  ["subscriptions"; "resourceGroups"; "databaseAccounts"; "sqlRoleAssignments"].

Definition expectedKeys : list string :=
  ["subscriptions"; "resourceGroups"; "providers"; "databaseAccounts";
   "sqlRoleAssignments"].

(** The [key/value] pairs of a component list, and its keys (a trailing key
    without a value included). *)
Fixpoint pairs (components : list string) : list (string * string) :=
  match components with
  | key :: value :: rest => (key, value) :: pairs rest
  | _ => []
  end.

Fixpoint segmentKeys (components : list string) : list string :=
  match components with
  | [] => []
  | key :: tail =>
      key :: match tail with
             | [] => []
             | _ :: rest => segmentKeys rest
             end
  end.

(** The malformed inputs: empty, a required segment missing, a required
    segment with an empty value, or a segment the ID has no place for. *)
Inductive malformed (input : string) : Prop :=
| EmptyInput :
    input = "" -> malformed input
| MissingSegment (name : string) :
    name ∈ requiredSegments ->
    name ∉ (pairs (pathComponents input)).*1 ->
    malformed input
| EmptyValue (name : string) :
    name ∈ requiredSegments ->
    (name, "") ∈ pairs (pathComponents input) ->
    malformed input
| ExtraSegment (key : string) :
    key ∈ segmentKeys (pathComponents input) ->
    key ∉ expectedKeys ->
    malformed input.

(** The path components of a formatted role assignment ID. *)
Definition formattedComponents (id : SqlRoleAssigmentId) : list string :=
  ["subscriptions"; SubscriptionId id;
   "resourceGroups"; ResourceGroup id;
   "providers"; "Microsoft.DocumentDB";
   "databaseAccounts"; DatabaseAccountName id;
   "sqlRoleAssignments"; SqlRoleAssignmentName id].

(** A component a formatted ID can carry: non-empty and without slash. *)
Definition validComponent (s : string) : Prop :=
  s <> "" /\ contains "/" s = false.

Definition validId (id : SqlRoleAssigmentId) : Prop :=
  validComponent (SubscriptionId id) /\
  validComponent (ResourceGroup id) /\
  validComponent (DatabaseAccountName id) /\
  validComponent (SqlRoleAssignmentName id).

End CosmosParse.

(** *** [internal/services/sql/parse]: the managed instance administrator ID *)

Module SqlParse.

Record ManagedInstanceAzureActiveDirectoryAdministratorId := {
  SubscriptionId : string;
  ResourceGroup : string;
  ManagedInstanceName : string;
  AdministratorName : string
}.

(** Modelled from the spec: the constructor and formatter of
    [ManagedInstanceAzureActiveDirectoryAdministratorId] are generated like
    those of [SqlRoleAssigmentId], but only their test file is among the
    sources; they follow that template with the path the test expects. *)
Definition NewManagedInstanceAzureActiveDirectoryAdministratorID
    (subscriptionId resourceGroup managedInstanceName administratorName : string)
  : ManagedInstanceAzureActiveDirectoryAdministratorId :=
  {| SubscriptionId := subscriptionId;
     ResourceGroup := resourceGroup;
     ManagedInstanceName := managedInstanceName;
     AdministratorName := administratorName |}.

Definition fmtString : string :=
  "/subscriptions/%s/resourceGroups/%s/providers/Microsoft.Sql/managedInstances/%s/administrators/%s".

(** Modelled from the spec: the [ID] method of
    [ManagedInstanceAzureActiveDirectoryAdministratorId] (see the
    constructor). *)
Definition ID (id : ManagedInstanceAzureActiveDirectoryAdministratorId) : string :=
  Sprintf fmtString
    [SubscriptionId id; ResourceGroup id; ManagedInstanceName id;
     AdministratorName id].

End SqlParse.

(** ** Remote API calls: clients, responses and the state an operation threads *)

(** Go errors of the resource functions.  [fmt.Errorf] with [%+v] or [%s] of
    an inner error is [Wrapped]; an error handed on as it is keeps its
    constructor; a panic on a nil pointer is [NilPointerDereference]. *)
Inductive error :=
| ApiError (cause : string)
| Wrapped (context : string) (cause : error)
| Message (text : string)
| ImportAsExistsError (resourceName id : string)
| ParseError (input : string)
| DecodeError
| NilPointerDereference
| TimeoutError
| UnexpectedStateError (state : string).

Module Sdk.

(** [response.WasNotFound] of go-azure-helpers ([utils.ResponseWasNotFound] in
    the older resources): the HTTP response is present and its status is 404.
    [HttpResponse] is a pointer in Go, here an optional status code. *)
Definition StatusNotFound : Z := 404.

Definition WasNotFound (httpResponse : option Z) : bool :=
  match httpResponse with
  | Some statusCode => (statusCode =? StatusNotFound)%Z
  | None => false
  end.

(** What Terraform keeps of a resource: its ID (empty when the resource is
    not, or no longer, in state) and its attributes. *)
Record ResourceData := {
  Id : string;
  Attributes : gmap string string
}.

Definition attribute (d : ResourceData) (key : string) : string :=
  default "" (Attributes d !! key).

Section Client.
Context {ResourceId Model Payload Remote : Type}.

(** The three calls of a generated client that the resource template uses. *)
Inductive Call :=
| Get (id : ResourceId)
| CreateOrUpdate (id : ResourceId) (payload : Payload)
| Delete (id : ResourceId).

(** A client method returns a response and an error; both are kept in one
    record: [Failure] is Go's [err]. *)
Record Response := {
  HttpResponse : option Z;
  Body : option Model;
  Failure : option string
}.

(** The cloud behind the client: any state, any answers. *)
Variable api : Call -> Remote -> Remote * Response.

(** The world an operation runs in: the remote side, the calls issued so far
    with their responses, and the resource data. *)
Record World := {
  remote : Remote;
  calls : list (Call * Response);
  data : ResourceData
}.

(** An operation either fails with an error or returns a value; the world it
    leaves behind is kept in both cases. *)
Definition M (E A : Type) : Type := World -> result E A * World.

Definition ret {E A} (a : A) : M E A := fun w => (Ok a, w).

Definition fail {E A} (e : E) : M E A := fun w => (Err e, w).

Definition bind {E A B} (c : M E A) (k : A -> M E B) : M E B :=
  fun w =>
    match c w with
    | (Ok a, w') => k a w'
    | (Err e, w') => (Err e, w')
    end.

(** Issue one call on the client and record it. *)
Definition call {E} (c : Call) : M E Response :=
  fun w =>
    let '(remote', resp) := api c (remote w) in
    (Ok resp, {| remote := remote'; calls := (calls w ++ [(c, resp)])%list; data := data w |}).

(** The answer of the remote side to one more call, and the world after it. *)
Definition answer (c : Call) (w : World) : Response :=
  snd (api c (remote w)).

Definition afterCall (c : Call) (w : World) : World :=
  {| remote := fst (api c (remote w));
     calls := (calls w ++ [(c, answer c w)])%list;
     data := data w |}.

(** [d.Get(key).(string)]: the zero value when the attribute is not set. *)
Definition GetAttribute {E} (key : string) : M E string :=
  fun w => (Ok (attribute (data w) key), w).

Definition GetData {E} : M E ResourceData :=
  fun w => (Ok (data w), w).

(** [d.Set(key, value)]. *)
Definition SetAttribute {E} (key value : string) : M E unit :=
  fun w =>
    (Ok tt,
     {| remote := remote w; calls := calls w;
        data := {| Id := Id (data w);
                   Attributes := <[key := value]> (Attributes (data w)) |} |}).

(** [d.Id()] and [d.SetId(id)]. *)
Definition GetId {E} : M E string :=
  fun w => (Ok (Id (data w)), w).

Definition SetId {E} (id : string) : M E unit :=
  fun w =>
    (Ok tt,
     {| remote := remote w; calls := calls w;
        data := {| Id := id; Attributes := Attributes (data w) |} |}).

(** Modelled from the spec: [metadata.MarkAsGone] of [internal/sdk], which is
    not among the source files: the resource is removed from state by
    clearing its ID, and the operation succeeds. *)
Definition MarkAsGone {E} : M E unit := SetId "".

(** The calls an operation added to the record. *)
Definition issued (w w' : World) (new : list (Call * Response)) : Prop :=
  calls w' = (calls w ++ new)%list.

End Client.

Arguments Call : clear implicits.
Arguments Response : clear implicits.
Arguments World : clear implicits.
Arguments M : clear implicits.

End Sdk.

Notation "'let*' x ':=' c 'in' k" := (Sdk.bind c (fun x => k))
  (at level 10, x name, c at level 100, k at level 200, only parsing).

Notation "c ';;' k" := (Sdk.bind c (fun _ => k))
  (at level 100, k at level 200, right associativity, only parsing).

(** ** The plugin SDK's state wait *)

Module PluginSdk.

Section StateChange.
Context {ResourceId Model Payload Remote A : Type}.
Variable api : Sdk.Call ResourceId Payload -> Remote -> Remote * Sdk.Response Model.

Local Abbreviation Op := (Sdk.M ResourceId Model Payload Remote error).

(** Modelled from the spec: [StateChangeConf] of the Terraform plugin SDK, an
    external dependency.
    [Refresh] returns a result and the state it saw, or fails.  The durations
    ([Timeout], [MinTimeout]) are not modelled as time: the wait is run with
    the number of refreshes that complete before the timeout fires. *)
Record StateChangeConf := {
  Pending : list string;
  Target : list string;
  Refresh : Op (A * string)
}.

Definition inStates (state : string) (states : list string) : bool :=
  existsb (String.eqb state) states.

(** Modelled from the spec: [WaitForStateContext] belongs to the plugin SDK
    and is not among the source files.  With [ContinuousTargetOccurence]
    at its default of one and a [Refresh] whose result is never nil (as in
    its callers here): refresh until the state is a target; a refresh error,
    or a state that is neither target nor pending, ends the wait with an
    error; so does the timeout, after [polls] refreshes. *)
Fixpoint WaitForStateContext (conf : StateChangeConf) (polls : nat) : Op A :=
  match polls with
  | O => Sdk.fail TimeoutError
  | S polls' =>
      let* refreshed := Refresh conf in
      let '(res, currentState) := refreshed in
      if inStates currentState (Target conf) then Sdk.ret res
      else if inStates currentState (Pending conf) then
        WaitForStateContext conf polls'
      else Sdk.fail (UnexpectedStateError currentState)
  end.

End StateChange.

End PluginSdk.

(** ** [internal/services/automation]: the PowerShell 7.2 module resource *)

Module Automation.
Import Sdk.

(** The ID type of go-azure-sdk's [module] package. *)
Record PowerShell72ModuleId := {
  SubscriptionId : string;
  ResourceGroupName : string;
  AutomationAccountName : string;
  PowerShell72ModuleName : string
}.

Definition NewPowerShell72ModuleID
    (subscriptionId resourceGroupName automationAccountName powerShell72ModuleName : string)
  : PowerShell72ModuleId :=
  {| SubscriptionId := subscriptionId;
     ResourceGroupName := resourceGroupName;
     AutomationAccountName := automationAccountName;
     PowerShell72ModuleName := powerShell72ModuleName |}.

(** The part of [module.Module] the resource reads. *)
Record ModuleErrorInfo := { ErrorMessage : option string }.

Record ModuleProperties := {
  IsGlobal : option bool;
  ProvisioningState : option string;
  Error : option ModuleErrorInfo
}.

Record Module := { Properties : option ModuleProperties }.

(** The values of [module.ModuleProvisioningState], as the API spells them. *)
Definition ModuleProvisioningStateActivitiesStored := "ActivitiesStored".
Definition ModuleProvisioningStateConnectionTypeImported := "ConnectionTypeImported".
Definition ModuleProvisioningStateContentDownloaded := "ContentDownloaded".
Definition ModuleProvisioningStateContentRetrieved := "ContentRetrieved".
Definition ModuleProvisioningStateContentStored := "ContentStored".
Definition ModuleProvisioningStateContentValidated := "ContentValidated".
Definition ModuleProvisioningStateCreated := "Created".
Definition ModuleProvisioningStateCreating := "Creating".
Definition ModuleProvisioningStateModuleDataStored := "ModuleDataStored".
Definition ModuleProvisioningStateModuleImportRunbookComplete := "ModuleImportRunbookComplete".
Definition ModuleProvisioningStateRunningImportModuleRunbook := "RunningImportModuleRunbook".
Definition ModuleProvisioningStateStartingImportModuleRunbook := "StartingImportModuleRunbook".
Definition ModuleProvisioningStateUpdating := "Updating".
Definition ModuleProvisioningStateSucceeded := "Succeeded".

Definition pendingStates : list string :=
  [ModuleProvisioningStateActivitiesStored;
   ModuleProvisioningStateConnectionTypeImported;
   ModuleProvisioningStateContentDownloaded;
   ModuleProvisioningStateContentRetrieved;
   ModuleProvisioningStateContentStored;
   ModuleProvisioningStateContentValidated;
   ModuleProvisioningStateCreated;
   ModuleProvisioningStateCreating;
   ModuleProvisioningStateModuleDataStored;
   ModuleProvisioningStateModuleImportRunbookComplete;
   ModuleProvisioningStateRunningImportModuleRunbook;
   ModuleProvisioningStateStartingImportModuleRunbook;
   ModuleProvisioningStateUpdating].

Definition targetStates : list string := [ModuleProvisioningStateSucceeded].

Section Resource.
Context {Payload Remote : Type}.
Variable api : Call PowerShell72ModuleId Payload -> Remote -> Remote * Response Module.

(** From go-azure-sdk: the string form of an ID and its parser. *)
Variable ID : PowerShell72ModuleId -> string.
Variable ParsePowerShell72ModuleID : string -> result error PowerShell72ModuleId.

(** [expandPowerShell72ModuleLink] with the parameters built around it: the
    request body, read off the resource data. *)
Variable expandPowerShell72ModuleLink : ResourceData -> Payload.

Local Abbreviation Op := (M PowerShell72ModuleId Module Payload Remote error).

(** What one refresh makes of a response: the provisioning state it shows
    and, when it has one, the error it ends the wait with. *)
Definition refreshOutcome (id : PowerShell72ModuleId) (resp : Response Module)
  : string * option error :=
  match Failure resp with
  | Some err2 => ("Error", Some (Wrapped ("retrieving " +:+ ID id) (ApiError err2)))
  | None =>
      let provisioningState := "Unknown" in
      match Body resp with
      | Some model =>
          match Properties model with
          | Some props =>
              let provisioningState :=
                match ProvisioningState props with
                | Some state => state
                | None => provisioningState
                end in
              match Error props with
              | Some {| ErrorMessage := Some message |} =>
                  if negb (String.eqb message "")
                  then (provisioningState, Some (Message message))
                  else (provisioningState, None)
              | _ => (provisioningState, None)
              end
          | None => (provisioningState, None)
          end
      | None => (provisioningState, None)
      end
  end.

(** The module of a response reports an error message that is not empty. *)
Definition reportsErrorMessage (resp : Response Module) : bool :=
  match Body resp with
  | Some {| Properties := Some props |} =>
      match Error props with
      | Some {| ErrorMessage := Some message |} => negb (String.eqb message "")
      | _ => false
      end
  | _ => false
  end.

(** The [Refresh] closure of the create and update functions. *)
Definition refreshModule (id : PowerShell72ModuleId) : Op (Response Module * string) :=
  let* resp := call api (Get id) in
  match refreshOutcome id resp with
  | (_, Some err) => fail err
  | (provisioningState, None) => ret (resp, provisioningState)
  end.

Definition stateConf (id : PowerShell72ModuleId)
  : PluginSdk.StateChangeConf (A := Response Module) :=
  {| PluginSdk.Pending := pendingStates;
     PluginSdk.Target := targetStates;
     PluginSdk.Refresh := refreshModule id |}.

(** What a response says about the module, read off its fields: the
    provisioning state it reports, if it reports one, and its error
    message. *)
Definition provisioningStateOf (resp : Response Module) : option string :=
  match Body resp with
  | Some {| Properties := Some props |} => ProvisioningState props
  | _ => None
  end.

Definition errorMessageOf (resp : Response Module) : option string :=
  match Body resp with
  | Some {| Properties := Some {| Error := Some info |} |} => ErrorMessage info
  | _ => None
  end.

(** How a wait can go, told by the responses its refreshes saw.  A response
    is pending when its Get did not fail, the module reports no error
    message and its provisioning state is one of the pending states; it has
    succeeded when, likewise without failure or error message, the
    provisioning state is Succeeded.  [before] were all pending, and then
    either a response that has succeeded was seen, the timeout fired, the Get
    of a refresh failed, the module reported an error message, or a state
    turned up that is neither pending nor Succeeded (a module without a
    provisioning state counts as in the state Unknown). *)
Definition pendingResponse (resp : Response Module) : Prop :=
  Failure resp = None /\
  reportsErrorMessage resp = false /\
  exists state, provisioningStateOf resp = Some state /\ In state pendingStates.

Definition succeededResponse (resp : Response Module) : Prop :=
  Failure resp = None /\
  reportsErrorMessage resp = false /\
  provisioningStateOf resp = Some ModuleProvisioningStateSucceeded.

Definition waitingError (id : PowerShell72ModuleId) (err : error) : error :=
  Wrapped ("waiting for " +:+ ID id +:+ " to finish provisioning") err.

Inductive Polled (id : PowerShell72ModuleId) (polls : nat)
  : list (Response Module) -> result error unit -> Prop :=
| PolledSucceeded (before : list (Response Module)) (resp : Response Module) :
    Forall pendingResponse before ->
    length before < polls ->
    succeededResponse resp ->
    Polled id polls (before ++ [resp]) (Ok tt)
| PolledTimeout (observed : list (Response Module)) :
    Forall pendingResponse observed ->
    length observed = polls ->
    Polled id polls observed (Err (waitingError id TimeoutError))
| PolledRefreshFailed (before : list (Response Module)) (resp : Response Module)
    (cause : string) :
    Forall pendingResponse before ->
    length before < polls ->
    Failure resp = Some cause ->
    Polled id polls (before ++ [resp])
      (Err (waitingError id (Wrapped ("retrieving " +:+ ID id) (ApiError cause))))
| PolledErrorMessage (before : list (Response Module)) (resp : Response Module)
    (message : string) :
    Forall pendingResponse before ->
    length before < polls ->
    Failure resp = None ->
    errorMessageOf resp = Some message ->
    message <> "" ->
    Polled id polls (before ++ [resp]) (Err (waitingError id (Message message)))
| PolledUnexpectedState (before : list (Response Module)) (resp : Response Module)
    (state : string) :
    Forall pendingResponse before ->
    length before < polls ->
    Failure resp = None ->
    reportsErrorMessage resp = false ->
    state = default "Unknown" (provisioningStateOf resp) ->
    state <> ModuleProvisioningStateSucceeded ->
    ~ In state pendingStates ->
    Polled id polls (before ++ [resp])
      (Err (waitingError id (UnexpectedStateError state))).

(** [WaitForStateContext] with its error wrapped as the resource does. *)
Definition waitForProvisioning (id : PowerShell72ModuleId) (polls : nat) : Op unit :=
  fun w =>
    match PluginSdk.WaitForStateContext (stateConf id) polls w with
    | (Ok _, w') => (Ok tt, w')
    | (Err err, w') => (Err (waitingError id err), w')
    end.

Definition resourceAutomationPowerShell72ModuleRead : Op unit :=
  let* stateId := GetId in
  match ParsePowerShell72ModuleID stateId with
  | Err err => fail err
  | Ok id =>
      let* resp := call api (Get id) in
      match Failure resp with
      | Some err =>
          if WasNotFound (HttpResponse resp) then SetId ""
          else fail (Wrapped ("making Read request on " +:+ ID id) (ApiError err))
      | None =>
          SetAttribute "name" (PowerShell72ModuleName id) ;;
          SetAttribute "resource_group_name" (ResourceGroupName id) ;;
          SetAttribute "automation_account_name" (AutomationAccountName id)
      end
  end.

Definition isGlobalModule (existing : Response Module) : bool :=
  match Body existing with
  | Some model =>
      match Properties model with
      | Some props => default false (IsGlobal props)
      | None => false
      end
  | None => false
  end.

(** The ID the create and update functions build from the configuration. *)
Definition configuredId (subscriptionId : string) (d : ResourceData)
  : PowerShell72ModuleId :=
  NewPowerShell72ModuleID subscriptionId (attribute d "resource_group_name")
    (attribute d "automation_account_name") (attribute d "name").

(** [polls]: the refreshes that complete before the create timeout fires. *)
Definition resourceAutomationPowerShell72ModuleCreate
    (subscriptionId : string) (polls : nat) : Op unit :=
  let* resourceGroupName := GetAttribute "resource_group_name" in
  let* automationAccountName := GetAttribute "automation_account_name" in
  let* name := GetAttribute "name" in
  let id := NewPowerShell72ModuleID subscriptionId resourceGroupName
              automationAccountName name in
  let* existing := call api (Get id) in
  match Failure existing with
  | Some err =>
      if negb (WasNotFound (HttpResponse existing)) then
        fail (Wrapped ("checking for presence of existing " +:+ ID id) (ApiError err))
      else ret tt
  | None => ret tt
  end ;;
  (* for existing global module do update instead of raising ImportAsExistsError *)
  let isGlobal := isGlobalModule existing in
  if negb (WasNotFound (HttpResponse existing)) && negb isGlobal then
    fail (ImportAsExistsError "azurerm_automation_powershell72_module" (ID id))
  else
    let* d := GetData in
    let parameters := expandPowerShell72ModuleLink d in
    let* created := call api (CreateOrUpdate id parameters) in
    match Failure created with
    | Some err => fail (ApiError err)
    | None =>
        (* the API returns 'done' but it's not actually finished provisioning yet *)
        waitForProvisioning id polls ;;
        SetId (ID id) ;;
        resourceAutomationPowerShell72ModuleRead
    end.

(** The runs of the create function, told by the calls they issued: a run
    fails on the existence check, fails on the create call, or reaches the
    wait; when the wait fails, its error is the run's and nothing is called
    after it. *)
Inductive CreateRun (subscriptionId : string) (polls : nat)
    (w w' : World PowerShell72ModuleId Module Payload Remote)
    (r : result error unit) : Prop :=
| FailedOnExistenceCheck (existing : Response Module) :
    is_err r = true ->
    calls w' = (calls w ++ [(Get (configuredId subscriptionId (data w)), existing)])%list ->
    CreateRun subscriptionId polls w w' r
| FailedOnCreate (existing created : Response Module) :
    is_err r = true ->
    isSome (Failure created) = true ->
    calls w'
    = (calls w ++
       [(Get (configuredId subscriptionId (data w)), existing);
        (CreateOrUpdate (configuredId subscriptionId (data w))
           (expandPowerShell72ModuleLink (data w)), created)])%list ->
    CreateRun subscriptionId polls w w' r
| Waited (existing created : Response Module) (observed : list (Response Module))
    (after : list (Call PowerShell72ModuleId Payload * Response Module))
    (waited : result error unit) :
    calls w'
    = (calls w ++
       (Get (configuredId subscriptionId (data w)), existing)
       :: (CreateOrUpdate (configuredId subscriptionId (data w))
             (expandPowerShell72ModuleLink (data w)), created)
       :: map (pair (Get (configuredId subscriptionId (data w)))) observed
       ++ after)%list ->
    Polled (configuredId subscriptionId (data w)) polls observed waited ->
    (forall err, waited = Err err -> r = Err err /\ after = []) ->
    (is_ok r = true -> waited = Ok tt) ->
    CreateRun subscriptionId polls w w' r.

End Resource.

End Automation.

(** ** [internal/services/costmanagement]: the view resources' base *)

Module CostManagement.
Import Sdk.

(** The ID type of go-azure-sdk's [views] package. *)
Record ScopedViewId := {
  Scope : string;
  ViewName : string
}.

Definition NewScopedViewID (scope viewName : string) : ScopedViewId :=
  {| Scope := scope; ViewName := viewName |}.

(** The part of [views.View] the base resource reads.  The list-valued
    properties (kpis, pivots, query) are kept in their flattened form. *)
Record ViewProperties := {
  Accumulated : option string;
  Chart : option string;
  DisplayName : option string;
  Kpis : string;
  Pivots : string;
  Query : string
}.

Record View := {
  ETag : option string;
  Properties : option ViewProperties
}.

Definition AccumulatedTypeTrue := "true".

Section Resource.
Context {Payload Remote : Type}.
Variable api : Call ScopedViewId Payload -> Remote -> Remote * Response View.

(** From go-azure-sdk: the string form of an ID and its parser. *)
Variable ID : ScopedViewId -> string.
Variable ParseScopedViewID : string -> result error ScopedViewId.

(** The [views.View] that [createOrUpdateCostManagementView] builds from the
    resource data and the ETag. *)
Variable expandView : ResourceData -> option string -> Payload.

Local Abbreviation Op := (M ScopedViewId View Payload Remote error).

Definition createOrUpdateCostManagementView (id : ScopedViewId) (etag : option string)
  : Op (option string) :=
  let* d := GetData in
  let props := expandView d etag in
  let* resp := call api (CreateOrUpdate id props) in
  ret (Failure resp).

Definition createFunc (resourceName scopeFieldName : string) : Op unit :=
  let* scope := GetAttribute scopeFieldName in
  let* name := GetAttribute "name" in
  let id := NewScopedViewID scope name in
  let* existing := call api (Get id) in
  match Failure existing with
  | Some err =>
      if negb (WasNotFound (HttpResponse existing)) then
        fail (Wrapped ("checking for presence of existing " +:+ ID id) (ApiError err))
      else ret tt
  | None => ret tt
  end ;;
  if negb (WasNotFound (HttpResponse existing)) then
    fail (ImportAsExistsError resourceName (ID id))
  else
    let* err := createOrUpdateCostManagementView id None in
    match err with
    | Some err => fail (Wrapped ("creating " +:+ ID id) (ApiError err))
    | None => SetId (ID id)
    end.

Definition readFunc (scopeFieldName : string) : Op unit :=
  let* stateId := GetId in
  match ParseScopedViewID stateId with
  | Err err => fail err
  | Ok id =>
      let* resp := call api (Get id) in
      match Failure resp with
      | Some err =>
          if WasNotFound (HttpResponse resp) then MarkAsGone
          else fail (Wrapped ("reading " +:+ ID id) (ApiError err))
      | None =>
          SetAttribute "name" (ViewName id) ;;
          SetAttribute scopeFieldName (Scope id) ;;
          match Body resp with
          | Some model =>
              match Properties model with
              | Some props =>
                  match Chart props with
                  | Some chart => SetAttribute "chart_type" chart
                  | None => ret tt
                  end ;;
                  let accumulated :=
                    match Accumulated props with
                    | Some a => String.eqb AccumulatedTypeTrue a
                    | None => false
                    end in
                  SetAttribute "accumulated" (if accumulated then "true" else "false") ;;
                  SetAttribute "display_name" (default "" (DisplayName props)) ;;
                  SetAttribute "kpi" (Kpis props) ;;
                  SetAttribute "pivot" (Pivots props) ;;
                  SetAttribute "query" (Query props)
              | None => ret tt
              end
          | None => ret tt
          end
      end
  end.

Definition deleteFunc : Op unit :=
  let* stateId := GetId in
  match ParseScopedViewID stateId with
  | Err err => fail err
  | Ok id =>
      let* resp := call api (Delete id) in
      match Failure resp with
      | Some err => fail (Wrapped ("deleting " +:+ ID id) (ApiError err))
      | None => ret tt
      end
  end.

Definition updateFunc : Op unit :=
  let* stateId := GetId in
  match ParseScopedViewID stateId with
  | Err err => fail err
  | Ok id =>
      (* Update operation requires latest eTag to be set in the request. *)
      let* resp := call api (Get id) in
      match Failure resp with
      | Some err => fail (Wrapped ("reading " +:+ ID id) (ApiError err))
      | None =>
          match Body resp with
          | Some model =>
              match ETag model with
              | None => fail (Message ("add " +:+ ID id +:+ ": etag was nil"))
              | Some etag =>
                  let* err := createOrUpdateCostManagementView id (Some etag) in
                  match err with
                  | Some err => fail (Wrapped ("updating " +:+ ID id) (ApiError err))
                  | None => ret tt
                  end
              end
          | None => fail NilPointerDereference
          end
      end
  end.

End Resource.

End CostManagement.

(** ** [internal/services/chaos]: the target resource *)

Module Chaos.
Import Sdk.

(** The ID type of the embedded [targets] SDK. *)
Record TargetId := {
  SubscriptionId : string;
  ResourceGroupName : string;
  ParentProviderNamespace : string;
  ParentResourceType : string;
  ParentResourceName : string;
  TargetName : string
}.

Definition NewTargetID
    (subscriptionId resourceGroupName parentProviderNamespace parentResourceType
       parentResourceName targetName : string) : TargetId :=
  {| SubscriptionId := subscriptionId;
     ResourceGroupName := resourceGroupName;
     ParentProviderNamespace := parentProviderNamespace;
     ParentResourceType := parentResourceType;
     ParentResourceName := parentResourceName;
     TargetName := targetName |}.

Record TargetResourceModel := {
  Name : string;
  ResourceGroup : string;
  ParentResourceType_ : string;
  ParentName : string;
  ParentProviderNamespace_ : string;
  Location : string
}.

(** [targets.Target] as the resource builds and reads it: the location and
    the identities of its properties (type and subject). *)
Record Target := {
  TargetLocation : option string;
  Identities : option (list (string * string))
}.

Definition ResourceType : string := "azurerm_chaos_target".

Section Resource.
Context {Remote : Type}.
Variable api : Call TargetId Target -> Remote -> Remote * Response Target.

(** The string form of an ID and its parser, from the embedded SDK's ID file
    (not among the source files); [metadata.Decode] and
    [location.NormalizeNilable] of the provider's helpers. *)
Variable ID : TargetId -> string.
Variable ParseTargetID : string -> result error TargetId.
Variable Decode : ResourceData -> result error TargetResourceModel.
Variable NormalizeNilable : string -> string.

Local Abbreviation Op := (M TargetId Target Target Remote error).

(** [metadata.Encode]: the model written back attribute by attribute. *)
Definition Encode (state : TargetResourceModel) : Op unit :=
  SetAttribute "name" (Name state) ;;
  SetAttribute "resource_group_name" (ResourceGroup state) ;;
  SetAttribute "parent_resource_type" (ParentResourceType_ state) ;;
  SetAttribute "parent_name" (ParentName state) ;;
  SetAttribute "parent_provider_namespace" (ParentProviderNamespace_ state) ;;
  SetAttribute "location" (Location state).

Definition Create (subscriptionId : string) : Op unit :=
  let* d := GetData in
  match Decode d with
  | Err err => fail (Wrapped "decoding" err)
  | Ok model =>
      let id := NewTargetID subscriptionId (ResourceGroup model)
                  (ParentProviderNamespace_ model) (ParentResourceType_ model)
                  (ParentName model) (Name model) in
      let* existing := call api (Get id) in
      if isSome (Failure existing) && negb (WasNotFound (HttpResponse existing)) then
        fail (Wrapped ("checking for presence of existing Chaos " +:+ ID id)
                (ApiError (default "" (Failure existing))))
      else if negb (WasNotFound (HttpResponse existing)) then
        (* metadata.ResourceRequiresImport *)
        fail (ImportAsExistsError ResourceType (ID id))
      else
        let target :=
          if String.eqb (TargetName id) "Microsoft-Agent" then
            {| TargetLocation := Some (Location model);
               Identities := Some [("CertificateSubjectIssuer", "CN=example.subject")] |}
          else
            {| TargetLocation := Some (Location model); Identities := None |} in
        let* created := call api (CreateOrUpdate id target) in
        match Failure created with
        | Some err => fail (Wrapped ("creating " +:+ ID id) (ApiError err))
        | None => SetId (ID id)
        end
  end.

Definition Read : Op unit :=
  let* stateId := GetId in
  match ParseTargetID stateId with
  | Err err => fail (Wrapped "while parsing resource ID" err)
  | Ok id =>
      let* resp := call api (Get id) in
      match Failure resp with
      | Some err =>
          if negb (WasNotFound (HttpResponse resp)) then MarkAsGone
          else
            fail (Wrapped ("while checking for Chaos Target's " +:+ TargetName id
                           +:+ " existence") (ApiError err))
      | None =>
          match Body resp with
          | Some {| TargetLocation := Some location |} =>
              Encode {| Name := TargetName id;
                        Location := NormalizeNilable location;
                        ResourceGroup := ResourceGroupName id;
                        ParentResourceType_ := ParentResourceType id;
                        ParentProviderNamespace_ := ParentProviderNamespace id;
                        ParentName := ParentResourceName id |}
          | _ => fail NilPointerDereference
          end
      end
  end.

Definition Delete_ : Op unit :=
  let* stateId := GetId in
  match ParseTargetID stateId with
  | Err err => fail (Wrapped "while parsing resource ID" err)
  | Ok id =>
      let* resp := call api (Delete id) in
      match Failure resp with
      | Some err =>
          fail (Wrapped ("while removing Chaos Target " +:+ TargetName id) (ApiError err))
      | None => ret tt
      end
  end.

End Resource.

End Chaos.

(** ** [internal/services/cosmos]: reading a SQL role assignment *)

Module Cosmos.
Import Sdk.

(** The part of [documentdb.SQLRoleAssignmentGetResults] the resource reads. *)
Record SQLRoleAssignmentResource := {
  RoleDefinitionID : option string;
  Scope : option string;
  PrincipalID : option string
}.

Record SQLRoleAssignmentGetResults := {
  Name : option string;
  Resource : option SQLRoleAssignmentResource
}.

Section Resource.
Context {Payload Remote : Type}.
Variable api :
  Call CosmosParse.SqlRoleAssigmentId Payload -> Remote ->
  Remote * Response SQLRoleAssignmentGetResults.

Local Abbreviation Op :=
  (M CosmosParse.SqlRoleAssigmentId SQLRoleAssignmentGetResults Payload Remote error).

Definition resourceCosmosDbRoleAssignmentRead : Op unit :=
  let* stateId := GetId in
  match CosmosParse.SqlRoleAssigmentID stateId with
  | Err _ => fail (ParseError stateId)
  | Ok id =>
      let* resp := call api (Get id) in
      match Failure resp with
      | Some err => fail (Wrapped ("retrieving " +:+ CosmosParse.ID id) (ApiError err))
      | None =>
          match Body resp with
          | Some results =>
              SetAttribute "name" (default "" (Name results)) ;;
              match Resource results with
              | Some v =>
                  SetAttribute "scope" (default "" (Scope v)) ;;
                  SetAttribute "principal_id" (default "" (PrincipalID v)) ;;
                  SetAttribute "role_definition_id" (default "" (RoleDefinitionID v))
              | None => ret tt
              end
          | None => SetAttribute "name" ""
          end
      end
  end.

End Resource.

End Cosmos.

(** ** [internal/services/chaos/sdk/.../targets]: the paged List *)

Module TargetsSdk.

(** An HTTP request as the preparers build it, and the response the sender
    hands back. *)
Record Request := {
  Method : string;
  ContentType : string;
  BaseURL : string;
  Path : string;
  QueryParameters : gmap string string
}.

Record HttpResponse := {
  StatusCode : Z;
  ResponseBody : string
}.

Inductive error :=
| PrepareError (cause : string)
| FailurePreparingRequest (cause : error)
| FailureSendingRequest (cause : string)
| FailureRespondingToRequest (cause : string)
| ParsingNextLink (nextLink cause : string)
| NoMorePagesReturned
| LoadingTheInitialPage (cause : error)
| LoadingTheNextPage (cause : error)
| PagesBeyondFuel.

Record ListOptions := { ContinuationToken : option string }.

Definition DefaultListOptions : ListOptions := {| ContinuationToken := None |}.

Definition toQueryString (o : ListOptions) : gmap string string :=
  match ContinuationToken o with
  | Some token => <["continuationToken" := token]> ∅
  | None => ∅
  end.

Section Client.
Context {Target ProviderId Remote : Type}.

(** The decoded body of a list response. *)
Record page := {
  Values : list Target;
  NextLink : option string
}.

(** [nextPageFunc] is set exactly when [nextLink] is, and always to the same
    closure over the client; it is [loadNextPage] below. *)
Record ListResponse := {
  HttpResponse_ : option HttpResponse;
  Model : option (list Target);
  nextLink : option string
}.

Record ListCompleteResult := { Items : list Target }.

(** The client: its base URI, and the sender it hands every request to
    together with the retry decorator of go-autorest.  What the sender does
    with a request (retries included) is the sender's business: it is any
    function of the request and the remote state. *)
Variable baseUri : string.
Variable Send : Request -> Remote -> Remote * (option HttpResponse * option string).

(** From the packages around the file: the ID's string form, the API
    version, go-autorest's [Encode] and request preparation, the JSON
    decoding of a page, and [url.Parse] (its path and query values). *)
Variable ID : ProviderId -> string.
Variable defaultApiVersion : string.
Variable Encode : string -> string -> string.
Variable Prepare : Request -> result string Request.
Variable unmarshalPage : string -> result string page.
Variable urlParse : string -> result string (string * gmap string (list string)).

(** The state a client call threads: the remote side and the requests that
    were handed to the sender, in order. *)
Record Wire := {
  remote : Remote;
  sent : list Request
}.

Definition HasMore (r : ListResponse) : bool := isSome (nextLink r).

Definition zeroListResponse : ListResponse :=
  {| HttpResponse_ := None; Model := None; nextLink := None |}.

Definition preparerForList (id : ProviderId) (options : ListOptions)
  : result string Request :=
  let queryParameters :=
    (Encode "query" <$> toQueryString options) ∪ {["api-version" := defaultApiVersion]} in
  Prepare {| Method := "GET";
             ContentType := "application/json; charset=utf-8";
             BaseURL := baseUri;
             Path := ID id +:+ "/providers/Microsoft.Chaos/targets";
             QueryParameters := queryParameters |}.

Definition preparerForListWithNextLink (nextLink : string) : result error Request :=
  match urlParse nextLink with
  | Err cause => Err (ParsingNextLink nextLink cause)
  | Ok (path, query) =>
      let queryParameters :=
        omap (fun v => match v with
                       | [] => None
                       | val :: _ => Some (Encode "query" val)
                       end) query in
      match Prepare {| Method := "GET";
                       ContentType := "application/json; charset=utf-8";
                       BaseURL := baseUri;
                       Path := path;
                       QueryParameters := queryParameters |} with
      | Ok req => Ok req
      | Err cause => Err (PrepareError cause)
      end
  end.

(** [responderForList]: the status must be 200 and the body must decode; the
    response is filled in either way.  A nil response is passed over by
    go-autorest's [Respond] without an error. *)
Definition responderForList (resp : option HttpResponse) : ListResponse * option string :=
  match resp with
  | None => ({| HttpResponse_ := None; Model := Some []; nextLink := None |}, None)
  | Some httpResponse =>
      let decoded :=
        if negb (StatusCode httpResponse =? 200)%Z then Err "unexpected status code"
        else unmarshalPage (ResponseBody httpResponse) in
      match decoded with
      | Ok respObj =>
          ({| HttpResponse_ := resp;
              Model := Some (Values respObj);
              nextLink := NextLink respObj |}, None)
      | Err cause =>
          ({| HttpResponse_ := resp; Model := Some []; nextLink := None |}, Some cause)
      end
  end.

(** Hand one request to the sender and record it. *)
Definition send (req : Request) (w : Wire)
  : option HttpResponse * option string * Wire :=
  let '(remote', answer) := Send req (remote w) in
  (answer, {| remote := remote'; sent := (sent w ++ [req])%list |}).

(** What [List] and the next-page closure share once the request is
    prepared: send, then respond. *)
Definition sendAndRespond (req : Request) (w : Wire)
  : ListResponse * option error * Wire :=
  match send req w with
  | (httpResponse, Some cause, w') =>
      ({| HttpResponse_ := httpResponse; Model := None; nextLink := None |},
       Some (FailureSendingRequest cause), w')
  | (httpResponse, None, w') =>
      match responderForList httpResponse with
      | (resp, Some cause) => (resp, Some (FailureRespondingToRequest cause), w')
      | (resp, None) => (resp, None, w')
      end
  end.

Definition List (id : ProviderId) (options : ListOptions) (w : Wire)
  : ListResponse * option error * Wire :=
  match preparerForList id options with
  | Err cause => (zeroListResponse, Some (FailurePreparingRequest (PrepareError cause)), w)
  | Ok req => sendAndRespond req w
  end.

(** The closure [responderForList] stores in [nextPageFunc]. *)
Definition loadNextPage (nextLink : string) (w : Wire)
  : ListResponse * option error * Wire :=
  match preparerForListWithNextLink nextLink with
  | Err cause => (zeroListResponse, Some (FailurePreparingRequest cause), w)
  | Ok req => sendAndRespond req w
  end.

Definition LoadMore (r : ListResponse) (w : Wire)
  : ListResponse * option error * Wire :=
  match nextLink r with
  | None => (zeroListResponse, Some NoMorePagesReturned, w)
  | Some link => loadNextPage link w
  end.

Definition matching (Matches : Target -> bool) (r : ListResponse) : list Target :=
  match Model r with
  | Some values => filter (fun v => Matches v = true) values
  | None => []
  end.

(** The items of a list of pages that match the predicate, page by page. *)
Definition matchingItems (Matches : Target -> bool) (pages : list page) : list Target :=
  flat_map (fun p => filter (fun v => Matches v = true) (Values p)) pages.

(** The loop of [ListCompleteMatchingPredicate]: [for page.HasMore()].  Go
    follows next links for as long as the service hands them out; here
    [fuel] bounds the pages followed, and running out is an error of its
    own. *)
Fixpoint loadRemainingPages (fuel : nat) (Matches : Target -> bool)
    (current : ListResponse) (items : list Target) (w : Wire)
  : result error ListCompleteResult * Wire :=
  if HasMore current then
    match fuel with
    | O => (Err PagesBeyondFuel, w)
    | S fuel' =>
        match LoadMore current w with
        | (_, Some err, w') => (Err (LoadingTheNextPage err), w')
        | (next, None, w') =>
            loadRemainingPages fuel' Matches next
              (items ++ matching Matches next)%list w'
        end
    end
  else (Ok {| Items := items |}, w).

Definition ListCompleteMatchingPredicate (fuel : nat) (id : ProviderId)
    (options : ListOptions) (Matches : Target -> bool) (w : Wire)
  : result error ListCompleteResult * Wire :=
  match List id options w with
  | (_, Some err, w') => (Err (LoadingTheInitialPage err), w')
  | (first, None, w') =>
      loadRemainingPages fuel Matches first (matching Matches first) w'
  end.

(** [ListComplete]: every target matches the empty predicate. *)
Definition ListComplete (fuel : nat) (id : ProviderId) (options : ListOptions)
    (w : Wire) : result error ListCompleteResult * Wire :=
  ListCompleteMatchingPredicate fuel id options (fun _ => true) w.

(** The service answers [req], and the next links that follow from it, with
    the pages [pages], the last of which has no next link. *)
Inductive Serves : Request -> Remote -> list page -> Remote -> list Request -> Prop :=
| ServesLast (req : Request) (s0 s' : Remote) (resp : HttpResponse) (p : page) :
    Send req s0 = (s', (Some resp, None)) ->
    StatusCode resp = 200%Z ->
    unmarshalPage (ResponseBody resp) = Ok p ->
    NextLink p = None ->
    Serves req s0 [p] s' [req]
| ServesMore (req next : Request) (s0 s1 s' : Remote) (resp : HttpResponse)
    (p : page) (link : string) (rest : list page) (requests : list Request) :
    Send req s0 = (s1, (Some resp, None)) ->
    StatusCode resp = 200%Z ->
    unmarshalPage (ResponseBody resp) = Ok p ->
    NextLink p = Some link ->
    preparerForListWithNextLink link = Ok next ->
    Serves next s1 rest s' requests ->
    Serves req s0 (p :: rest) s' (req :: requests).

End Client.

End TargetsSdk.

(** ** The Kusto scripts client: [CheckNameAvailability] *)

Module Kusto.

Record ScriptCheckNameRequest := {
  Name : option string;
  Type_ : option string
}.

Record CheckNameResult := {
  NameAvailable : option bool;
  ResultName : option string;
  ResultMessage : option string;
  Reason : option string;
  Response : option Z
}.

Definition zeroCheckNameResult : CheckNameResult :=
  {| NameAvailable := None; ResultName := None; ResultMessage := None;
     Reason := None; Response := None |}.

Record Request := {
  Method : string;
  ContentType : string;
  BaseURL : string;
  Path : string;
  QueryParameters : gmap string string;
  JSON : ScriptCheckNameRequest
}.

Inductive error :=
| ValidationError (packageType method message : string)
| FailurePreparingRequest (cause : string)
| FailureSendingRequest (cause : string)
| FailureRespondingToRequest (cause : string).

(** What the client does to the outside: it prepares requests and hands them
    to the sender. *)
Inductive Event :=
| Prepared (req : Request)
| Sent (req : Request).

(** Modelled from the spec: go-autorest's [validation] package is an external
    dependency.  Of it, only the [Null] constraint on the pointer fields of a
    struct is used here: with [Rule] true, a nil field is an error, and the
    first failing constraint decides. *)
Inductive ConstraintName := Null.

Record Constraint := {
  Target : string;
  ConstraintName_ : ConstraintName;
  Rule : bool
}.

(** Modelled from the spec: the field a constraint's target names, looked up
    as go-autorest does by reflection, and whether it is nil. *)
Definition fieldIsNil (scriptName : ScriptCheckNameRequest) (target : string) : bool :=
  if String.eqb target "scriptName.Name" then negb (isSome (Name scriptName))
  else if String.eqb target "scriptName.Type" then negb (isSome (Type_ scriptName))
  else false.

(** Modelled from the spec: [validation.Validate] of go-autorest on one
    target value (see [ConstraintName]). *)
Fixpoint Validate (scriptName : ScriptCheckNameRequest) (constraints : list Constraint)
  : option string :=
  match constraints with
  | [] => None
  | c :: rest =>
      if fieldIsNil scriptName (Target c) && Rule c then
        Some (Target c +:+ ": value can not be null; required parameter")
      else Validate scriptName rest
  end.

(** The request [CheckNameAvailabilityPreparer] puts together. *)
Definition checkNameRequest (BaseURI SubscriptionID : string)
    (Encode : string -> string -> string)
    (resourceGroupName clusterName databaseName : string)
    (scriptName : ScriptCheckNameRequest) : Request :=
  {| Method := "POST";
     ContentType := "application/json; charset=utf-8";
     BaseURL := BaseURI;
     Path :=
       Sprintf
         "/subscriptions/%s/resourceGroups/%s/providers/Microsoft.Kusto/clusters/%s/databases/%s/scriptsCheckNameAvailability"
         [Encode "path" SubscriptionID; Encode "path" resourceGroupName;
          Encode "path" clusterName; Encode "path" databaseName];
     QueryParameters := {["api-version" := "2021-01-01"]};
     JSON := scriptName |}.

Section Client.
Context {Remote : Type}.

(** The client's settings, go-autorest's [Encode] and request preparation,
    the sender (with its retry decorator) and the decoding of the body. *)
Variable BaseURI : string.
Variable SubscriptionID : string.
Variable Encode : string -> string -> string.
Variable Prepare : Request -> result string Request.
Variable Send : Request -> Remote -> Remote * (option (Z * string) * option string).
Variable unmarshal : string -> result string CheckNameResult.

Record Wire := {
  remote : Remote;
  events : list Event
}.

Definition CheckNameAvailabilityPreparer
    (resourceGroupName clusterName databaseName : string)
    (scriptName : ScriptCheckNameRequest) (w : Wire)
  : result string Request * Wire :=
  let req := checkNameRequest BaseURI SubscriptionID Encode resourceGroupName
               clusterName databaseName scriptName in
  (Prepare req, {| remote := remote w; events := (events w ++ [Prepared req])%list |}).

Definition CheckNameAvailabilitySender (req : Request) (w : Wire)
  : option (Z * string) * option string * Wire :=
  let '(remote', answer) := Send req (remote w) in
  (answer, {| remote := remote'; events := (events w ++ [Sent req])%list |}).

Definition CheckNameAvailabilityResponder (resp : option (Z * string))
  : CheckNameResult * option string :=
  match resp with
  | None => (zeroCheckNameResult, None)
  | Some (statusCode, body) =>
      let decoded :=
        if negb (statusCode =? 200)%Z then Err "unexpected status code"
        else unmarshal body in
      match decoded with
      | Ok result =>
          ({| NameAvailable := NameAvailable result;
              ResultName := ResultName result;
              ResultMessage := ResultMessage result;
              Reason := Reason result;
              Response := Some statusCode |}, None)
      | Err cause =>
          ({| NameAvailable := None; ResultName := None; ResultMessage := None;
              Reason := None; Response := Some statusCode |}, Some cause)
      end
  end.

(** [CheckNameAvailability] checks that the script name is valid and is not
    already in use.  The tracing span the method opens when tracing is
    enabled does not change what it returns and is left out. *)
Definition CheckNameAvailability
    (resourceGroupName clusterName databaseName : string)
    (scriptName : ScriptCheckNameRequest) (w : Wire)
  : CheckNameResult * option error * Wire :=
  match Validate scriptName
          [{| Target := "scriptName.Name"; ConstraintName_ := Null; Rule := true |};
           {| Target := "scriptName.Type"; ConstraintName_ := Null; Rule := true |}] with
  | Some message =>
      (zeroCheckNameResult,
       Some (ValidationError "kusto.ScriptsClient" "CheckNameAvailability" message), w)
  | None =>
      match CheckNameAvailabilityPreparer resourceGroupName clusterName databaseName
              scriptName w with
      | (Err cause, w1) =>
          (zeroCheckNameResult, Some (FailurePreparingRequest cause), w1)
      | (Ok req, w1) =>
          match CheckNameAvailabilitySender req w1 with
          | (resp, Some cause, w2) =>
              ({| NameAvailable := None; ResultName := None; ResultMessage := None;
                  Reason := None; Response := fst <$> resp |},
               Some (FailureSendingRequest cause), w2)
          | (resp, None, w2) =>
              match CheckNameAvailabilityResponder resp with
              | (result, Some cause) =>
                  (result, Some (FailureRespondingToRequest cause), w2)
              | (result, None) => (result, None, w2)
              end
          end
      end
  end.

End Client.

End Kusto.

(** ** The resource declarations *)

Module Declarations.

(** [pluginsdk.Resource], as the resource functions fill it in: the CRUD
    functions by name (nil when the field is left out), the importer, the
    timeouts in minutes and the top-level keys of the schema. *)
Inductive ResourceImporter :=
| DefaultImporter
| ImporterValidatingResourceId (parser : string)
| ImportStatePassthrough.

Record ResourceTimeout := {
  TimeoutCreate : option Z;
  TimeoutRead : option Z;
  TimeoutUpdate : option Z;
  TimeoutDelete : option Z
}.

Record Resource := {
  Create : option string;
  Read : option string;
  Update : option string;
  Delete : option string;
  Importer : option ResourceImporter;
  Timeouts : ResourceTimeout;
  Schema : list string
}.

(** A typed resource: a type that implements [sdk.Resource], whose methods
    [Create], [Read], [Delete] and [IDValidationFunc] the interface demands,
    and that may implement [Update] besides ([sdk.ResourceWithUpdate]).  Each
    method is kept by the timeout of the [sdk.ResourceFunc] it returns. *)
Record TypedResource := {
  ResourceType : string;
  Arguments : list string;
  Attributes : list string;
  CreateFunc : Z;
  ReadFunc : Z;
  UpdateFunc : option Z;
  DeleteFunc : Z;
  IDValidationFunc : string
}.

Inductive Declaration :=
| Untyped (function : string) (r : Resource)
| Typed (t : TypedResource).

Definition resourceCosmosDbRoleAssignment : Resource :=
  {| Create := Some "resourceCosmosDbRoleAssignmentCreateUpdate";
     Read := Some "resourceCosmosDbRoleAssignmentRead";
     (* Update: resourceCosmosDbRoleAssignmentCreateUpdate, *)
     Update := None;
     Delete := Some "resourceCosmosDbRoleAssignmentDelete";
     Importer := Some DefaultImporter;
     Timeouts := {| TimeoutCreate := Some 30%Z; TimeoutRead := Some 5%Z;
                    TimeoutUpdate := None; TimeoutDelete := Some 30%Z |};
     Schema := ["name"; "cosmosdb_account_name"; "resource_group_name"; "scope";
                "role_definition_id"; "role_definition_name"; "principal_id"] |}.

Definition resourceKubernetesArcExtension : Resource :=
  {| Create := Some "resourceKubernetesArcExtensionCreate";
     Read := Some "resourceKubernetesArcExtensionRead";
     Update := None;
     Delete := Some "resourceKubernetesArcExtensionDelete";
     Importer := Some (ImporterValidatingResourceId "parse.ClusterID");
     Timeouts := {| TimeoutCreate := Some 90%Z; TimeoutRead := Some 5%Z;
                    TimeoutUpdate := None; TimeoutDelete := Some 90%Z |};
     Schema := ["name"; "cluster_name"; "location"; "resource_group_name"] |}.

Definition resourceAutomationPowerShell72Module : Resource :=
  {| Create := Some "resourceAutomationPowerShell72ModuleCreate";
     Read := Some "resourceAutomationPowerShell72ModuleRead";
     Update := Some "resourceAutomationPowerShell72ModuleUpdate";
     Delete := Some "resourceAutomationPowerShell72ModuleDelete";
     Importer := Some (ImporterValidatingResourceId "module.ParsePowerShell72ModuleID");
     Timeouts := {| TimeoutCreate := Some 30%Z; TimeoutRead := Some 5%Z;
                    TimeoutUpdate := Some 30%Z; TimeoutDelete := Some 30%Z |};
     Schema := ["name"; "automation_account_name"; "resource_group_name";
                "module_link"] |}.

Definition resourceArmApplicationInsightsWorkBook : Resource :=
  {| Create := Some "resourceArmApplicationInsightsWorkBookCreateUpdate";
     Read := Some "resourceArmApplicationInsightsWorkBookRead";
     Update := Some "resourceArmApplicationInsightsWorkBookCreateUpdate";
     Delete := Some "resourceArmApplicationInsightsWorkBookDelete";
     Importer := Some ImportStatePassthrough;
     Timeouts := {| TimeoutCreate := Some 30%Z; TimeoutRead := Some 5%Z;
                    TimeoutUpdate := Some 30%Z; TimeoutDelete := Some 30%Z |};
     Schema := ["name"; "resource_group_name"; "application_insights_id"; "location";
                "kind"; "tags"; "workbook"] |}.

Definition resourceArmSqlMiServer : Resource :=
  {| Create := Some "resourceArmSqlMiServerCreateUpdate";
     Read := Some "resourceArmSqlMiServerRead";
     Update := Some "resourceArmSqlMiServerCreateUpdate";
     Delete := Some "resourceArmSqlMiServerDelete";
     Importer := Some (ImporterValidatingResourceId "parse.ManagedInstanceID");
     Timeouts := {| TimeoutCreate := Some 1440%Z; TimeoutRead := Some 5%Z;
                    TimeoutUpdate := Some 1440%Z; TimeoutDelete := Some 1440%Z |};
     Schema := ["name"; "location"; "resource_group_name"; "sku_name";
                "administrator_login"; "administrator_login_password"; "vcores";
                "storage_size_in_gb"; "license_type"; "subnet_id"; "collation";
                "public_data_endpoint_enabled"; "minimum_tls_version";
                "proxy_override"; "timezone_id"; "fqdn"; "dns_zone_partner_id";
                "identity"; "azuread_administrator"; "tags"] |}.

Definition resourceFirewallPolicy : Resource :=
  {| Create := Some "resourceFirewallPolicyCreateUpdate";
     Read := Some "resourceFirewallPolicyRead";
     Update := Some "resourceFirewallPolicyCreateUpdate";
     Delete := Some "resourceFirewallPolicyDelete";
     Importer := Some (ImporterValidatingResourceId "parse.FirewallPolicyID");
     Timeouts := {| TimeoutCreate := Some 30%Z; TimeoutRead := Some 5%Z;
                    TimeoutUpdate := Some 30%Z; TimeoutDelete := Some 30%Z |};
     Schema := ["name"; "resource_group_name"; "sku"; "location"; "base_policy_id";
                "dns"; "threat_intelligence_mode"; "threat_intelligence_allowlist";
                "intrusion_detection"; "identity"; "tls_certificate";
                "child_policies"; "firewalls"; "rule_collection_groups";
                "private_ip_ranges"; "tags"] |}.

Definition resourceFunctionAppHostKeys : Resource :=
  {| Create := Some "resourceFunctionAppHostKeysCreateUpdate";
     Read := Some "resourceFunctionAppHostKeysRead";
     Update := Some "resourceFunctionAppHostKeysCreateUpdate";
     Delete := Some "resourceFunctionAppHostKeysDelete";
     Importer := None;
     Timeouts := {| TimeoutCreate := Some 30%Z; TimeoutRead := Some 5%Z;
                    TimeoutUpdate := Some 30%Z; TimeoutDelete := Some 30%Z |};
     Schema := ["name"; "resource_group_name"; "primary_key"; "host_keys"] |}.

Definition resourceKubernetesMaintenanceConfiguration : Resource :=
  {| Create := Some "resourceKubernetesMaintenanceConfigurationCreate";
     Read := Some "resourceKubernetesMaintenanceConfigurationRead";
     Update := Some "resourceKubernetesMaintenanceConfigurationUpdate";
     Delete := Some "resourceKubernetesMaintenanceConfigurationDelete";
     Importer := Some (ImporterValidatingResourceId "parse.MaintenanceConfigurationID");
     Timeouts := {| TimeoutCreate := Some 60%Z; TimeoutRead := Some 5%Z;
                    TimeoutUpdate := Some 60%Z; TimeoutDelete := Some 60%Z |};
     Schema := ["name"; "kubernetes_cluster_id"; "maintenance_allowed";
                "maintenance_not_allowed_window"] |}.

Definition TargetResource : TypedResource :=
  {| ResourceType := "azurerm_chaos_target";
     Arguments := ["name"; "resource_group_name"; "location"; "parent_resource_type";
                   "parent_name"; "parent_provider_namespace"];
     Attributes := [];
     CreateFunc := 30%Z;
     ReadFunc := 5%Z;
     UpdateFunc := None;
     DeleteFunc := 30%Z;
     IDValidationFunc := "targets.ValidateTargetID" |}.

Definition AnomalyAlertResource : TypedResource :=
  {| ResourceType := "azurerm_costmanagement_anomaly_alert";
     Arguments := ["name"; "email_subject"; "email_addresses"; "message"];
     Attributes := [];
     CreateFunc := 30%Z;
     ReadFunc := 5%Z;
     UpdateFunc := Some 30%Z;
     DeleteFunc := 30%Z;
     IDValidationFunc := "scheduledactions.ValidateScopedScheduledActionID" |}.

(** The resource declarations among the source files. *)
Definition declaredResources : list Declaration :=
  [Untyped "resourceCosmosDbRoleAssignment" resourceCosmosDbRoleAssignment;
   Untyped "resourceKubernetesArcExtension" resourceKubernetesArcExtension;
   Untyped "resourceAutomationPowerShell72Module" resourceAutomationPowerShell72Module;
   Untyped "resourceArmApplicationInsightsWorkBook" resourceArmApplicationInsightsWorkBook;
   Untyped "resourceArmSqlMiServer" resourceArmSqlMiServer;
   Untyped "resourceFirewallPolicy" resourceFirewallPolicy;
   Untyped "resourceFunctionAppHostKeys" resourceFunctionAppHostKeys;
   Untyped "resourceKubernetesMaintenanceConfiguration"
     resourceKubernetesMaintenanceConfiguration;
   Typed TargetResource;
   Typed AnomalyAlertResource].

Definition declarationName (d : Declaration) : string :=
  match d with
  | Untyped function _ => function
  | Typed t => ResourceType t
  end.

Definition suppliesSchema (d : Declaration) : bool :=
  match d with
  | Untyped _ r => negb (Nat.eqb (length (Schema r)) 0)
  | Typed t => negb (Nat.eqb (length (Arguments t ++ Attributes t)) 0)
  end.

Definition implementsCreate (d : Declaration) : bool :=
  match d with
  | Untyped _ r => isSome (Create r)
  | Typed _ => true
  end.

Definition implementsRead (d : Declaration) : bool :=
  match d with
  | Untyped _ r => isSome (Read r)
  | Typed _ => true
  end.

Definition implementsUpdate (d : Declaration) : bool :=
  match d with
  | Untyped _ r => isSome (Update r)
  | Typed t => isSome (UpdateFunc t)
  end.

Definition implementsDelete (d : Declaration) : bool :=
  match d with
  | Untyped _ r => isSome (Delete r)
  | Typed _ => true
  end.

(** For a typed resource the importer is built from [IDValidationFunc]. *)
Definition implementsImport (d : Declaration) : bool :=
  match d with
  | Untyped _ r => isSome (Importer r)
  | Typed _ => true
  end.

(** What the description asks of every declaration. *)
Definition implementsAllFive (d : Declaration) : bool :=
  suppliesSchema d && implementsCreate d && implementsRead d && implementsUpdate d
  && implementsDelete d && implementsImport d.

End Declarations.

(** ** Concrete clouds to run the operations against *)

Module Scenarios.
Import Sdk.

(** A remote side that answers the n-th call with the n-th response of a
    script, whatever the call, and with [fallback] once the script is over;
    its state is the number of calls it has answered. *)
Definition scripted {ResourceId Model Payload : Type}
    (script : list (Response Model)) (fallback : Response Model)
  : Call ResourceId Payload -> nat -> nat * Response Model :=
  fun _ n => (S n, nth n script fallback).

Definition notFound {Model : Type} : Response Model :=
  {| HttpResponse := Some 404%Z; Body := None; Failure := Some "404 Not Found" |}.

Definition serverError {Model : Type} : Response Model :=
  {| HttpResponse := Some 500%Z; Body := None;
     Failure := Some "500 Internal Server Error" |}.

Definition found {Model : Type} (model : Model) : Response Model :=
  {| HttpResponse := Some 200%Z; Body := Some model; Failure := None |}.

Definition accepted {Model : Type} : Response Model :=
  {| HttpResponse := Some 200%Z; Body := None; Failure := None |}.

Definition start {ResourceId Model Payload : Type} (d : ResourceData)
  : World ResourceId Model Payload nat :=
  {| remote := 0; calls := []; data := d |}.

(** *** The PowerShell 7.2 module *)

Definition moduleID (id : Automation.PowerShell72ModuleId) : string :=
  Sprintf
    "/subscriptions/%s/resourceGroups/%s/providers/Microsoft.Automation/automationAccounts/%s/powerShell72Modules/%s"
    [Automation.SubscriptionId id; Automation.ResourceGroupName id;
     Automation.AutomationAccountName id; Automation.PowerShell72ModuleName id].

Definition module0 : Automation.PowerShell72ModuleId :=
  Automation.NewPowerShell72ModuleID "sub" "rg" "account" "Az.Accounts".

Definition parseModule0 (input : string) : result error Automation.PowerShell72ModuleId :=
  if String.eqb input (moduleID module0) then Ok module0 else Err (ParseError input).

Definition moduleConfig : ResourceData :=
  {| Id := "";
     Attributes :=
       <["name" := "Az.Accounts"]>
         (<["automation_account_name" := "account"]>
            (<["resource_group_name" := "rg"]> ∅)) |}.

Definition moduleIn (state : string) (isGlobal : bool) : Response Automation.Module :=
  found {| Automation.Properties :=
             Some {| Automation.IsGlobal := Some isGlobal;
                     Automation.ProvisioningState := Some state;
                     Automation.Error := None |} |}.

(** A module that does not exist yet and is provisioned in three refreshes. *)
Definition provisioningScript : list (Response Automation.Module) :=
  [notFound; accepted; moduleIn "Creating" false; moduleIn "ContentDownloaded" false;
   moduleIn "Succeeded" false; moduleIn "Succeeded" false].

Definition provisioningRun : result error unit * World Automation.PowerShell72ModuleId Automation.Module unit nat :=
  Automation.resourceAutomationPowerShell72ModuleCreate
    (scripted provisioningScript serverError) moduleID parseModule0 (fun _ => tt)
    "sub" 5 (start moduleConfig).

(** A global module that exists already, and a create whose timeout fires at
    once. *)
Definition globalModuleScript : list (Response Automation.Module) :=
  [moduleIn "Succeeded" true; accepted].

Definition globalModuleRun : result error unit * World Automation.PowerShell72ModuleId Automation.Module unit nat :=
  Automation.resourceAutomationPowerShell72ModuleCreate
    (scripted globalModuleScript serverError) moduleID parseModule0 (fun _ => tt)
    "sub" 0 (start moduleConfig).

(** A module of the account's own that exists already. *)
Definition existingModuleScript : list (Response Automation.Module) :=
  [moduleIn "Succeeded" false].

Definition existingModuleRun : result error unit * World Automation.PowerShell72ModuleId Automation.Module unit nat :=
  Automation.resourceAutomationPowerShell72ModuleCreate
    (scripted existingModuleScript serverError) moduleID parseModule0 (fun _ => tt)
    "sub" 5 (start moduleConfig).

(** *** A cost management view *)

Definition viewID (id : CostManagement.ScopedViewId) : string :=
  Sprintf "%s/providers/Microsoft.CostManagement/views/%s"
    [CostManagement.Scope id; CostManagement.ViewName id].

Definition view0 : CostManagement.ScopedViewId :=
  CostManagement.NewScopedViewID "/subscriptions/sub" "view1".

Definition parseView0 (input : string) : result error CostManagement.ScopedViewId :=
  if String.eqb input (viewID view0) then Ok view0 else Err (ParseError input).

Definition viewConfig : ResourceData :=
  {| Id := "";
     Attributes :=
       <["name" := "view1"]> (<["subscription_id" := "/subscriptions/sub"]> ∅) |}.

Definition viewState : ResourceData :=
  {| Id := viewID view0; Attributes := Attributes viewConfig |}.

Definition someView : CostManagement.View :=
  {| CostManagement.ETag := Some "etag";
     CostManagement.Properties := None |}.

(** Creating a view that exists already. *)
Definition existingViewRun : result error unit * World CostManagement.ScopedViewId CostManagement.View unit nat :=
  CostManagement.createFunc (scripted [found someView] serverError) viewID
    (fun _ _ => tt) "azurerm_subscription_cost_management_view" "subscription_id"
    (start viewConfig).

(** *** A chaos target *)

Definition targetID (id : Chaos.TargetId) : string :=
  Sprintf
    "/subscriptions/%s/resourceGroups/%s/providers/%s/%s/%s/providers/Microsoft.Chaos/targets/%s"
    [Chaos.SubscriptionId id; Chaos.ResourceGroupName id;
     Chaos.ParentProviderNamespace id; Chaos.ParentResourceType id;
     Chaos.ParentResourceName id; Chaos.TargetName id].

Definition target0 : Chaos.TargetId :=
  Chaos.NewTargetID "sub" "rg" "Microsoft.DocumentDB" "databaseAccounts" "account"
    "microsoft-cosmosdb".

Definition parseTarget0 (input : string) : result error Chaos.TargetId :=
  if String.eqb input (targetID target0) then Ok target0 else Err (ParseError input).

Definition targetModel : Chaos.TargetResourceModel :=
  {| Chaos.Name := "microsoft-cosmosdb";
     Chaos.ResourceGroup := "rg";
     Chaos.ParentResourceType_ := "databaseAccounts";
     Chaos.ParentName := "account";
     Chaos.ParentProviderNamespace_ := "Microsoft.DocumentDB";
     Chaos.Location := "westeurope" |}.

Definition decodeTarget0 (d : ResourceData) : result error Chaos.TargetResourceModel :=
  Ok targetModel.

Definition targetState : ResourceData :=
  {| Id := targetID target0; Attributes := ∅ |}.

Definition someTarget : Chaos.Target :=
  {| Chaos.TargetLocation := Some "westeurope"; Chaos.Identities := None |}.

(** Creating a target that exists already. *)
Definition existingTargetRun : result error unit * World Chaos.TargetId Chaos.Target Chaos.Target nat :=
  Chaos.Create (scripted [found someTarget] serverError) targetID decodeTarget0
    "sub" (start targetState).

(** Reading the target while the API answers 500, and while it answers 404. *)
Definition targetReadOnServerError : result error unit * World Chaos.TargetId Chaos.Target Chaos.Target nat :=
  Chaos.Read (scripted [serverError] serverError) parseTarget0 (fun l => l)
    (start targetState).

Definition targetReadOnNotFound : result error unit * World Chaos.TargetId Chaos.Target Chaos.Target nat :=
  Chaos.Read (scripted [notFound] serverError) parseTarget0 (fun l => l)
    (start targetState).

(** *** A SQL role assignment *)

Definition roleAssignment0 : CosmosParse.SqlRoleAssigmentId :=
  CosmosParse.NewSqlRoleAssigmentID "sub" "rg" "account" "assignment1".

Definition roleAssignmentState : ResourceData :=
  {| Id := CosmosParse.ID roleAssignment0; Attributes := ∅ |}.

Definition roleAssignmentReadOnNotFound : result error unit * World CosmosParse.SqlRoleAssigmentId Cosmos.SQLRoleAssignmentGetResults unit nat :=
  Cosmos.resourceCosmosDbRoleAssignmentRead (scripted [notFound] serverError)
    (start roleAssignmentState).

(** *** A list of chaos targets in two pages *)

Definition pageBody (body : string) : result string (TargetsSdk.page (Target := string)) :=
  if String.eqb body "page1" then
    Ok {| TargetsSdk.Values := ["target-a"; "target-b"];
          TargetsSdk.NextLink := Some "https://management.azure.com/next?page=2" |}
  else if String.eqb body "page2" then
    Ok {| TargetsSdk.Values := ["target-c"]; TargetsSdk.NextLink := None |}
  else Err "invalid character".

Definition parseNextLink (link : string)
  : result string (string * gmap string (list string)) :=
  Ok ("/next", <["page" := ["2"]]> ∅).

Definition twoPages : TargetsSdk.Request -> nat ->
                      nat * (option TargetsSdk.HttpResponse * option string) :=
  fun _ n =>
    (S n,
     nth n
       [(Some {| TargetsSdk.StatusCode := 200; TargetsSdk.ResponseBody := "page1" |}, None);
        (Some {| TargetsSdk.StatusCode := 200; TargetsSdk.ResponseBody := "page2" |}, None)]
       (None, Some "connection refused")).

Definition firstPageRequest : TargetsSdk.Request :=
  {| TargetsSdk.Method := "GET";
     TargetsSdk.ContentType := "application/json; charset=utf-8";
     TargetsSdk.BaseURL := "https://management.azure.com";
     TargetsSdk.Path := "/subscriptions/sub/providers/Microsoft.Chaos/targets";
     TargetsSdk.QueryParameters := <["api-version" := "2021-09-15-preview"]> ∅ |}.

Definition secondPageRequest : TargetsSdk.Request :=
  {| TargetsSdk.Method := "GET";
     TargetsSdk.ContentType := "application/json; charset=utf-8";
     TargetsSdk.BaseURL := "https://management.azure.com";
     TargetsSdk.Path := "/next";
     TargetsSdk.QueryParameters := <["page" := "2"]> ∅ |}.

Definition page1 : TargetsSdk.page (Target := string) :=
  {| TargetsSdk.Values := ["target-a"; "target-b"];
     TargetsSdk.NextLink := Some "https://management.azure.com/next?page=2" |}.

Definition page2 : TargetsSdk.page (Target := string) :=
  {| TargetsSdk.Values := ["target-c"]; TargetsSdk.NextLink := None |}.

Definition listTwoPages
  : result TargetsSdk.error (TargetsSdk.ListCompleteResult (Target := string))
    * TargetsSdk.Wire (Remote := nat) :=
  TargetsSdk.ListComplete "https://management.azure.com" twoPages
    (fun id : string => id) "2021-09-15-preview" (fun _ v => v) Ok pageBody
    parseNextLink 8 "/subscriptions/sub" TargetsSdk.DefaultListOptions
    {| TargetsSdk.remote := 0; TargetsSdk.sent := [] |}.

End Scenarios.

(** ** Go's dynamically typed values, as the plugin SDK hands them out *)

Module GoValue.

(** What [d.Get] returns and [d.Set] takes: an [interface{}] that holds a
    string, a bool, an int, a [[]interface{}], a [map[string]interface{}] or
    a [*pluginsdk.Set]; [VNil] is the nil interface.  A set is kept as the
    list its [List()] method returns. *)
#[warnings="-register-all"]
Inductive value :=
| VNil
| VString (s : string)
| VBool (b : bool)
| VInt (n : Z)
| VList (items : list value)
| VMap (entries : gmap string value)
| VSet (items : list value).

(** The run-time panics of the expand and flatten functions. *)
Inductive panic :=
| InterfaceConversion
| NilDereference
| IndexOutOfRange.

(** [m[key]] on a [map[string]interface{}]: the nil interface when the key
    is missing. *)
Definition index (m : gmap string value) (key : string) : value :=
  default VNil (m !! key).

(** The type assertions to [string], [bool], [int], [[]interface{}] and
    [map[string]interface{}], and the assertion to a [pluginsdk.Set] pointer
    followed by [List()]: each panics on a value of another type, the nil
    interface included. *)
Definition assertString (v : value) : result panic string :=
  match v with VString s => Ok s | _ => Err InterfaceConversion end.

Definition assertBool (v : value) : result panic bool :=
  match v with VBool b => Ok b | _ => Err InterfaceConversion end.

Definition assertInt (v : value) : result panic Z :=
  match v with VInt n => Ok n | _ => Err InterfaceConversion end.

Definition assertList (v : value) : result panic (list value) :=
  match v with VList items => Ok items | _ => Err InterfaceConversion end.

Definition assertMap (v : value) : result panic (gmap string value) :=
  match v with VMap entries => Ok entries | _ => Err InterfaceConversion end.

Definition assertSetList (v : value) : result panic (list value) :=
  match v with VSet items => Ok items | _ => Err InterfaceConversion end.

(** [len(input) == 0 || input[0] == nil], the guard the expand functions
    open with. *)
Definition emptyOrNil (input : list value) : bool :=
  match input with
  | [] => true
  | VNil :: _ => true
  | _ :: _ => false
  end.

(** [for _, item := range input { output = append(output, f(item)) }] with a
    body that may panic. *)
Fixpoint forEach {A B : Type} (f : A -> result panic B) (input : list A)
  : result panic (list B) :=
  match input with
  | [] => Ok []
  | item :: rest =>
      y <-! f item ;
      ys <-! forEach f rest ;
      Ok (y :: ys)
  end.

End GoValue.
(** ** [internal/services/costmanagement]: expanding and flattening a view *)

Module ViewConfig.
Import GoValue.

(** The structs of go-azure-sdk's [views] package, with the fields the
    resource sets or reads.  A pointer field is an [option]; the string
    enumerations ([KpiTypeType], [PivotTypeType], [QueryColumnType], ...) are
    strings. *)
Record KpiProperties := {
  KpiEnabled : option bool;
  KpiType : option string
}.

Record PivotProperties := {
  PivotName : option string;
  PivotType : option string
}.

Record ReportConfigGrouping := {
  GroupingName : string;
  GroupingType : string
}.

Record ReportConfigSorting := {
  Direction : option string;
  SortingName : string
}.

Record ReportConfigAggregation := {
  Function : string;
  AggregationName : string
}.

Record ReportConfigDataset := {
  Aggregation : option (gmap string ReportConfigAggregation);
  Granularity : option string;
  Grouping : option (list ReportConfigGrouping);
  Sorting : option (list ReportConfigSorting)
}.

Record ReportConfigDefinition := {
  DataSet : option ReportConfigDataset;
  Timeframe : string;
  Type_ : string
}.

Definition ReportTypeUsage : string := "Usage".
Definition FunctionTypeSum : string := "Sum".

(** *** Expanding the configuration *)

Definition expandAggregation (input : list value)
  : result panic (option (gmap string ReportConfigAggregation)) :=
  let outputSorting : gmap string ReportConfigAggregation := ∅ in
  if emptyOrNil input then Ok (Some outputSorting)
  else
    outputSorting <-!
      fold_left
        (fun output item =>
           outputSorting <-! output ;
           v <-! assertMap item ;
           name <-! assertString (index v "name") ;
           columnName <-! assertString (index v "column_name") ;
           Ok (<[name := {| AggregationName := columnName;
                            Function := FunctionTypeSum |}]> outputSorting))
        input (Ok outputSorting) ;
    Ok (Some outputSorting).

Definition expandGrouping (input : list value)
  : result panic (option (list ReportConfigGrouping)) :=
  if emptyOrNil input then Ok (Some [])
  else
    outputGrouping <-!
      forEach
        (fun item =>
           v <-! assertMap item ;
           type <-! assertString (index v "type") ;
           name <-! assertString (index v "name") ;
           Ok {| GroupingType := type; GroupingName := name |})
        input ;
    Ok (Some outputGrouping).

Definition expandSorting (input : list value)
  : result panic (option (list ReportConfigSorting)) :=
  if emptyOrNil input then Ok (Some [])
  else
    outputSorting <-!
      forEach
        (fun item =>
           v <-! assertMap item ;
           direction <-! assertString (index v "direction") ;
           name <-! assertString (index v "name") ;
           Ok {| Direction := Some direction; SortingName := name |})
        input ;
    Ok (Some outputSorting).

Definition expandKpis (input : list value) : result panic (option (list KpiProperties)) :=
  if emptyOrNil input then Ok (Some [])
  else
    outputKpis <-!
      forEach
        (fun item =>
           v <-! assertMap item ;
           type <-! assertString (index v "type") ;
           enabled <-! assertBool (index v "enabled") ;
           Ok {| KpiType := Some type; KpiEnabled := Some enabled |})
        input ;
    Ok (Some outputKpis).

Definition expandPivots (input : list value)
  : result panic (option (list PivotProperties)) :=
  if emptyOrNil input then Ok (Some [])
  else
    outputPivots <-!
      forEach
        (fun item =>
           v <-! assertMap item ;
           type <-! assertString (index v "type") ;
           name <-! assertString (index v "name") ;
           Ok {| PivotType := Some type; PivotName := Some name |})
        input ;
    Ok (Some outputPivots).

Definition expandDataset (input : list value) : result panic (option ReportConfigDataset) :=
  if emptyOrNil input then Ok None
  else
    attrs <-! assertMap (hd VNil input) ;
    granularity <-! assertString (index attrs "granularity") ;
    aggregation <-! assertSetList (index attrs "aggregation") ;
    aggregation <-!
      (if (0 <? length aggregation)%nat then expandAggregation aggregation else Ok None) ;
    sorting <-! assertList (index attrs "sorting") ;
    sorting <-! (if (0 <? length sorting)%nat then expandSorting sorting else Ok None) ;
    grouping <-! assertList (index attrs "grouping") ;
    grouping <-! (if (0 <? length grouping)%nat then expandGrouping grouping else Ok None) ;
    Ok (Some {| Granularity := Some granularity;
                Aggregation := aggregation;
                Sorting := sorting;
                Grouping := grouping |}).

Definition expandViewReportConfigDefinition (input : list value)
  : result panic (option ReportConfigDefinition) :=
  if emptyOrNil input then Ok None
  else
    attrs <-! assertMap (hd VNil input) ;
    datasetRaw <-! assertList (index attrs "dataset") ;
    dataSet <-!
      (if negb (length datasetRaw =? 0)%nat then expandDataset datasetRaw else Ok None) ;
    timeframe <-! assertString (index attrs "timeframe") ;
    Ok (Some {| Type_ := ReportTypeUsage;
                DataSet := dataSet;
                Timeframe := if negb (String.eqb timeframe "") then timeframe else "" |}).

(** *** Flattening the API's answer *)

Definition flattenKpis (input : option (list KpiProperties)) : list value :=
  match input with
  | None => []
  | Some kpis =>
      map (fun item =>
             let kpiType := match KpiType item with Some v => v | None => "" end in
             let enabled := match KpiEnabled item with Some v => v | None => false end in
             VMap (<["enabled" := VBool enabled]> (<["type" := VString kpiType]> ∅)))
          kpis
  end.

Definition flattenPivots (input : option (list PivotProperties)) : list value :=
  match input with
  | None => []
  | Some pivots =>
      map (fun item =>
             let pivotType := match PivotType item with Some v => v | None => "" end in
             let name := match PivotName item with Some p => p | None => "" end in
             VMap (<["name" := VString name]> (<["type" := VString pivotType]> ∅)))
          pivots
  end.

(** Go ranges over a map in an order it does not specify; the order of
    [map_to_list] stands for it. *)
Definition flattenAggregation (input : option (gmap string ReportConfigAggregation))
  : list value :=
  match input with
  | None => []
  | Some aggregations =>
      map (fun '(name, item) =>
             VMap (<["name" := VString name]>
                     (<["column_name" := VString (AggregationName item)]> ∅)))
          (map_to_list aggregations)
  end.

Definition flattenGrouping (input : option (list ReportConfigGrouping)) : list value :=
  match input with
  | None => []
  | Some groupings =>
      map (fun item =>
             VMap (<["name" := VString (GroupingName item)]>
                     (<["type" := VString (GroupingType item)]> ∅)))
          groupings
  end.

Definition flattenSorting (input : option (list ReportConfigSorting)) : list value :=
  match input with
  | None => []
  | Some sortings =>
      omap (fun item =>
              match Direction item with
              | None => None
              | Some direction =>
                  Some (VMap (<["name" := VString (SortingName item)]>
                                (<["direction" := VString direction]> ∅)))
              end)
           sortings
  end.

Definition flattenDataset (input : option ReportConfigDataset) : result panic (list value) :=
  match input with
  | None => Err NilDereference
  | Some dataset =>
      let outputDataset : gmap string value :=
        <["aggregation" := VList (flattenAggregation (Aggregation dataset))]>
          (<["sorting" := VList (flattenSorting (Sorting dataset))]>
             (<["grouping" := VList (flattenGrouping (Grouping dataset))]> ∅)) in
      let outputDataset :=
        match Granularity dataset with
        | Some granularity => <["granularity" := VString granularity]> outputDataset
        | None => outputDataset
        end in
      Ok [VMap outputDataset]
  end.

Definition flattenQuery (input : option ReportConfigDefinition) : result panic (list value) :=
  match input with
  | None => Err NilDereference
  | Some query =>
      let outputQuery : gmap string value :=
        <["timeframe" := VString (Timeframe query)]>
          (<["type" := VString (Type_ query)]> ∅) in
      outputQuery <-!
        match DataSet query with
        | Some dataset =>
            flattened <-! flattenDataset (Some dataset) ;
            Ok (<["dataset" := VList flattened]> outputQuery)
        | None => Ok outputQuery
        end ;
      Ok [VMap outputQuery]
  end.

(** *** The blocks of the schema

    What [d.Get] returns for the block lists of the view's schema: one map
    per block, with the keys the block declares. *)
Definition kpiBlock (enabled : bool) (type : string) : value :=
  VMap (<["enabled" := VBool enabled]> (<["type" := VString type]> ∅)).

Definition pivotBlock (name type : string) : value :=
  VMap (<["name" := VString name]> (<["type" := VString type]> ∅)).

Definition groupingBlock (type name : string) : value :=
  VMap (<["type" := VString type]> (<["name" := VString name]> ∅)).

Definition sortingBlock (direction name : string) : value :=
  VMap (<["direction" := VString direction]> (<["name" := VString name]> ∅)).

Definition aggregationBlock (name columnName : string) : value :=
  VMap (<["name" := VString name]> (<["column_name" := VString columnName]> ∅)).

Definition datasetBlock (granularity : string) (aggregation sorting grouping : list value)
  : value :=
  VMap (<["granularity" := VString granularity]>
          (<["aggregation" := VSet aggregation]>
             (<["sorting" := VList sorting]>
                (<["grouping" := VList grouping]> ∅)))).

Definition queryBlock (type timeframe : string) (dataset : list value) : value :=
  VMap (<["type" := VString type]>
          (<["timeframe" := VString timeframe]>
             (<["dataset" := VList dataset]> ∅))).

(** The same dataset as the flattening writes it to the state: the
    aggregations are a list there, not a set. *)
Definition datasetState (granularity : string) (aggregation sorting grouping : list value)
  : value :=
  VMap (<["granularity" := VString granularity]>
          (<["aggregation" := VList aggregation]>
             (<["sorting" := VList sorting]>
                (<["grouping" := VList grouping]> ∅)))).

(** What one block of the configuration stands for in the request. *)
Definition aggregationOf (block : string * string) : string * ReportConfigAggregation :=
  (fst block, {| AggregationName := snd block; Function := FunctionTypeSum |}).

Definition groupingOf (block : string * string) : ReportConfigGrouping :=
  {| GroupingType := fst block; GroupingName := snd block |}.

Definition sortingOf (block : string * string) : ReportConfigSorting :=
  {| Direction := Some (fst block); SortingName := snd block |}.

(** A struct as it comes back once its nil pointers have been read as zero
    values. *)
Definition kpiWithZeroValues (item : KpiProperties) : KpiProperties :=
  {| KpiType := Some (default "" (KpiType item));
     KpiEnabled := Some (default false (KpiEnabled item)) |}.

Definition pivotWithZeroValues (item : PivotProperties) : PivotProperties :=
  {| PivotType := Some (default "" (PivotType item));
     PivotName := Some (default "" (PivotName item)) |}.

Definition hasDirection (item : ReportConfigSorting) : bool := isSome (Direction item).

End ViewConfig.
(** ** Operations over clients with methods of their own

    The resources below call more than the three methods of the resource
    template, or more than one client.  Their operations thread the same
    kind of world as the template's: the remote side, the record of the
    calls issued with their answers, and the resource data.  Each resource
    names its calls in a type of its own. *)

Declare Scope rest_scope.
Delimit Scope rest_scope with rest.

Module Rest.

Section Client.
Context {CallRecord Remote : Type}.

Record World := {
  remote : Remote;
  calls : list CallRecord;
  data : Sdk.ResourceData
}.

Definition M (E A : Type) : Type := World -> result E A * World.

Definition ret {E A} (a : A) : M E A := fun w => (Ok a, w).

Definition fail {E A} (e : E) : M E A := fun w => (Err e, w).

Definition bind {E A B} (c : M E A) (k : A -> M E B) : M E B :=
  fun w =>
    match c w with
    | (Ok a, w') => k a w'
    | (Err e, w') => (Err e, w')
    end.

(** Call one method of a client and record the call with its answer. *)
Definition call {E A} (method : Remote -> Remote * A) (record : A -> CallRecord)
  : M E A :=
  fun w =>
    let '(remote', answer) := method (remote w) in
    (Ok answer, {| remote := remote'; calls := (calls w ++ [record answer])%list;
                   data := data w |}).

Definition answer {A} (method : Remote -> Remote * A) (w : World) : A :=
  snd (method (remote w)).

Definition afterCall {A} (method : Remote -> Remote * A) (record : A -> CallRecord)
    (w : World) : World :=
  {| remote := fst (method (remote w));
     calls := (calls w ++ [record (answer method w)])%list;
     data := data w |}.

(** [d.Get(key).(string)], and [d.GetOk(key)]: the value, and whether it is
    set to something else than the zero value. *)
Definition GetAttribute {E} (key : string) : M E string :=
  fun w => (Ok (Sdk.attribute (data w) key), w).

Definition GetOk {E} (key : string) : M E (string * bool) :=
  fun w =>
    let v := Sdk.attribute (data w) key in
    (Ok (v, negb (String.eqb v "")), w).

(** [d.Set(key, value)], [d.Id()] and [d.SetId(id)]. *)
Definition withAttribute (key value : string) (w : World) : World :=
  {| remote := remote w; calls := calls w;
     data := {| Sdk.Id := Sdk.Id (data w);
                Sdk.Attributes := <[key := value]> (Sdk.Attributes (data w)) |} |}.

Definition withId (id : string) (w : World) : World :=
  {| remote := remote w; calls := calls w;
     data := {| Sdk.Id := id; Sdk.Attributes := Sdk.Attributes (data w) |} |}.

Definition SetAttribute {E} (key value : string) : M E unit :=
  fun w => (Ok tt, withAttribute key value w).

Definition GetId {E} : M E string :=
  fun w => (Ok (Sdk.Id (data w)), w).

Definition SetId {E} (id : string) : M E unit :=
  fun w => (Ok tt, withId id w).

End Client.

Arguments World : clear implicits.
Arguments M : clear implicits.

End Rest.

Notation "'let*' x ':=' c 'in' k" := (Rest.bind c (fun x => k))
  (at level 10, x name, c at level 100, k at level 200, only parsing) : rest_scope.

Notation "c ';;' k" := (Rest.bind c (fun _ => k))
  (at level 100, k at level 200, right associativity, only parsing) : rest_scope.

(** ** [internal/services/servicebus]: the queue authorization rule data source *)

Module ServiceBus.
Import Rest.
Local Open Scope rest_scope.

Record QueueAuthorizationRuleId := {
  SubscriptionId : string;
  ResourceGroup : string;
  NamespaceName : string;
  QueueName : string;
  AuthorizationRuleName : string
}.

Definition NewQueueAuthorizationRuleID
    (subscriptionId resourceGroup namespaceName queueName authorizationRuleName : string)
  : QueueAuthorizationRuleId :=
  {| SubscriptionId := subscriptionId;
     ResourceGroup := resourceGroup;
     NamespaceName := namespaceName;
     QueueName := queueName;
     AuthorizationRuleName := authorizationRuleName |}.

(** The parts of the SDK's [SBAuthorizationRule] and [AccessKeys] that the
    data source reads. *)
Record SBAuthorizationRuleProperties := { Rights : option (list string) }.

Record SBAuthorizationRule := {
  Properties : option SBAuthorizationRuleProperties
}.

Record AccessKeys := {
  PrimaryKey : option string;
  PrimaryConnectionString : option string;
  SecondaryKey : option string;
  SecondaryConnectionString : option string;
  AliasPrimaryConnectionString : option string;
  AliasSecondaryConnectionString : option string
}.

(** The two methods of the queues client the data source calls, each with
    the resource group, the namespace, the queue and the rule it names. *)
Inductive CallRecord :=
| GetAuthorizationRule (resourceGroup namespaceName queueName ruleName : string)
    (resp : Sdk.Response SBAuthorizationRule)
| ListKeys (resourceGroup namespaceName queueName ruleName : string)
    (resp : Sdk.Response AccessKeys).

Definition boolAttribute (b : bool) : string := if b then "true" else "false".

Section DataSource.
Context {Remote : Type}.

Variable getAuthorizationRule :
  string -> string -> string -> string -> Remote -> Remote * Sdk.Response SBAuthorizationRule.
Variable listKeys :
  string -> string -> string -> string -> Remote -> Remote * Sdk.Response AccessKeys.

(** From the [parse] and helper files of the service, which are not among
    the sources: the ID's string form, its description (what [%s] prints),
    and the split of the rights into listen, send and manage. *)
Variable ID : QueueAuthorizationRuleId -> string.
Variable describe : QueueAuthorizationRuleId -> string.
Variable flattenAuthorizationRuleRights : option (list string) -> bool * bool * bool.

Local Abbreviation Op := (M CallRecord Remote error).

Definition dataSourceServiceBusQueueAuthorizationRuleRead (subscriptionId : string)
  : Op unit :=
  let* resourceGroupName := GetAttribute "resource_group_name" in
  let* namespaceName := GetAttribute "namespace_name" in
  let* queueName := GetAttribute "queue_name" in
  let* name := GetAttribute "name" in
  let id := NewQueueAuthorizationRuleID subscriptionId resourceGroupName namespaceName
              queueName name in
  let* resp :=
    call (getAuthorizationRule (ResourceGroup id) (NamespaceName id) (QueueName id)
            (AuthorizationRuleName id))
         (GetAuthorizationRule (ResourceGroup id) (NamespaceName id) (QueueName id)
            (AuthorizationRuleName id)) in
  match Sdk.Failure resp with
  | Some err =>
      if Sdk.WasNotFound (Sdk.HttpResponse resp) then
        fail (Message (describe id +:+ " was not found"))
      else fail (Wrapped ("retrieving " +:+ describe id) (ApiError err))
  | None =>
      let* keysResp :=
        call (listKeys (ResourceGroup id) (NamespaceName id) (QueueName id)
                (AuthorizationRuleName id))
             (ListKeys (ResourceGroup id) (NamespaceName id) (QueueName id)
                (AuthorizationRuleName id)) in
      match Sdk.Failure keysResp with
      | Some err => fail (Wrapped ("listing keys for " +:+ describe id) (ApiError err))
      | None =>
          SetId (ID id) ;;
          SetAttribute "name" (AuthorizationRuleName id) ;;
          SetAttribute "queue_name" (QueueName id) ;;
          SetAttribute "namespace_name" (NamespaceName id) ;;
          SetAttribute "resource_group_name" (ResourceGroup id) ;;
          match Sdk.Body resp with
          | Some {| Properties := Some properties |} =>
              let '(listen, send, manage) :=
                flattenAuthorizationRuleRights (Rights properties) in
              SetAttribute "listen" (boolAttribute listen) ;;
              SetAttribute "send" (boolAttribute send) ;;
              SetAttribute "manage" (boolAttribute manage)
          | _ => ret tt
          end ;;
          let keys :=
            default {| PrimaryKey := None; PrimaryConnectionString := None;
                       SecondaryKey := None; SecondaryConnectionString := None;
                       AliasPrimaryConnectionString := None;
                       AliasSecondaryConnectionString := None |}
                    (Sdk.Body keysResp) in
          SetAttribute "primary_key" (default "" (PrimaryKey keys)) ;;
          SetAttribute "primary_connection_string"
            (default "" (PrimaryConnectionString keys)) ;;
          SetAttribute "secondary_key" (default "" (SecondaryKey keys)) ;;
          SetAttribute "secondary_connection_string"
            (default "" (SecondaryConnectionString keys)) ;;
          SetAttribute "primary_connection_string_alias"
            (default "" (AliasPrimaryConnectionString keys)) ;;
          SetAttribute "secondary_connection_string_alias"
            (default "" (AliasSecondaryConnectionString keys))
      end
  end.

End DataSource.

End ServiceBus.
(** ** [internal/services/automation]: updating and deleting the module *)

Module AutomationLifecycle.
Import Sdk Automation.

Section Resource.
Context {Payload Remote : Type}.
Variable api : Call PowerShell72ModuleId Payload -> Remote -> Remote * Response Module.
Variable ID : PowerShell72ModuleId -> string.
Variable ParsePowerShell72ModuleID : string -> result error PowerShell72ModuleId.
Variable expandPowerShell72ModuleLink : ResourceData -> Payload.

Local Abbreviation Op := (M PowerShell72ModuleId Module Payload Remote error).

(** [polls]: the refreshes that complete before the update timeout fires.
    The state change configuration and its [Refresh] closure are the ones of
    the create function, written out a second time in the source. *)
Definition resourceAutomationPowerShell72ModuleUpdate
    (subscriptionId : string) (polls : nat) : Op unit :=
  let* resourceGroupName := GetAttribute "resource_group_name" in
  let* automationAccountName := GetAttribute "automation_account_name" in
  let* name := GetAttribute "name" in
  let id := NewPowerShell72ModuleID subscriptionId resourceGroupName
              automationAccountName name in
  let* d := GetData in
  let parameters := expandPowerShell72ModuleLink d in
  let* created := call api (CreateOrUpdate id parameters) in
  match Failure created with
  | Some err => fail (ApiError err)
  | None =>
      (* the API returns 'done' but it's not actually finished provisioning yet *)
      waitForProvisioning api ID id polls ;;
      resourceAutomationPowerShell72ModuleRead api ID ParsePowerShell72ModuleID
  end.

Definition resourceAutomationPowerShell72ModuleDelete : Op unit :=
  let* stateId := GetId in
  match ParsePowerShell72ModuleID stateId with
  | Err err => fail err
  | Ok id =>
      let* resp := call api (Delete id) in
      match Failure resp with
      | Some err =>
          if WasNotFound (HttpResponse resp) then ret tt
          else fail (Wrapped ("deleting " +:+ ID id) (ApiError err))
      | None => ret tt
      end
  end.

End Resource.

End AutomationLifecycle.
(** ** [internal/services/containers]: the Kubernetes Arc extension *)

Module ArcExtension.
Import Sdk.

(** The connected cluster the client is asked for, by resource group and
    name, and the part of its answer the resource reads. *)
Record ConnectedClusterRef := {
  ResourceGroupName : string;
  ClusterName : string
}.

Record ConnectedCluster := { ID : option string }.

Section Resource.
Context {Payload Remote : Type}.
Variable api : Call ConnectedClusterRef Payload -> Remote -> Remote * Response ConnectedCluster.

Local Abbreviation Op := (M ConnectedClusterRef ConnectedCluster Payload Remote error).

(** [existing.ID]: nil when the call returned no cluster. *)
Definition existingID (existing : Response ConnectedCluster) : option string :=
  match Body existing with
  | Some cluster => ID cluster
  | None => None
  end.

Definition checkingForPresence (name resGroup : string) (err : string) : error :=
  Wrapped ("checking for presence of existing Kubernetes Cluster " +:+ name
           +:+ " (Resource Group " +:+ resGroup +:+ ")") (ApiError err).

Definition resourceKubernetesArcExtensionCreate : Op unit :=
  let* resGroup := GetAttribute "resource_group_name" in
  let* name := GetAttribute "name" in
  let* existing :=
    call api (Get {| ResourceGroupName := resGroup; ClusterName := name |}) in
  match Failure existing with
  | Some err =>
      if negb (WasNotFound (HttpResponse existing)) then
        fail (checkingForPresence name resGroup err)
      else ret tt
  | None => ret tt
  end ;;
  match existingID existing with
  | Some id =>
      if negb (String.eqb id "") then
        fail (ImportAsExistsError "azurerm_kubernetes_cluster" id)
      else ret tt
  | None => ret tt
  end.

Definition resourceKubernetesArcExtensionRead : Op unit :=
  let* resGroup := GetAttribute "resource_group_name" in
  let* name := GetAttribute "name" in
  let* existing :=
    call api (Get {| ResourceGroupName := resGroup; ClusterName := name |}) in
  match Failure existing with
  | Some err =>
      if negb (WasNotFound (HttpResponse existing)) then
        fail (checkingForPresence name resGroup err)
      else ret tt
  | None => ret tt
  end ;;
  match existingID existing with
  | Some id =>
      if negb (String.eqb id "") then
        fail (ImportAsExistsError "azurerm_kubernetes_cluster" id)
      else ret tt
  | None => ret tt
  end.

Definition resourceKubernetesArcExtensionDelete : Op unit :=
  let* resGroup := GetAttribute "resource_group_name" in
  let* name := GetAttribute "name" in
  let* existing :=
    call api (Get {| ResourceGroupName := resGroup; ClusterName := name |}) in
  match Failure existing with
  | Some err =>
      if negb (WasNotFound (HttpResponse existing)) then
        fail (checkingForPresence name resGroup err)
      else ret tt
  | None => ret tt
  end ;;
  match existingID existing with
  | Some id =>
      if negb (String.eqb id "") then
        fail (ImportAsExistsError "azurerm_kubernetes_cluster" id)
      else ret tt
  | None => ret tt
  end.

End Resource.

End ArcExtension.
(** ** The Kusto scripts client: creating and updating a script *)

Module KustoScripts.

(** [Script] and its properties, of the client's models, with the fields the
    client's methods look at. *)
Record ScriptProperties := {
  ScriptURL : option string;
  ScriptURLSasToken : option string;
  ForceUpdateTag : option string;
  ContinueOnErrors : option bool
}.

Record Script := {
  Properties : option ScriptProperties;
  SystemData : option string
}.

Record Request := {
  Method : string;
  ContentType : option string;
  BaseURL : string;
  Path : string;
  QueryParameters : gmap string string;
  JSON : option Script
}.

(** What the client does to the outside. *)
Inductive Event :=
| Prepared (req : Request)
| Sent (req : Request).

(** An [http.Response]: its status code and body. *)
Definition HttpResponse : Type := Z * string.

(** The future of a long-running operation, as [azure.NewFutureFromResponse]
    makes it from the first response; the zero future has none. *)
Record Future := { FutureResponse : option HttpResponse }.

Definition zeroFuture : Future := {| FutureResponse := None |}.

(** Modelled from the spec: go-autorest's [validation] package is an external
    dependency.  A [Null] constraint on a pointer: when the pointer is nil,
    [Rule] true makes it an error and [Rule] false lets it pass; when it is
    not nil, the constraints of [Chain] are checked on what it points to, in
    order, and the first error is returned. *)
#[warnings="-register-all"]
Inductive Constraint :=
| NullConstraint (target : string) (rule : bool) (chain : list Constraint).

Fixpoint validate (isNil : string -> bool) (c : Constraint) : option string :=
  match c with
  | NullConstraint target rule chain =>
      if isNil target then
        if rule then Some (target +:+ ": value can not be null; required parameter")
        else None
      else
        (fix validateAll (constraints : list Constraint) : option string :=
           match constraints with
           | [] => None
           | c' :: rest =>
               match validate isNil c' with
               | Some message => Some message
               | None => validateAll rest
               end
           end) chain
  end.

Definition Validate (isNil : string -> bool) (constraints : list Constraint)
  : option string :=
  (fix validateAll (constraints : list Constraint) : option string :=
     match constraints with
     | [] => None
     | c :: rest =>
         match validate isNil c with
         | Some message => Some message
         | None => validateAll rest
         end
     end) constraints.

(** Modelled from the spec: the field a constraint's target names, looked up
    by reflection in go-autorest, and whether it is nil.  The fields of the
    properties are looked at only below a properties pointer that is set. *)
Definition fieldIsNil (parameters : Script) (target : string) : bool :=
  if String.eqb target "parameters.ScriptProperties" then
    negb (isSome (Properties parameters))
  else if String.eqb target "parameters.ScriptProperties.ScriptURL" then
    match Properties parameters with
    | Some props => negb (isSome (ScriptURL props))
    | None => true
    end
  else if String.eqb target "parameters.ScriptProperties.ScriptURLSasToken" then
    match Properties parameters with
    | Some props => negb (isSome (ScriptURLSasToken props))
    | None => true
    end
  else false.

Definition APIVersion : string := "2021-01-01".

Definition scriptPath (Encode : string -> string -> string)
    (SubscriptionID resourceGroupName clusterName databaseName scriptName : string)
  : string :=
  Sprintf
    "/subscriptions/%s/resourceGroups/%s/providers/Microsoft.Kusto/clusters/%s/databases/%s/scripts/%s"
    [Encode "path" SubscriptionID; Encode "path" resourceGroupName;
     Encode "path" clusterName; Encode "path" databaseName; Encode "path" scriptName].

(** [parameters.SystemData = nil], as both preparers with a body do. *)
Definition withoutSystemData (parameters : Script) : Script :=
  {| Properties := Properties parameters; SystemData := None |}.

Section Client.
Context {Remote : Type}.

(** The client's settings, go-autorest's [Encode] and request preparation,
    the sender with its retry decorator, and [azure.NewFutureFromResponse]. *)
Variable BaseURI : string.
Variable SubscriptionID : string.
Variable Encode : string -> string -> string.
Variable Prepare : Request -> result string Request.
Variable Send : Request -> Remote -> Remote * (option HttpResponse * option string).
Variable NewFutureFromResponse : option HttpResponse -> result string Future.

Record Wire := {
  remote : Remote;
  events : list Event
}.

Definition prepare (req : Request) (w : Wire) : result string Request * Wire :=
  (Prepare req, {| remote := remote w; events := (events w ++ [Prepared req])%list |}).

Definition send (req : Request) (w : Wire)
  : option HttpResponse * option string * Wire :=
  let '(remote', answer) := Send req (remote w) in
  (answer, {| remote := remote'; events := (events w ++ [Sent req])%list |}).

Definition createOrUpdateRequest
    (resourceGroupName clusterName databaseName scriptName : string)
    (parameters : Script) : Request :=
  {| Method := "PUT";
     ContentType := Some "application/json; charset=utf-8";
     BaseURL := BaseURI;
     Path := scriptPath Encode SubscriptionID resourceGroupName clusterName
               databaseName scriptName;
     QueryParameters := {["api-version" := APIVersion]};
     JSON := Some (withoutSystemData parameters) |}.

Definition CreateOrUpdatePreparer
    (resourceGroupName clusterName databaseName scriptName : string)
    (parameters : Script) : Wire -> result string Request * Wire :=
  prepare (createOrUpdateRequest resourceGroupName clusterName databaseName
             scriptName parameters).

Definition CreateOrUpdateSender (req : Request) (w : Wire)
  : Future * option string * Wire :=
  match send req w with
  | (resp, Some cause, w') => (zeroFuture, Some cause, w')
  | (resp, None, w') =>
      match NewFutureFromResponse resp with
      | Ok azf => (azf, None, w')
      | Err cause => (zeroFuture, Some cause, w')
      end
  end.

(** [CreateOrUpdate] creates a Kusto database script. *)
Definition CreateOrUpdate
    (resourceGroupName clusterName databaseName scriptName : string)
    (parameters : Script) (w : Wire) : Future * option Kusto.error * Wire :=
  match Validate (fieldIsNil parameters)
          [NullConstraint "parameters.ScriptProperties" false
             [NullConstraint "parameters.ScriptProperties.ScriptURL" true [];
              NullConstraint "parameters.ScriptProperties.ScriptURLSasToken" true []]] with
  | Some message =>
      (zeroFuture,
       Some (Kusto.ValidationError "kusto.ScriptsClient" "CreateOrUpdate" message), w)
  | None =>
      match CreateOrUpdatePreparer resourceGroupName clusterName databaseName
              scriptName parameters w with
      | (Err cause, w1) => (zeroFuture, Some (Kusto.FailurePreparingRequest cause), w1)
      | (Ok req, w1) =>
          match CreateOrUpdateSender req w1 with
          | (result, Some cause, w2) =>
              (result, Some (Kusto.FailureSendingRequest cause), w2)
          | (result, None, w2) => (result, None, w2)
          end
      end
  end.

Definition updateRequest
    (resourceGroupName clusterName databaseName scriptName : string)
    (parameters : Script) : Request :=
  {| Method := "PATCH";
     ContentType := Some "application/json; charset=utf-8";
     BaseURL := BaseURI;
     Path := scriptPath Encode SubscriptionID resourceGroupName clusterName
               databaseName scriptName;
     QueryParameters := {["api-version" := APIVersion]};
     JSON := Some (withoutSystemData parameters) |}.

Definition UpdatePreparer
    (resourceGroupName clusterName databaseName scriptName : string)
    (parameters : Script) : Wire -> result string Request * Wire :=
  prepare (updateRequest resourceGroupName clusterName databaseName scriptName
             parameters).

Definition UpdateSender (req : Request) (w : Wire) : Future * option string * Wire :=
  match send req w with
  | (resp, Some cause, w') => (zeroFuture, Some cause, w')
  | (resp, None, w') =>
      match NewFutureFromResponse resp with
      | Ok azf => (azf, None, w')
      | Err cause => (zeroFuture, Some cause, w')
      end
  end.

(** [Update] updates a database script. *)
Definition Update
    (resourceGroupName clusterName databaseName scriptName : string)
    (parameters : Script) (w : Wire) : Future * option Kusto.error * Wire :=
  match UpdatePreparer resourceGroupName clusterName databaseName scriptName
          parameters w with
  | (Err cause, w1) => (zeroFuture, Some (Kusto.FailurePreparingRequest cause), w1)
  | (Ok req, w1) =>
      match UpdateSender req w1 with
      | (result, Some cause, w2) => (result, Some (Kusto.FailureSendingRequest cause), w2)
      | (result, None, w2) => (result, None, w2)
      end
  end.

(** Once a request is built: it is prepared, and sent once when the
    preparation succeeds. *)
Definition preparedAndSent (req : Request) : list Event :=
  Prepared req ::
  match Prepare req with
  | Ok prepared => [Sent prepared]
  | Err _ => []
  end.

End Client.

End KustoScripts.
(** ** [internal/services/cosmos]: creating a SQL role assignment *)

Module CosmosRoleAssignment.
Import Rest.
Local Open Scope rest_scope.

(** The part of [documentdb.SQLRoleDefinitionListResult] the resource reads. *)
Record SQLRoleDefinitionResource := { RoleName : option string }.

Record SQLRoleDefinitionGetResults := {
  ID : option string;
  Resource : option SQLRoleDefinitionResource
}.

Record SQLRoleDefinitionListResult := {
  Value : option (list SQLRoleDefinitionGetResults)
}.

(** The methods of the SQL resources client that creating calls, and the
    wait for the future the create call returns. *)
Inductive CallRecord {Future : Type} :=
| ListSQLRoleDefinitions (resourceGroupName accountName : string)
    (resp : SQLRoleDefinitionListResult) (err : option string)
| CreateUpdateSQLRoleAssignment (roleAssignmentID resourceGroupName accountName : string)
    (parameters : Cosmos.SQLRoleAssignmentResource) (future : Future) (err : option string)
| WaitForCompletionRef (future : Future) (err : option string).
Arguments CallRecord : clear implicits.

(** The loop over the role definitions: the ID of the first definition that
    carries the role name, and the empty string when there is none.  A
    definition without a resource or without a role name is passed over; the
    ID of the definition found is dereferenced as it is. *)
Fixpoint roleDefinitionIdByName (roleName : string)
    (roleDefinitions : list SQLRoleDefinitionGetResults) : result error string :=
  match roleDefinitions with
  | [] => Ok ""
  | roleDefinitionResult :: rest =>
      match Resource roleDefinitionResult with
      | Some {| RoleName := Some name |} =>
          if String.eqb name roleName then
            match ID roleDefinitionResult with
            | Some id => Ok id
            | None => Err NilPointerDereference
            end
          else roleDefinitionIdByName roleName rest
      | _ => roleDefinitionIdByName roleName rest
      end
  end.

Section Resource.
Context {Future Remote : Type}.

Variable listSQLRoleDefinitions :
  string -> string -> Remote -> Remote * (SQLRoleDefinitionListResult * option string).
Variable createUpdateSQLRoleAssignment :
  string -> string -> string -> Cosmos.SQLRoleAssignmentResource ->
  Remote -> Remote * (Future * option string).
Variable waitForCompletionRef : Future -> Remote -> Remote * option string.

(** What [uuid.GenerateUUID] hands out in this run. *)
Variable generateUUID : result string string.

(** The description of an ID, which [%q] prints. *)
Variable describe : CosmosParse.SqlRoleAssigmentId -> string.

Local Abbreviation Op := (M (CallRecord Future) Remote error).

(** The read function that creating ends with. *)
Variable resourceCosmosDbRoleAssignmentRead : Op unit.

Definition resourceCosmosDbRoleAssignmentCreateUpdate (subscriptionId : string) : Op unit :=
  let* name := GetAttribute "name" in
  let* name :=
    if String.eqb name "" then
      match generateUUID with
      | Err err => fail (Wrapped "generating UUID for Role Assignment" (Message err))
      | Ok uuid => ret uuid
      end
    else ret name in
  let* resourceGroupName := GetAttribute "resource_group_name" in
  let* accountName := GetAttribute "cosmosdb_account_name" in
  let id := CosmosParse.NewSqlRoleAssigmentID subscriptionId resourceGroupName
              accountName name in
  let* byId := GetOk "role_definition_id" in
  let* byName := GetOk "role_definition_name" in
  let* roleDefinitionId :=
    if snd byId then ret (fst byId)
    else if snd byName then
      let roleName := fst byName in
      let* roleDefinitionsRaw :=
        call (listSQLRoleDefinitions (CosmosParse.ResourceGroup id)
                (CosmosParse.DatabaseAccountName id))
             (fun '(resp, err) =>
                ListSQLRoleDefinitions (CosmosParse.ResourceGroup id)
                  (CosmosParse.DatabaseAccountName id) resp err) in
      match snd roleDefinitionsRaw with
      | Some err => fail (Wrapped "loading Role Definition List" (ApiError err))
      | None =>
          match Value (fst roleDefinitionsRaw) with
          | None =>
              fail (Message ("loading Role Definition List: could not find role '"
                             +:+ roleName +:+ "'"))
          | Some roleDefinitions =>
              match roleDefinitionIdByName roleName roleDefinitions with
              | Ok roleDefinitionId => ret roleDefinitionId
              | Err panic => fail panic
              end
          end
      end
    else fail (Message "either role_definition_id or role_definition_name needs to be set") in
  SetAttribute "role_definition_id" roleDefinitionId ;;
  let* scope := GetAttribute "scope" in
  let* principalId := GetAttribute "principal_id" in
  let roleAssignmentProperties :=
    {| Cosmos.RoleDefinitionID := Some roleDefinitionId;
       Cosmos.Scope := Some scope;
       Cosmos.PrincipalID := Some principalId |} in
  let* created :=
    call (createUpdateSQLRoleAssignment (CosmosParse.SqlRoleAssignmentName id)
            (CosmosParse.ResourceGroup id) (CosmosParse.DatabaseAccountName id)
            roleAssignmentProperties)
         (fun '(future, err) =>
            CreateUpdateSQLRoleAssignment (CosmosParse.SqlRoleAssignmentName id)
              (CosmosParse.ResourceGroup id) (CosmosParse.DatabaseAccountName id)
              roleAssignmentProperties future err) in
  match snd created with
  | Some err => fail (Wrapped ("creating/updating " +:+ describe id) (ApiError err))
  | None =>
      let* waited :=
        call (waitForCompletionRef (fst created)) (WaitForCompletionRef (fst created)) in
      match waited with
      | Some err =>
          fail (Wrapped ("waiting for " +:+ describe id +:+ " to complete creation")
                  (ApiError err))
      | None =>
          SetId (CosmosParse.ID id) ;;
          resourceCosmosDbRoleAssignmentRead
      end
  end.

(** The name of the assignment: the configured one, or a fresh UUID when
    none is configured. *)
Definition assignmentName (d : Sdk.ResourceData) : result string string :=
  if String.eqb (Sdk.attribute d "name") "" then generateUUID
  else Ok (Sdk.attribute d "name").

(** The ID and the parameters that creating puts together once the role
    definition is known. *)
Definition assignmentId (subscriptionId name : string) (d : Sdk.ResourceData)
  : CosmosParse.SqlRoleAssigmentId :=
  CosmosParse.NewSqlRoleAssigmentID subscriptionId
    (Sdk.attribute d "resource_group_name") (Sdk.attribute d "cosmosdb_account_name") name.

Definition assignmentParameters (roleDefinitionId : string) (d : Sdk.ResourceData)
  : Cosmos.SQLRoleAssignmentResource :=
  {| Cosmos.RoleDefinitionID := Some roleDefinitionId;
     Cosmos.Scope := Some (Sdk.attribute d "scope");
     Cosmos.PrincipalID := Some (Sdk.attribute d "principal_id") |}.

(** The role name a definition carries, if any. *)
Definition roleNameOf (roleDefinition : SQLRoleDefinitionGetResults) : option string :=
  match Resource roleDefinition with
  | Some resource => RoleName resource
  | None => None
  end.

End Resource.

End CosmosRoleAssignment.
(** ** [internal/services/web]: the host keys of a function app *)

Module FunctionAppHostKeys.
Import GoValue.

(** [flattenFunctionKeys] dereferences every value of the map it is given.
    The order in which Go ranges over the map does not show in the result:
    it is the same map, or the same panic. *)
Definition flattenFunctionKeys (input : gmap string (option string))
  : result panic (gmap string string) :=
  map_fold
    (fun k v output =>
       output <-! output ;
       match v with
       | Some value => Ok (<[k := value]> output)
       | None => Err NilDereference
       end)
    (Ok ∅) input.

End FunctionAppHostKeys.

(** ** [internal/services/containers]: the maintenance configuration's windows *)

Module MaintenanceConfiguration.
Import GoValue.

(** [containerservice.TimeInWeek]: a day of the week and hour slots. *)
Record TimeInWeek := {
  Day : string;
  HourSlots : option (list Z)
}.

Definition WeekDayFriday : string := "Friday".

(** [int32(v)] of a Go [int]: the low 32 bits, read as a signed number. *)
Definition int32 (v : Z) : Z := ((v + 2 ^ 31) mod 2 ^ 32 - 2 ^ 31)%Z.

(** [input] is the list of the set it is given. *)
Definition expandTimeInWeek (input : list value) : result panic (option (list TimeInWeek)) :=
  timeInWeeks <-!
    forEach
      (fun timeInWeekInput =>
         timeInWeekInput <-! assertMap timeInWeekInput ;
         hourSlots <-! assertSetList (index timeInWeekInput "hour_slots") ;
         slots <-! forEach (fun v => v <-! assertInt v ; Ok (int32 v)) hourSlots ;
         Ok {| Day := WeekDayFriday; HourSlots := Some slots |})
      input ;
  Ok (Some timeInWeeks).

(** A [maintenance_allowed] block of the schema. *)
Definition maintenanceAllowedBlock (day : string) (hourSlots : list Z) : value :=
  VMap (<["day" := VString day]> (<["hour_slots" := VSet (VInt <$> hourSlots)]> ∅)).

End MaintenanceConfiguration.

(** ** [internal/services/firewall]: the identity of a firewall policy *)

Module FirewallPolicy.
Import GoValue.

(** [network.ManagedServiceIdentity]; the values of the user assigned
    identities are empty structs. *)
Record ManagedServiceIdentity := {
  PrincipalID : option string;
  TenantID : option string;
  Type_ : string;
  UserAssignedIdentities : gmap string unit
}.

Definition expandFirewallPolicyIdentity (input : list value)
  : result panic (option ManagedServiceIdentity) :=
  match input with
  | [] => Ok None
  | first :: _ =>
      v <-! assertMap first ;
      identityIDSet <-!
        match v !! "user_assigned_identity_ids" with
        | Some identityIds => assertSetList identityIds
        | None => Ok []
        end ;
      userAssignedIdentities <-!
        fold_left
          (fun output id =>
             userAssignedIdentities <-! output ;
             id <-! assertString id ;
             Ok (<[id := tt]> userAssignedIdentities))
          identityIDSet (Ok (∅ : gmap string unit)) ;
      type <-! assertString (index v "type") ;
      principalId <-! assertString (index v "principal_id") ;
      tenantId <-! assertString (index v "tenant_id") ;
      Ok (Some {| Type_ := type;
                  PrincipalID := Some principalId;
                  TenantID := Some tenantId;
                  UserAssignedIdentities := userAssignedIdentities |})
  end.

(** Go ranges over the identities in an order it does not specify; the
    order of [map_to_list] stands for it. *)
Definition flattenFirewallPolicyIdentity (identity : option ManagedServiceIdentity)
  : list value :=
  match identity with
  | None => []
  | Some identity =>
      let principalID := match PrincipalID identity with Some p => p | None => "" end in
      let tenantID := match TenantID identity with Some t => t | None => "" end in
      let userAssignedIdentities :=
        map fst (map_to_list (UserAssignedIdentities identity)) in
      [VMap (<["type" := VString (Type_ identity)]>
               (<["principal_id" := VString principalID]>
                  (<["tenant_id" := VString tenantID]>
                     (<["user_assigned_identity_ids" :=
                          VList (VString <$> userAssignedIdentities)]> ∅))))]
  end.

(** An [identity] block of the schema, and the same block as the flattening
    writes it: the identity IDs are a set in the one, a list in the other. *)
Definition identityBlock (type principalId tenantId : string) (identityIds : list string)
  : value :=
  VMap (<["type" := VString type]>
          (<["principal_id" := VString principalId]>
             (<["tenant_id" := VString tenantId]>
                (<["user_assigned_identity_ids" := VSet (VString <$> identityIds)]> ∅)))).

Definition identityState (type principalId tenantId : string) (identityIds : list string)
  : value :=
  VMap (<["type" := VString type]>
          (<["principal_id" := VString principalId]>
             (<["tenant_id" := VString tenantId]>
                (<["user_assigned_identity_ids" := VList (VString <$> identityIds)]> ∅)))).

End FirewallPolicy.
(** ** IDs whose components hold no slash *)

Module CosmosIds.
Import GoStrings CosmosParse.

Definition slashFree (id : SqlRoleAssigmentId) : Prop :=
  contains "/" (SubscriptionId id) = false /\
  contains "/" (ResourceGroup id) = false /\
  contains "/" (DatabaseAccountName id) = false /\
  contains "/" (SqlRoleAssignmentName id) = false.

End CosmosIds.
(** ** The Chaos SDK's paged list: a service that fails part of the way *)

Module TargetsPaging.
Import TargetsSdk.

Section Client.
Context {Target Remote : Type}.
Variable baseUri : string.
Variable Send : Request -> Remote -> Remote * (option HttpResponse * option string).
Variable Encode : string -> string -> string.
Variable Prepare : Request -> result string Request.
Variable unmarshalPage : string -> result string (page (Target := Target)).
Variable urlParse : string -> result string (string * gmap string (list string)).

(** The service answers [req], and the next links that follow from it, with
    the pages [pages], each with a next link; the request for the page after
    them is the one the sender fails on, with [cause]. *)
Inductive FailsAfter
  : Request -> Remote -> list page -> Remote -> list Request -> string -> Prop :=
| FailsAtOnce (req : Request) (s0 s' : Remote) (resp : option HttpResponse)
    (cause : string) :
    Send req s0 = (s', (resp, Some cause)) ->
    FailsAfter req s0 [] s' [req] cause
| FailsLater (req next : Request) (s0 s1 s' : Remote) (resp : HttpResponse)
    (p : page) (link : string) (rest : list page) (requests : list Request)
    (cause : string) :
    Send req s0 = (s1, (Some resp, None)) ->
    StatusCode resp = 200%Z ->
    unmarshalPage (ResponseBody resp) = Ok p ->
    NextLink p = Some link ->
    preparerForListWithNextLink baseUri Encode Prepare urlParse link = Ok next ->
    FailsAfter next s1 rest s' requests cause ->
    FailsAfter req s0 (p :: rest) s' (req :: requests) cause.

End Client.

End TargetsPaging.
(** ** [internal/services/sql]: creating and updating a managed instance *)

Module SqlManagedInstanceResource.
Import GoValue Rest.
Local Open Scope rest_scope.

(** The ID of the repository's [parse] package, with the fields the resource
    reads. *)
Record ManagedInstanceId := {
  SubscriptionId : string;
  ResourceGroup : string;
  Name : string
}.

Definition NewManagedInstanceID (subscriptionId resourceGroup name : string)
  : ManagedInstanceId :=
  {| SubscriptionId := subscriptionId; ResourceGroup := resourceGroup; Name := name |}.

(** The part of the [sql.ManagedInstance] that [Get] returns which creating
    reads. *)
Record ManagedInstance := { ID : option string }.

(** [sql.ManagedInstanceExternalAdministrator], the administrator inside the
    instance's own parameters, and [sql.ManagedInstanceAdministrator], the
    parameters of the administrators client. *)
Record ManagedInstanceExternalAdministrator {UUID : Type} := {
  AdministratorType : string;
  Login : option string;
  Sid : option UUID;
  TenantID : option UUID;
  AzureADOnlyAuthentication : option bool
}.
Arguments ManagedInstanceExternalAdministrator : clear implicits.

Record ManagedInstanceAdministrator {UUID : Type} := {
  AdministratorType_ : option string;
  Login_ : option string;
  Sid_ : option UUID;
  TenantID_ : option UUID
}.
Arguments ManagedInstanceAdministrator : clear implicits.

Definition AdministratorTypeActiveDirectory : string := "ActiveDirectory".

Record ResourceIdentity := { Type_ : string }.

(** The [sql.ManagedInstance] that creating sends.  [Properties] stands for
    the location, the tags and the properties that are read straight from
    the resource data. *)
Record ManagedInstanceParameters {UUID Properties : Type} := {
  Sku : option SqlManagedInstance.Sku;
  FromResourceData : Properties;
  Administrators : option (ManagedInstanceExternalAdministrator UUID);
  Identity : option ResourceIdentity
}.
Arguments ManagedInstanceParameters : clear implicits.

(** The calls of the three clients, each with its answer, and the wait for a
    future. *)
Inductive CallRecord {UUID Properties Future : Type} :=
| Get (resourceGroupName name : string) (resp : Sdk.Response ManagedInstance)
| CreateOrUpdate (resourceGroupName name : string)
    (parameters : ManagedInstanceParameters UUID Properties)
    (future : Future) (err : option string)
| AzureADOnlyAuthenticationsDelete (resourceGroupName name : string)
    (future : Future) (err : option string)
| AdministratorsCreateOrUpdate (resourceGroupName name : string)
    (parameters : ManagedInstanceAdministrator UUID) (future : Future) (err : option string)
| AzureADOnlyAuthenticationsCreateOrUpdate (resourceGroupName name : string)
    (azureADOnlyAuthentication : option bool) (future : Future) (err : option string)
| AdministratorsDelete (resourceGroupName name : string)
    (future : Future) (err : option string)
| WaitForCompletionRef (future : Future) (err : option string).
Arguments CallRecord : clear implicits.

(** The calls that go to the administrators client or to the Azure AD only
    authentications client. *)
Definition administratorCall {UUID Properties Future : Type}
    (c : CallRecord UUID Properties Future) : bool :=
  match c with
  | AzureADOnlyAuthenticationsDelete _ _ _ _
  | AdministratorsCreateOrUpdate _ _ _ _ _
  | AzureADOnlyAuthenticationsCreateOrUpdate _ _ _ _ _
  | AdministratorsDelete _ _ _ _ => true
  | _ => false
  end.

(** What the function returns besides the errors of the provider: the error
    of [expandManagedInstanceSkuName] and that of the identity's expansion,
    each under its context, and a run-time panic. *)
Inductive failure :=
| Returned (err : error)
| ExpandingSkuName (context : string) (cause : SqlManagedInstance.error)
| ExpandingIdentity (cause : string)
| Panicked (p : panic).

(** [response.WasConflict] of go-azure-helpers, and the test for a status
    400 on the response of a future. *)
Definition WasConflict (httpResponse : option Z) : bool :=
  match httpResponse with
  | Some statusCode => (statusCode =? 409)%Z
  | None => false
  end.

Definition StatusBadRequest : Z := 400.

(** [v != ""] on an interface value: false only for the empty string. *)
Definition isEmptyString (v : value) : bool :=
  match v with
  | VString s => String.eqb s ""
  | _ => false
  end.

(** [v != nil] on an interface value. *)
Definition isNil (v : value) : bool :=
  match v with
  | VNil => true
  | _ => false
  end.

Section Administrators.
Context {UUID : Type}.

(** [uuid.FromString] with its error dropped, as the resource calls it, and
    the [String] method of a UUID. *)
Variable FromString : string -> UUID.
Variable UUIDString : UUID -> string.

Definition expandMsSqlInstanceAdministrator (input : list value)
  : result panic (option (ManagedInstanceAdministrator UUID)) :=
  if emptyOrNil input then Ok None
  else
    admin <-! assertMap (hd VNil input) ;
    objectId <-! assertString (index admin "object_id") ;
    let sid := FromString objectId in
    login <-! assertString (index admin "login_username") ;
    tenantId <-!
      match admin !! "tenant_id" with
      | Some v =>
          if negb (isEmptyString v) then
            v <-! assertString v ;
            Ok (Some (FromString v))
          else Ok None
      | None => Ok None
      end ;
    Ok (Some {| AdministratorType_ := Some "ActiveDirectory";
                Login_ := Some login;
                Sid_ := Some sid;
                TenantID_ := tenantId |}).

Definition expandMsSqlInstanceAdministrators (input : list value)
  : result panic (option (ManagedInstanceExternalAdministrator UUID)) :=
  if emptyOrNil input then Ok None
  else
    admin <-! assertMap (hd VNil input) ;
    objectId <-! assertString (index admin "object_id") ;
    let sid := FromString objectId in
    login <-! assertString (index admin "login_username") ;
    tenantId <-!
      match admin !! "tenant_id" with
      | Some v =>
          if negb (isEmptyString v) then
            v <-! assertString v ;
            Ok (Some (FromString v))
          else Ok None
      | None => Ok None
      end ;
    Ok (Some {| AdministratorType := AdministratorTypeActiveDirectory;
                Login := Some login;
                Sid := Some sid;
                TenantID := tenantId;
                AzureADOnlyAuthentication := None |}).

Definition flatternMsSqlInstanceAdministrators
    (admin : ManagedInstanceExternalAdministrator UUID) : list value :=
  let login := match Login admin with Some l => l | None => "" end in
  let sid := match Sid admin with Some s => UUIDString s | None => "" end in
  let tid := match TenantID admin with Some t => UUIDString t | None => "" end in
  let aadOnlyAuthentictionsEnabled :=
    match AzureADOnlyAuthentication admin with Some b => b | None => false end in
  [VMap (<["login_username" := VString login]>
           (<["object_id" := VString sid]>
              (<["tenant_id" := VString tid]>
                 (<["azuread_authentication_only" :=
                      VBool aadOnlyAuthentictionsEnabled]> ∅))))].

Definition expandMsSqlInstanceAADOnlyAuthentictions (input : list value)
  : result panic bool :=
  if emptyOrNil input then Ok false
  else
    admin <-! assertMap (hd VNil input) ;
    match admin !! "azuread_authentication_only" with
    | Some v => if negb (isNil v) then assertBool v else Ok false
    | None => Ok false
    end.

(** An [azuread_administrator] block of the schema. *)
Definition administratorBlock (loginUsername objectId tenantId : string)
    (azureadAuthenticationOnly : bool) : value :=
  VMap (<["login_username" := VString loginUsername]>
          (<["object_id" := VString objectId]>
             (<["tenant_id" := VString tenantId]>
                (<["azuread_authentication_only" := VBool azureadAuthenticationOnly]> ∅)))).

End Administrators.

Section Resource.
Context {UUID Properties Future Remote : Type}.

Variable FromString : string -> UUID.

(** The clients: the managed instances client, the administrators client
    and the Azure AD only authentications client. *)
Variable get : string -> string -> Remote -> Remote * Sdk.Response ManagedInstance.
Variable createOrUpdate :
  string -> string -> ManagedInstanceParameters UUID Properties ->
  Remote -> Remote * (Future * option string).
Variable azureADOnlyAuthenticationsDelete :
  string -> string -> Remote -> Remote * (Future * option string).
Variable administratorsCreateOrUpdate :
  string -> string -> ManagedInstanceAdministrator UUID ->
  Remote -> Remote * (Future * option string).
Variable azureADOnlyAuthenticationsCreateOrUpdate :
  string -> string -> option bool -> Remote -> Remote * (Future * option string).
Variable administratorsDelete :
  string -> string -> Remote -> Remote * (Future * option string).
Variable waitForCompletionRef : Future -> Remote -> Remote * option string.

(** [future.Response()]: the status code of the response, if there is
    one. *)
Variable Response : Future -> option Z.

(** The two string forms of an ID, from the [parse] package, and what [%q]
    prints for a string. *)
Variable IDString : ManagedInstanceId -> string.
Variable String_ : ManagedInstanceId -> string.
Variable Quote : string -> string.

(** What the plugin SDK answers for the resource data: whether the resource
    is new, whether an attribute has changed, and the blocks of a list
    attribute. *)
Variable IsNewResource : Sdk.ResourceData -> bool.
Variable HasChange : Sdk.ResourceData -> string -> bool.
Variable blocks : Sdk.ResourceData -> string -> list value.

(** The location, the tags and the properties of the parameters, which are
    read straight from the resource data, and [Expand] of the identity
    helper, with the type of the configuration it returns. *)
Variable expandProperties : Sdk.ResourceData -> Properties.
Variable Expand : list value -> result string string.

Local Abbreviation Op := (M (CallRecord UUID Properties Future) Remote failure).

(** The read function that creating ends with. *)
Variable resourceArmSqlMiServerRead : Op unit.

Definition GetData : Op Sdk.ResourceData := fun w => (Ok (data w), w).

Definition expandManagedInstanceIdentity (input : list value)
  : result string (option ResourceIdentity) :=
  match Expand input with
  | Err err => Err err
  | Ok configType => Ok (Some {| Type_ := configType |})
  end.

(** [existing.ID]: nil when the call returned no instance. *)
Definition existingID (existing : Sdk.Response ManagedInstance) : option string :=
  match Sdk.Body existing with
  | Some instance => ID instance
  | None => None
  end.

(** A call that returns a future and an error, and the wait for a future. *)
Definition wait (future : Future) : Op (option string) :=
  call (waitForCompletionRef future) (WaitForCompletionRef future).

Definition orPanic {A : Type} (r : result panic A) : Op A :=
  match r with
  | Ok a => ret a
  | Err p => fail (Panicked p)
  end.

Definition resourceArmSqlMiServerCreateUpdate (subscriptionId : string) : Op unit :=
  let* name := GetAttribute "name" in
  let* resGroup := GetAttribute "resource_group_name" in
  let id := NewManagedInstanceID subscriptionId resGroup name in
  let* d := GetData in
  (if IsNewResource d then
     let* existing :=
       call (get (ResourceGroup id) (Name id)) (Get (ResourceGroup id) (Name id)) in
     match Sdk.Failure existing with
     | Some err =>
         if negb (Sdk.WasNotFound (Sdk.HttpResponse existing)) then
           fail (Returned
                   (Wrapped ("checking for presence of existing Managed Instance "
                             +:+ Quote (IDString id)) (ApiError err)))
         else ret tt
     | None => ret tt
     end ;;
     match existingID existing with
     | Some existingId =>
         if negb (String.eqb existingId "") then
           fail (Returned (ImportAsExistsError "azurerm_sql_managed_instance" existingId))
         else ret tt
     | None => ret tt
     end
   else ret tt) ;;
  let* skuName := GetAttribute "sku_name" in
  match SqlManagedInstance.expandManagedInstanceSkuName skuName with
  | Err err =>
      fail (ExpandingSkuName
              ("error expanding `sku_name` for SQL Managed Instance Server "
               +:+ Quote (IDString id)) err)
  | Ok sku =>
      (* d.GetOk of a list: set when the list is not empty *)
      let azureADAdministrator := blocks d "azuread_administrator" in
      let* administrators :=
        if IsNewResource d && negb (length azureADAdministrator =? 0)%nat then
          orPanic (expandMsSqlInstanceAdministrators FromString azureADAdministrator)
        else ret None in
      match expandManagedInstanceIdentity (blocks d "identity") with
      | Err err => fail (ExpandingIdentity err)
      | Ok resourceIdentity =>
          let parameters :=
            {| Sku := Some sku;
               FromResourceData := expandProperties d;
               Administrators := administrators;
               Identity := resourceIdentity |} in
          let* created :=
            call (createOrUpdate resGroup name parameters)
                 (fun '(future, err) => CreateOrUpdate resGroup name parameters future err) in
          match snd created with
          | Some err => fail (Returned (ApiError err))
          | None =>
              let* waited := wait (fst created) in
              match waited with
              | Some err =>
                  if WasConflict (Response (fst created)) then
                    fail (Returned
                            (Message ("sql managed instance names need to be globally unique and "
                                      +:+ Quote name +:+ " is already in use")))
                  else fail (Returned (ApiError err))
              | None =>
                  (if HasChange d "azuread_administrator" && negb (IsNewResource d) then
                     let* aadOnlyDeleted :=
                       call (azureADOnlyAuthenticationsDelete (ResourceGroup id) (Name id))
                            (fun '(future, err) =>
                               AzureADOnlyAuthenticationsDelete (ResourceGroup id) (Name id)
                                 future err) in
                     match snd aadOnlyDeleted with
                     | Some err =>
                         match Response (fst aadOnlyDeleted) with
                         | Some statusCode =>
                             if negb (statusCode =? StatusBadRequest)%Z then
                               fail (Returned
                                       (Wrapped ("deleting AD Only Authentications "
                                                 +:+ String_ id) (ApiError err)))
                             else ret tt
                         | None =>
                             fail (Returned
                                     (Wrapped ("deleting AD Only Authentications "
                                               +:+ String_ id) (ApiError err)))
                         end
                     | None =>
                         let* waited := wait (fst aadOnlyDeleted) in
                         match waited with
                         | Some err =>
                             fail (Returned
                                     (Wrapped ("waiting for deletion of AD Only Authentications "
                                               +:+ String_ id) (ApiError err)))
                         | None => ret tt
                         end
                     end ;;
                     let* adminParams :=
                       orPanic (expandMsSqlInstanceAdministrator FromString
                                  (blocks d "azuread_administrator")) in
                     match adminParams with
                     | Some adminParams =>
                         let* adminCreated :=
                           call (administratorsCreateOrUpdate (ResourceGroup id) (Name id)
                                   adminParams)
                                (fun '(future, err) =>
                                   AdministratorsCreateOrUpdate (ResourceGroup id) (Name id)
                                     adminParams future err) in
                         match snd adminCreated with
                         | Some err =>
                             fail (Returned
                                     (Wrapped ("creating AAD admin " +:+ String_ id)
                                        (ApiError err)))
                         | None =>
                             let* waited := wait (fst adminCreated) in
                             match waited with
                             | Some err =>
                                 fail (Returned
                                         (Wrapped ("waiting for creation of AAD admin "
                                                   +:+ String_ id) (ApiError err)))
                             | None =>
                                 let* aadOnlyAuthentictionsEnabled :=
                                   orPanic (expandMsSqlInstanceAADOnlyAuthentictions
                                              (blocks d "azuread_administrator")) in
                                 if aadOnlyAuthentictionsEnabled then
                                   let* aadOnlyEnabled :=
                                     call (azureADOnlyAuthenticationsCreateOrUpdate
                                             (ResourceGroup id) (Name id)
                                             (Some aadOnlyAuthentictionsEnabled))
                                          (fun '(future, err) =>
                                             AzureADOnlyAuthenticationsCreateOrUpdate
                                               (ResourceGroup id) (Name id)
                                               (Some aadOnlyAuthentictionsEnabled) future err) in
                                   match snd aadOnlyEnabled with
                                   | Some err =>
                                       fail (Returned
                                               (Wrapped ("setting AAD only authentication for "
                                                         +:+ String_ id) (ApiError err)))
                                   | None =>
                                       let* waited := wait (fst aadOnlyEnabled) in
                                       match waited with
                                       | Some err =>
                                           fail (Returned
                                                   (Wrapped
                                                      ("waiting for setting of AAD only authentication for "
                                                       +:+ String_ id) (ApiError err)))
                                       | None => ret tt
                                       end
                                   end
                                 else ret tt
                             end
                         end
                     | None =>
                         let* adminDeleted :=
                           call (administratorsDelete (ResourceGroup id) (Name id))
                                (fun '(future, err) =>
                                   AdministratorsDelete (ResourceGroup id) (Name id)
                                     future err) in
                         match snd adminDeleted with
                         | Some err =>
                             fail (Returned
                                     (Wrapped ("deleting AAD admin  " +:+ String_ id)
                                        (ApiError err)))
                         | None =>
                             let* waited := wait (fst adminDeleted) in
                             match waited with
                             | Some err =>
                                 fail (Returned
                                         (Wrapped ("waiting for deletion of AAD admin "
                                                   +:+ String_ id) (ApiError err)))
                             | None => ret tt
                             end
                         end
                     end
                   else ret tt) ;;
                  SetId (IDString id) ;;
                  resourceArmSqlMiServerRead
              end
          end
      end
  end.

End Resource.

End SqlManagedInstanceResource.
(** ** [internal/services/web]: writing and deleting the host keys of a function app *)

Module FunctionAppHostKeysResource.
Import GoValue Rest.
Local Open Scope rest_scope.

(** The two calls of the app services client, each with its answer: the
    status of the response, if there is one, and the error. *)
Inductive CallRecord :=
| CreateOrUpdateHostSecret (resourceGroupName name keyType keyName : string)
    (value : option string) (err : option string)
| DeleteHostSecret (resourceGroupName name keyType keyName : string)
    (res : option Z) (err : option string).

Definition keyName (c : CallRecord) : string :=
  match c with
  | CreateOrUpdateHostSecret _ _ _ keyName _ _ => keyName
  | DeleteHostSecret _ _ _ keyName _ _ => keyName
  end.

(** What the functions return: an error of the provider, or a run-time
    panic. *)
Inductive failure :=
| Returned (err : error)
| Panicked (p : panic).

Section Resource.
Context {Remote : Type}.

Variable createOrUpdateHostSecret :
  string -> string -> string -> string -> option string -> Remote -> Remote * option string.
Variable deleteHostSecret :
  string -> string -> string -> string -> Remote -> Remote * (option Z * option string).

(** What the plugin SDK answers for the resource data: the map of an
    attribute, whether an attribute has changed, and its old and new
    value. *)
Variable mapAttribute : Sdk.ResourceData -> string -> gmap string value.
Variable HasChange : Sdk.ResourceData -> string -> bool.
Variable GetChange : Sdk.ResourceData -> string -> gmap string value * gmap string value.

(** The string form of the function app's ID, from the [parse] package, and
    what [%q] prints for a string. *)
Variable FunctionAppID : string -> string -> string -> string.
Variable Quote : string -> string.

Local Abbreviation Op := (M CallRecord Remote failure).

(** The read function that creating ends with. *)
Variable resourceFunctionAppHostKeysRead : Op unit.

Definition GetData : Op Sdk.ResourceData := fun w => (Ok (data w), w).

Definition removing (key name resourceGroup err : string) : failure :=
  Returned
    (Wrapped ("removing host secret " +:+ key +:+ " for AzureRM Function App "
              +:+ Quote name +:+ " (Resource Group " +:+ Quote resourceGroup)
       (ApiError err)).

(** The loop of the delete function over the keys of the map, in the order
    in which Go ranges over them. *)
Fixpoint deleteHostSecrets (resourceGroup name : string) (keys : list string) : Op unit :=
  match keys with
  | [] => ret tt
  | key :: keys =>
      let* deleted :=
        call (deleteHostSecret resourceGroup name "functionKeys" key)
             (fun '(res, err) =>
                DeleteHostSecret resourceGroup name "functionKeys" key res err) in
      match snd deleted with
      | Some err =>
          if Sdk.WasNotFound (fst deleted) then deleteHostSecrets resourceGroup name keys
          else fail (removing key name resourceGroup err)
      | None => deleteHostSecrets resourceGroup name keys
      end
  end.

(** Go ranges over a map in an order it does not specify; the order of
    [map_to_list] stands for it. *)
Definition resourceFunctionAppHostKeysDelete : Op unit :=
  let* resourceGroup := GetAttribute "resource_group_name" in
  let* name := GetAttribute "name" in
  let* d := GetData in
  let keys := mapAttribute d "host_keys" in
  deleteHostSecrets resourceGroup name (map_to_list keys).*1.

(** The first loop of the create and update function: one write per key of
    the configured map. *)
Fixpoint updateHostSecrets (resourceGroup name : string) (input : list (string * value))
  : Op unit :=
  match input with
  | [] => ret tt
  | (k, v) :: input =>
      match assertString v with
      | Err p => fail (Panicked p)
      | Ok v =>
          let* err :=
            call (createOrUpdateHostSecret resourceGroup name "functionKeys" k (Some v))
                 (CreateOrUpdateHostSecret resourceGroup name "functionKeys" k (Some v)) in
          match err with
          | Some err =>
              fail (Returned
                      (Wrapped ("updating host secret " +:+ k +:+ " for AzureRM Function App "
                                +:+ Quote name +:+ " (Resource Group "
                                +:+ Quote resourceGroup +:+ ")") (ApiError err)))
          | None => updateHostSecrets resourceGroup name input
          end
      end
  end.

(** [newKeys[oldKey] == nil || newKeys[oldKey].(string) == ""]: the
    condition under which the second loop deletes an old key. *)
Definition removedFrom (newKeys : gmap string value) (oldKey : string) : result panic bool :=
  match index newKeys oldKey with
  | VNil => Ok true
  | v =>
      s <-! assertString v ;
      Ok (String.eqb s "")
  end.

(** Its second loop: the old keys that the new map leaves out, or gives the
    empty string, are deleted. *)
Fixpoint deleteRemovedKeys (resourceGroup name : string) (newKeys : gmap string value)
    (old : list string) : Op unit :=
  match old with
  | [] => ret tt
  | oldKey :: old =>
      match removedFrom newKeys oldKey with
      | Err p => fail (Panicked p)
      | Ok true =>
          let* deleted :=
            call (deleteHostSecret resourceGroup name "functionKeys" oldKey)
                 (fun '(res, err) =>
                    DeleteHostSecret resourceGroup name "functionKeys" oldKey res err) in
          match snd deleted with
          | Some err =>
              if Sdk.WasNotFound (fst deleted) then
                deleteRemovedKeys resourceGroup name newKeys old
              else fail (removing oldKey name resourceGroup err)
          | None => deleteRemovedKeys resourceGroup name newKeys old
          end
      | Ok false => deleteRemovedKeys resourceGroup name newKeys old
      end
  end.

Definition resourceFunctionAppHostKeysCreateUpdate (subscriptionId : string) : Op unit :=
  let* resourceGroup := GetAttribute "resource_group_name" in
  let* name := GetAttribute "name" in
  let* d := GetData in
  (if HasChange d "host_keys" then
     let input := mapAttribute d "host_keys" in
     updateHostSecrets resourceGroup name (map_to_list input) ;;
     (* delete removed keys *)
     let '(old, new) := GetChange d "host_keys" in
     deleteRemovedKeys resourceGroup name new (map_to_list old).*1
   else ret tt) ;;
  SetId (FunctionAppID subscriptionId resourceGroup name) ;;
  resourceFunctionAppHostKeysRead.

(** Whether a delete call went through, or failed with a 404. *)
Definition tolerated (c : CallRecord) : bool :=
  match c with
  | DeleteHostSecret _ _ _ _ res err =>
      match err with
      | Some _ => Sdk.WasNotFound res
      | None => true
      end
  | CreateOrUpdateHostSecret _ _ _ _ _ err => negb (isSome err)
  end.

End Resource.

End FunctionAppHostKeysResource.
(** ** More concrete clouds: deletes, a role assignment by name, a list that breaks off *)

Module MoreScenarios.
Import Scenarios.

(** *** Resources that are in the state already *)

Definition moduleState : Sdk.ResourceData :=
  {| Sdk.Id := moduleID module0; Sdk.Attributes := Sdk.Attributes moduleConfig |}.

(** *** A SQL role assignment configured by the name of its role *)

Definition builtinReaderId : string :=
  "/subscriptions/sub/resourceGroups/rg/providers/Microsoft.DocumentDB/databaseAccounts/account/sqlRoleDefinitions/00000000-0000-0000-0000-000000000001".

Definition builtinContributorId : string :=
  "/subscriptions/sub/resourceGroups/rg/providers/Microsoft.DocumentDB/databaseAccounts/account/sqlRoleDefinitions/00000000-0000-0000-0000-000000000002".

Definition customReaderId : string :=
  "/subscriptions/sub/resourceGroups/rg/providers/Microsoft.DocumentDB/databaseAccounts/account/sqlRoleDefinitions/custom".

(** Three role definitions, of which the second and the third carry the
    same name. *)
Definition roleDefinitions : CosmosRoleAssignment.SQLRoleDefinitionListResult :=
  {| CosmosRoleAssignment.Value :=
       Some [{| CosmosRoleAssignment.ID := Some builtinContributorId;
                CosmosRoleAssignment.Resource :=
                  Some {| CosmosRoleAssignment.RoleName :=
                            Some "Cosmos DB Built-in Data Contributor" |} |};
             {| CosmosRoleAssignment.ID := Some builtinReaderId;
                CosmosRoleAssignment.Resource :=
                  Some {| CosmosRoleAssignment.RoleName :=
                            Some "Cosmos DB Built-in Data Reader" |} |};
             {| CosmosRoleAssignment.ID := Some customReaderId;
                CosmosRoleAssignment.Resource :=
                  Some {| CosmosRoleAssignment.RoleName :=
                            Some "Cosmos DB Built-in Data Reader" |} |}] |}.

Definition roleAssignmentConfig : Sdk.ResourceData :=
  {| Sdk.Id := "";
     Sdk.Attributes :=
       <["name" := "assignment1"]>
         (<["resource_group_name" := "rg"]>
            (<["cosmosdb_account_name" := "account"]>
               (<["role_definition_name" := "Cosmos DB Built-in Data Reader"]>
                  (<["scope" := "/"]>
                     (<["principal_id" := "principal"]> ∅))))) |}.

(** A SQL resources client whose calls all succeed; its futures carry
    nothing, and its state is the number of calls it has answered. *)
Definition listSQLRoleDefinitions (resourceGroupName accountName : string) (n : nat)
  : nat * (CosmosRoleAssignment.SQLRoleDefinitionListResult * option string) :=
  (S n, (roleDefinitions, None)).

Definition createUpdateSQLRoleAssignment (roleAssignmentID resourceGroupName accountName : string)
    (parameters : Cosmos.SQLRoleAssignmentResource) (n : nat)
  : nat * (unit * option string) :=
  (S n, (tt, None)).

Definition waitForCompletionRef (future : unit) (n : nat) : nat * option string :=
  (S n, None).

Definition roleAssignmentStart
  : Rest.World (CosmosRoleAssignment.CallRecord unit) nat :=
  {| Rest.remote := 0; Rest.calls := []; Rest.data := roleAssignmentConfig |}.

(** *** A list of chaos targets that breaks off after its first page *)

Definition onePageThenFailure : TargetsSdk.Request -> nat ->
                                nat * (option TargetsSdk.HttpResponse * option string) :=
  fun _ n =>
    (S n,
     nth n
       [(Some {| TargetsSdk.StatusCode := 200; TargetsSdk.ResponseBody := "page1" |}, None)]
       (None, Some "connection refused")).

(** *** A SQL managed instance *)

(** A configuration whose SKU name has one part only, and one with a SKU
    name that expands. *)
Definition instanceConfig : Sdk.ResourceData :=
  {| Sdk.Id := "";
     Sdk.Attributes :=
       <["name" := "instance1"]>
         (<["resource_group_name" := "rg"]> (<["sku_name" := "GP"]> ∅)) |}.

Definition instanceConfigGen5 : Sdk.ResourceData :=
  {| Sdk.Id := "";
     Sdk.Attributes :=
       <["name" := "instance1"]>
         (<["resource_group_name" := "rg"]> (<["sku_name" := "GP_Gen5"]> ∅)) |}.

Definition managedInstanceID (id : SqlManagedInstanceResource.ManagedInstanceId) : string :=
  Sprintf "/subscriptions/%s/resourceGroups/%s/providers/Microsoft.Sql/managedInstances/%s"
    [SqlManagedInstanceResource.SubscriptionId id;
     SqlManagedInstanceResource.ResourceGroup id;
     SqlManagedInstanceResource.Name id].

(** A string between double quotes. *)
Definition quoted (s : string) : string :=
  String (Ascii.Ascii false true false false false true false false)
    (s +:+ String (Ascii.Ascii false true false false false true false false) EmptyString).

(** Clients whose calls all succeed at once, with no instance there yet;
    UUIDs are kept as the strings they are read from, futures carry nothing,
    and the state of the remote side is the number of calls it has
    answered. *)
Definition succeeds (n : nat) : nat * (unit * option string) := (S n, (tt, None)).

Definition administrator0 : list GoValue.value :=
  [SqlManagedInstanceResource.administratorBlock "admin"
     "00000000-0000-0000-0000-000000000001" "" true].

Definition administratorOnly (administrator : list GoValue.value)
    (d : Sdk.ResourceData) (key : string) : list GoValue.value :=
  if String.eqb key "azuread_administrator" then administrator else [].

Definition instanceCreateUpdate (isNew hasChange : bool) (administrator : list GoValue.value)
    (subscriptionId : string)
  : Rest.M (SqlManagedInstanceResource.CallRecord string unit unit) nat
      SqlManagedInstanceResource.failure unit :=
  SqlManagedInstanceResource.resourceArmSqlMiServerCreateUpdate
    (fun s => s)
    (fun _ _ n => (S n, notFound))
    (fun _ _ _ => succeeds) (fun _ _ => succeeds) (fun _ _ _ => succeeds)
    (fun _ _ _ => succeeds) (fun _ _ => succeeds)
    (fun _ n => (S n, None))
    (fun _ => Some 200%Z)
    managedInstanceID managedInstanceID quoted
    (fun _ => isNew) (fun _ _ => hasChange) (administratorOnly administrator)
    (fun _ => tt) (fun _ => Ok "SystemAssigned")
    (Rest.ret tt)
    subscriptionId.

Definition instanceStart (d : Sdk.ResourceData)
  : Rest.World (SqlManagedInstanceResource.CallRecord string unit unit) nat :=
  {| Rest.remote := 0; Rest.calls := []; Rest.data := d |}.

End MoreScenarios.
(** * Part II: properties *)

(** ** Splitting and joining *)

Section SplitFacts.
Variable sep : ascii.

Lemma contains_app (a b : string) :
  contains sep (a +:+ b) = contains sep a || contains sep b.
Proof.
  induction a as [|x a IH]; simpl; [reflexivity|].
  rewrite IH. now rewrite orb_assoc.
Qed.

Lemma split_go_no_sep (s : string) :
  contains sep s = false -> split_go sep s = (s, []).
Proof.
  induction s as [|a s IH]; simpl; [reflexivity|].
  intros H. apply orb_false_iff in H as [Ha Hs].
  rewrite (IH Hs), Ha. reflexivity.
Qed.

Lemma split_go_app (a r : string) :
  contains sep a = false ->
  split_go sep (a +:+ String sep r) = (a, Split r sep).
Proof.
  intros Ha. induction a as [|x a IH]; simpl.
  - rewrite Ascii.eqb_refl. unfold Split. now destruct (split_go sep r).
  - simpl in Ha. apply orb_false_iff in Ha as [Hx Ha].
    rewrite (IH Ha), Hx. reflexivity.
Qed.

Lemma Split_no_sep (s : string) :
  contains sep s = false -> Split s sep = [s].
Proof. intros H. unfold Split. now rewrite split_go_no_sep. Qed.

Lemma Split_app (a r : string) :
  contains sep a = false ->
  Split (a +:+ String sep r) sep = a :: Split r sep.
Proof. intros H. unfold Split at 1. now rewrite split_go_app. Qed.

(** The pieces of a split never contain the separator. *)
Lemma split_go_pieces (s : string) :
  contains sep (fst (split_go sep s)) = false /\
  Forall (fun p => contains sep p = false) (snd (split_go sep s)).
Proof.
  induction s as [|a s [IHh IHt]]; simpl; [split; [reflexivity|constructor]|].
  destruct (split_go sep s) as [h t]; simpl in *.
  destruct (Ascii.eqb a sep) eqn:E; simpl.
  - split; [reflexivity|]. constructor; assumption.
  - rewrite E. simpl. split; assumption.
Qed.

Lemma Split_pieces (s : string) :
  Forall (fun p => contains sep p = false) (Split s sep).
Proof.
  unfold Split. pose proof (split_go_pieces s) as [Hh Ht].
  destruct (split_go sep s) as [h t]; simpl in *. constructor; assumption.
Qed.

Lemma Join_cons (p q : string) (rest : list string) :
  Join (p :: q :: rest) sep = p +:+ String sep (Join (q :: rest) sep).
Proof. reflexivity. Qed.

(** Joining the pieces of a split gives the string back. *)
Lemma Join_Split (s : string) : Join (Split s sep) sep = s.
Proof.
  unfold Split. induction s as [|a s IH]; [reflexivity|].
  cbn [split_go]. destruct (split_go sep s) as [h t].
  destruct (Ascii.eqb a sep) eqn:E.
  - apply Ascii.eqb_eq in E. subst a.
    rewrite Join_cons, IH. reflexivity.
  - rewrite <- IH. now destruct t.
Qed.

(** A string splits in two exactly when it is two separator-free pieces around
    one separator. *)
Lemma Split_two (s p0 p1 : string) :
  Split s sep = [p0; p1] <->
  s = p0 +:+ String sep p1 /\ contains sep p0 = false /\ contains sep p1 = false.
Proof.
  split.
  - intros H. pose proof (Split_pieces s) as HF. pose proof (Join_Split s) as HJ.
    rewrite H in HF. rewrite H in HJ. simpl in HJ.
    apply Forall_cons in HF as [H0 HF]. apply Forall_cons in HF as [H1 _].
    auto.
  - intros (-> & H0 & H1). rewrite Split_app by assumption.
    now rewrite Split_no_sep.
Qed.

(** Splitting undoes joining when no piece contains the separator. *)
Lemma Split_Join (parts : list string) :
  parts <> [] ->
  Forall (fun p => contains sep p = false) parts ->
  Split (Join parts sep) sep = parts.
Proof.
  induction parts as [|p [|q rest] IH]; intros Hne HF; [congruence| |].
  - apply Forall_cons in HF as [Hp _]. now apply Split_no_sep.
  - apply Forall_cons in HF as [Hp HF].
    rewrite Join_cons, Split_app by assumption.
    rewrite IH; [reflexivity|discriminate|assumption].
Qed.

Lemma append_cons (a : ascii) (s t : string) :
  String a s +:+ t = String a (s +:+ t).
Proof. reflexivity. Qed.

Lemma TrimSuffix_cons (a b : ascii) (s : string) :
  TrimSuffix (String a (String b s)) sep = String a (TrimSuffix (String b s) sep).
Proof. reflexivity. Qed.

Lemma TrimSuffix_no_sep (s : string) :
  contains sep s = false -> TrimSuffix s sep = s.
Proof.
  induction s as [|a [|b s] IH]; intros H; [reflexivity| |].
  - simpl in *. apply orb_false_iff in H as [-> _]. reflexivity.
  - rewrite TrimSuffix_cons. rewrite IH; [reflexivity|].
    change (Ascii.eqb a sep || contains sep (String b s) = false) in H.
    now apply orb_false_iff in H as [_ H].
Qed.

Lemma TrimSuffix_app (a b : string) :
  b <> EmptyString -> TrimSuffix (a +:+ b) sep = a +:+ TrimSuffix b sep.
Proof.
  intros Hb. induction a as [|x a IH]; [reflexivity|].
  rewrite !append_cons. rewrite <- IH.
  destruct (a +:+ b) as [|y r] eqn:E; [|apply TrimSuffix_cons].
  destruct a; [change (b = EmptyString) in E; congruence|discriminate].
Qed.

Lemma Join_nonempty (p : string) (rest : list string) :
  p <> EmptyString -> Join (p :: rest) sep <> EmptyString.
Proof.
  intros Hp. destruct p as [|a p]; [congruence|].
  destruct rest; [discriminate|]. rewrite Join_cons. discriminate.
Qed.

(** A joined list whose pieces are non-empty and separator-free has no
    trailing separator to trim. *)
Lemma TrimSuffix_Join (parts : list string) :
  Forall (fun p => p <> EmptyString /\ contains sep p = false) parts ->
  TrimSuffix (Join parts sep) sep = Join parts sep.
Proof.
  induction parts as [|p [|q rest] IH]; intros HF; [reflexivity| |].
  - apply Forall_cons in HF as [[_ Hp] _]. now apply TrimSuffix_no_sep.
  - apply Forall_cons in HF as [[Hp0 Hp] HF].
    rewrite Join_cons. rewrite TrimSuffix_app by discriminate.
    pose proof HF as HF'. apply Forall_cons in HF' as [[Hq _] _].
    pose proof (Join_nonempty q rest Hq) as Hj.
    destruct (Join (q :: rest) sep) as [|y r] eqn:E; [congruence|].
    rewrite TrimSuffix_cons. rewrite <- E in *. now rewrite IH.
Qed.

End SplitFacts.

(** ** SQL managed instance SKU names *)

Module SqlManagedInstanceFacts.
Import SqlManagedInstance.

Example sku_gp_gen5 :
  expandManagedInstanceSkuName "GP_Gen5"
  = Ok {| Name := Some "GP_Gen5"; Tier := Some "GeneralPurpose"; Size := None;
          Family := Some "Gen5"; Capacity := None |}.
Proof. reflexivity. Qed.

Example sku_bc_gen4 :
  expandManagedInstanceSkuName "BC_Gen4"
  = Ok {| Name := Some "BC_Gen4"; Tier := Some "BusinessCritical"; Size := None;
          Family := Some "Gen4"; Capacity := None |}.
Proof. reflexivity. Qed.

Example sku_three_parts :
  expandManagedInstanceSkuName "GP_Gen5_8" = Err (WrongNumberOfParts "GP_Gen5_8" 3).
Proof. reflexivity. Qed.

Example sku_one_part :
  expandManagedInstanceSkuName "GP" = Err (WrongNumberOfParts "GP" 1).
Proof. reflexivity. Qed.

Example sku_unknown_tier :
  expandManagedInstanceSkuName "MO_Gen5" = Err (UnknownSkuTier "MO_Gen5" "MO").
Proof. reflexivity. Qed.

Example sku_lower_case_tier :
  expandManagedInstanceSkuName "gp_Gen5" = Err (UnknownSkuTier "gp_Gen5" "gp").
Proof. reflexivity. Qed.

Example sku_empty_family :
  expandManagedInstanceSkuName "GP_"
  = Ok {| Name := Some "GP_"; Tier := Some "GeneralPurpose"; Size := None;
          Family := Some ""; Capacity := None |}.
Proof. reflexivity. Qed.

Lemma length_two {A} (l : list A) :
  length l = 2%nat -> exists a b, l = [a; b].
Proof.
  destruct l as [|a [|b [|c l]]]; simpl; try discriminate. eauto.
Qed.

(** C8. [expandManagedInstanceSkuName skuName] fails exactly when [skuName]
    does not split on the underscore into two parts or its first part is
    neither GP nor BC; otherwise the Sku carries [skuName] as its name, the
    tier GeneralPurpose for GP and BusinessCritical for BC, and the second
    part as its family. *)
Theorem expandManagedInstanceSkuName_spec (skuName : string) :
  let parts := Split skuName "_" in
  let part0 := nth 0 parts EmptyString in
  let part1 := nth 1 parts EmptyString in
  match expandManagedInstanceSkuName skuName with
  | Err _ =>
      length parts <> 2%nat \/ (part0 <> "GP" /\ part0 <> "BC")
  | Ok sku =>
      length parts = 2%nat /\
      ((part0 = "GP" /\ Tier sku = Some "GeneralPurpose") \/
       (part0 = "BC" /\ Tier sku = Some "BusinessCritical")) /\
      Name sku = Some skuName /\
      Family sku = Some part1 /\
      Size sku = None /\ Capacity sku = None
  end.
Proof.
  cbv zeta. unfold expandManagedInstanceSkuName.
  destruct (length (Split skuName "_") =? 2)%nat eqn:El; simpl.
  - apply Nat.eqb_eq in El.
    destruct (String.eqb (nth 0 (Split skuName "_") "") "GP") eqn:E0; simpl.
    + apply String.eqb_eq in E0. rewrite E0. auto 10.
    + destruct (String.eqb (nth 0 (Split skuName "_") "") "BC") eqn:E1; simpl.
      * apply String.eqb_eq in E1. rewrite E1. auto 10.
      * apply String.eqb_neq in E0, E1. right. auto.
  - apply Nat.eqb_neq in El. left. exact El.
Qed.

(** The accepted names, read off the string itself: a tier, one underscore
    and a family without underscore. *)
Lemma expandManagedInstanceSkuName_accepts (skuName : string) :
  is_ok (expandManagedInstanceSkuName skuName) = true <->
  exists family, contains "_" family = false /\
    (skuName = "GP_" +:+ family \/ skuName = "BC_" +:+ family).
Proof.
  unfold expandManagedInstanceSkuName. split.
  - destruct (length (Split skuName "_") =? 2)%nat eqn:El; [|discriminate].
    apply Nat.eqb_eq in El. destruct (length_two _ El) as (p0 & p1 & Hs).
    rewrite Hs. cbn [negb nth].
    pose proof Hs as Hsplit. apply Split_two in Hsplit as (-> & _ & H1).
    destruct (String.eqb p0 "GP") eqn:E0.
    + apply String.eqb_eq in E0. subst p0. intros _. exists p1. auto.
    + destruct (String.eqb p0 "BC") eqn:E1; [|discriminate].
      apply String.eqb_eq in E1. subst p0. intros _. exists p1. auto.
  - intros (family & Hf & Hs).
    assert (exists p0, (p0 = "GP" \/ p0 = "BC") /\ Split skuName "_" = [p0; family])
      as (p0 & Hp0 & Hsplit).
    { destruct Hs as [-> | ->]; [exists "GP" | exists "BC"]; (split; [auto|]);
        apply Split_two; auto. }
    rewrite Hsplit. cbn [length Nat.eqb negb nth].
    destruct Hp0 as [-> | ->]; reflexivity.
Qed.

End SqlManagedInstanceFacts.

(** ** Resource IDs: formatting and parsing *)

Module ResourceIdFacts.
Import azure CosmosParse.

Lemma append_empty_r (s : string) : s +:+ "" = s.
Proof.
  induction s as [|a s IH]; [reflexivity|].
  change (String a (s +:+ "") = String a s). now rewrite IH.
Qed.

Lemma eqb_empty_false (s : string) : s <> "" -> String.eqb s "" = false.
Proof. intros H. now apply String.eqb_neq. Qed.

(** The test table of the generated parsers, run on the role assignment
    parser. *)
Example parse_valid :
  SqlRoleAssigmentID "/subscriptions/12345678-1234-9876-4563-123456789012/resourceGroups/resGroup1/providers/Microsoft.DocumentDB/databaseAccounts/acc1/sqlRoleAssignments/ra1"
  = Ok {| SubscriptionId := "12345678-1234-9876-4563-123456789012";
          ResourceGroup := "resGroup1";
          DatabaseAccountName := "acc1";
          SqlRoleAssignmentName := "ra1" |}.
Proof. vm_compute. reflexivity. Qed.

Example parse_empty : SqlRoleAssigmentID "" = Err (CannotParse "").
Proof. vm_compute. reflexivity. Qed.

Example parse_slash : is_err (SqlRoleAssigmentID "/") = true.
Proof. vm_compute. reflexivity. Qed.

Example parse_missing_subscription_value :
  is_err (SqlRoleAssigmentID "/subscriptions/") = true.
Proof. vm_compute. reflexivity. Qed.

Example parse_missing_resource_group :
  SqlRoleAssigmentID "/subscriptions/12345678-1234-9876-4563-123456789012/"
  = Err (MissingElement "resourceGroups").
Proof. vm_compute. reflexivity. Qed.

Example parse_missing_account :
  SqlRoleAssigmentID "/subscriptions/12345678-1234-9876-4563-123456789012/resourceGroups/resGroup1/providers/Microsoft.DocumentDB/"
  = Err (MissingElement "databaseAccounts").
Proof. vm_compute. reflexivity. Qed.

Example parse_missing_role_assignment :
  SqlRoleAssigmentID "/subscriptions/12345678-1234-9876-4563-123456789012/resourceGroups/resGroup1/providers/Microsoft.DocumentDB/databaseAccounts/acc1/"
  = Err (MissingElement "sqlRoleAssignments").
Proof. vm_compute. reflexivity. Qed.

Example parse_missing_role_assignment_value :
  is_err (SqlRoleAssigmentID "/subscriptions/12345678-1234-9876-4563-123456789012/resourceGroups/resGroup1/providers/Microsoft.DocumentDB/databaseAccounts/acc1/sqlRoleAssignments/") = true.
Proof. vm_compute. reflexivity. Qed.

Example parse_upper_cased :
  is_err (SqlRoleAssigmentID "/SUBSCRIPTIONS/12345678-1234-9876-4563-123456789012/RESOURCEGROUPS/RESGROUP1/PROVIDERS/MICROSOFT.DOCUMENTDB/DATABASEACCOUNTS/ACC1/SQLROLEASSIGNMENTS/RA1") = true.
Proof. vm_compute. reflexivity. Qed.

Example parse_extra_segment :
  is_err (SqlRoleAssigmentID "/subscriptions/s/resourceGroups/g/providers/Microsoft.DocumentDB/databaseAccounts/a/sqlRoleAssignments/n/extra/x") = true.
Proof. vm_compute. reflexivity. Qed.

(** The formatter test of the managed instance administrator ID. *)
Example managed_instance_administrator_formatter :
  SqlParse.ID (SqlParse.NewManagedInstanceAzureActiveDirectoryAdministratorID
                 "12345678-1234-9876-4563-123456789012" "resGroup1" "instance1"
                 "activeDirectory")
  = "/subscriptions/12345678-1234-9876-4563-123456789012/resourceGroups/resGroup1/providers/Microsoft.Sql/managedInstances/instance1/administrators/activeDirectory".
Proof. vm_compute. reflexivity. Qed.

Lemma SqlRoleAssigmentId_ID_eq (id : SqlRoleAssigmentId) :
  ID id = "/subscriptions/" +:+ SubscriptionId id +:+ "/resourceGroups/"
          +:+ ResourceGroup id
          +:+ "/providers/Microsoft.DocumentDB/databaseAccounts/"
          +:+ DatabaseAccountName id +:+ "/sqlRoleAssignments/"
          +:+ SqlRoleAssignmentName id.
Proof.
  rewrite <- (append_empty_r (SqlRoleAssignmentName id)) at 1. reflexivity.
Qed.

Lemma ManagedInstanceAdministratorId_ID_eq
    (id : SqlParse.ManagedInstanceAzureActiveDirectoryAdministratorId) :
  SqlParse.ID id
  = "/subscriptions/" +:+ SqlParse.SubscriptionId id +:+ "/resourceGroups/"
    +:+ SqlParse.ResourceGroup id
    +:+ "/providers/Microsoft.Sql/managedInstances/"
    +:+ SqlParse.ManagedInstanceName id +:+ "/administrators/"
    +:+ SqlParse.AdministratorName id.
Proof.
  rewrite <- (append_empty_r (SqlParse.AdministratorName id)) at 1. reflexivity.
Qed.

(** C5. Each ID formatter returns the canonical resource ID path built from
    its four components: the Cosmos DB SQL role assignment under
    Microsoft.DocumentDB/databaseAccounts/.../sqlRoleAssignments, the managed
    instance administrator under
    Microsoft.Sql/managedInstances/.../administrators. *)
Theorem ID_formatters_canonical (sub rg parent name : string) :
  (ID (NewSqlRoleAssigmentID sub rg parent name)
   = "/subscriptions/" +:+ sub +:+ "/resourceGroups/" +:+ rg
     +:+ "/providers/Microsoft.DocumentDB/databaseAccounts/" +:+ parent
     +:+ "/sqlRoleAssignments/" +:+ name)
  /\
  (SqlParse.ID
     (SqlParse.NewManagedInstanceAzureActiveDirectoryAdministratorID sub rg parent name)
   = "/subscriptions/" +:+ sub +:+ "/resourceGroups/" +:+ rg
     +:+ "/providers/Microsoft.Sql/managedInstances/" +:+ parent
     +:+ "/administrators/" +:+ name).
Proof.
  split.
  - apply (SqlRoleAssigmentId_ID_eq (NewSqlRoleAssigmentID sub rg parent name)).
  - apply (ManagedInstanceAdministratorId_ID_eq
             (SqlParse.NewManagedInstanceAzureActiveDirectoryAdministratorID
                sub rg parent name)).
Qed.

(** *** Parsing a formatted ID *)

Lemma parseComponents_subscription (value provider : string)
    (rest : list string) (m : gmap string string) :
  value <> "" ->
  parseComponents ("subscriptions" :: value :: rest) "" provider m
  = parseComponents rest value provider m.
Proof.
  intros Hv. unfold parseComponents; fold parseComponents.
  now rewrite (eqb_empty_false value Hv).
Qed.

Lemma parseComponents_provider (value subscriptionID : string)
    (rest : list string) (m : gmap string string) :
  value <> "" ->
  parseComponents ("providers" :: value :: rest) subscriptionID "" m
  = parseComponents rest subscriptionID value m.
Proof.
  intros Hv. unfold parseComponents; fold parseComponents.
  now rewrite (eqb_empty_false value Hv).
Qed.

Lemma parseComponents_other (key value subscriptionID provider : string)
    (rest : list string) (m : gmap string string) :
  key <> "" -> value <> "" -> key <> "subscriptions" -> key <> "providers" ->
  parseComponents (key :: value :: rest) subscriptionID provider m
  = parseComponents rest subscriptionID provider (<[key := value]> m).
Proof.
  intros Hk Hv Hs Hp. unfold parseComponents; fold parseComponents.
  rewrite (eqb_empty_false key Hk), (eqb_empty_false value Hv).
  apply String.eqb_neq in Hs, Hp. now rewrite Hs, Hp.
Qed.

Lemma ID_Join (id : SqlRoleAssigmentId) :
  ID id = String "/" (Join (formattedComponents id) "/").
Proof. rewrite SqlRoleAssigmentId_ID_eq. reflexivity. Qed.

Lemma formattedComponents_valid (id : SqlRoleAssigmentId) :
  validId id ->
  Forall (fun p => p <> "" /\ contains "/" p = false) (formattedComponents id).
Proof.
  intros (Hs & Hg & Ha & Hn). unfold formattedComponents.
  repeat (apply Forall_cons; split); try assumption;
    try (split; [discriminate|reflexivity]).
  constructor.
Qed.

Lemma pathComponents_ID (id : SqlRoleAssigmentId) :
  validId id -> pathComponents (ID id) = formattedComponents id.
Proof.
  intros Hv. pose proof (formattedComponents_valid id Hv) as HF.
  unfold pathComponents. rewrite ID_Join.
  change (TrimPrefix (String "/" (Join (formattedComponents id) "/")) "/")
    with (Join (formattedComponents id) "/").
  rewrite TrimSuffix_Join by exact HF.
  apply Split_Join; [discriminate|].
  eapply Forall_impl; [exact HF|]. intros p [_ Hp]. exact Hp.
Qed.

Lemma parseComponents_formatted (id : SqlRoleAssigmentId) :
  validId id ->
  parseComponents (formattedComponents id) "" "" ∅
  = Ok (SubscriptionId id, "Microsoft.DocumentDB",
        <["sqlRoleAssignments" := SqlRoleAssignmentName id]>
          (<["databaseAccounts" := DatabaseAccountName id]>
             (<["resourceGroups" := ResourceGroup id]> ∅))).
Proof.
  intros ([Hs _] & [Hg _] & [Ha _] & [Hn _]). unfold formattedComponents.
  rewrite parseComponents_subscription by assumption.
  rewrite parseComponents_other by (assumption || discriminate).
  rewrite parseComponents_provider by discriminate.
  rewrite parseComponents_other by (assumption || discriminate).
  rewrite parseComponents_other by (assumption || discriminate).
  reflexivity.
Qed.

Lemma ParseAzureResourceID_formatted (id : SqlRoleAssigmentId) :
  validId id ->
  ParseAzureResourceID (ID id)
  = Ok {| azure.SubscriptionID := SubscriptionId id;
          azure.ResourceGroup := ResourceGroup id;
          azure.Provider := "Microsoft.DocumentDB";
          azure.Path :=
            <["sqlRoleAssignments" := SqlRoleAssignmentName id]>
              (<["databaseAccounts" := DatabaseAccountName id]> ∅) |}.
Proof.
  intros Hv. unfold ParseAzureResourceID.
  assert (String.eqb (ID id) "" = false) as ->.
  { rewrite ID_Join. reflexivity. }
  fold (pathComponents (ID id)). rewrite (pathComponents_ID id Hv).
  change (negb (Nat.even (length (formattedComponents id)))) with false.
  cbv iota. rewrite (parseComponents_formatted id Hv). unfold rbind.
  destruct Hv as ([Hs _] & _). rewrite (eqb_empty_false _ Hs).
  rewrite lookup_insert_ne by discriminate.
  rewrite lookup_insert_ne by discriminate.
  rewrite lookup_insert_eq.
  do 2 f_equal;
    rewrite !delete_insert_ne by discriminate;
    rewrite delete_insert_eq, delete_empty; reflexivity.
Qed.

(** C3. Parsing a formatted SQL role assignment ID gives the ID back,
    whenever its four components are non-empty and contain no slash. *)
Theorem SqlRoleAssigmentID_roundtrip (id : SqlRoleAssigmentId) :
  validId id -> SqlRoleAssigmentID (ID id) = Ok id.
Proof.
  intros Hv. unfold SqlRoleAssigmentID.
  rewrite (ParseAzureResourceID_formatted id Hv). unfold rbind.
  destruct Hv as ([Hs _] & [Hg _] & _).
  cbn [azure.SubscriptionID azure.ResourceGroup].
  rewrite (eqb_empty_false _ Hs), (eqb_empty_false _ Hg).
  unfold PopSegment at 1. cbn [azure.Path].
  rewrite lookup_insert_ne by discriminate. rewrite lookup_insert_eq.
  unfold PopSegment. cbn [azure.Path].
  rewrite delete_insert_ne by discriminate. rewrite delete_insert_eq.
  rewrite delete_empty. rewrite lookup_insert_eq.
  unfold ValidateNoEmptySegments. cbn [azure.Path].
  rewrite delete_insert_eq, delete_empty. rewrite map_size_empty.
  cbn. now destruct id.
Qed.

Lemma SqlRoleAssigmentID_roundtrip_witness :
  validId (NewSqlRoleAssigmentID "12345678-1234-9876-4563-123456789012"
             "resGroup1" "acc1" "ra1") /\
  SqlRoleAssigmentID
    (ID (NewSqlRoleAssigmentID "12345678-1234-9876-4563-123456789012"
           "resGroup1" "acc1" "ra1"))
  = Ok (NewSqlRoleAssigmentID "12345678-1234-9876-4563-123456789012"
          "resGroup1" "acc1" "ra1").
Proof.
  assert (validId (NewSqlRoleAssigmentID "12345678-1234-9876-4563-123456789012"
                     "resGroup1" "acc1" "ra1")) as Hv.
  { repeat split; (discriminate || reflexivity). }
  split; [exact Hv|].
  exact (SqlRoleAssigmentID_roundtrip _ Hv).
Defined.

(** *** Rejecting malformed IDs *)

Lemma list_pair_ind {A} (P : list A -> Prop) :
  P [] -> (forall x, P [x]) ->
  (forall x y rest, P rest -> P (x :: y :: rest)) ->
  forall l, P l.
Proof.
  intros H0 H1 H2.
  assert (forall l, P l /\ forall x, P (x :: l)) as H.
  { induction l as [|y l [IHl IHx]]; split; auto. }
  intros l. apply H.
Qed.

Lemma segmentKeys_even (components : list string) :
  Nat.even (length components) = true ->
  segmentKeys components = (pairs components).*1.
Proof.
  induction components as [| x | x y rest IH] using list_pair_ind;
    intros Hev; [reflexivity|discriminate|].
  change (x :: segmentKeys rest = x :: (pairs rest).*1).
  f_equal. apply IH. exact Hev.
Qed.

(** What a successful run of the key/value loop says about its input. *)
Lemma parseComponents_Ok (components : list string) :
  forall sub0 prov0 (m0 : gmap string string) sub prov (m : gmap string string),
  parseComponents components sub0 prov0 m0 = Ok (sub, prov, m) ->
  Forall (fun kv => kv.1 <> "" /\ kv.2 <> "") (pairs components) /\
  (forall k v, m !! k = Some v -> m0 !! k = Some v \/ (k, v) ∈ pairs components) /\
  (forall k, is_Some (m0 !! k) -> is_Some (m !! k)) /\
  (forall k v, (k, v) ∈ pairs components ->
     k = "subscriptions" \/ k = "providers" \/ is_Some (m !! k)) /\
  (sub = sub0 \/ ("subscriptions", sub) ∈ pairs components).
Proof.
  induction components as [| x | key value rest IH] using list_pair_ind;
    intros sub0 prov0 m0 sub prov m H.
  - injection H as <- <- <-.
    split; [constructor|]. split; [auto|]. split; [auto|].
    split; [|auto]. intros k v Hin. inversion Hin.
  - injection H as <- <- <-.
    split; [constructor|]. split; [auto|]. split; [auto|].
    split; [|auto]. intros k v Hin. inversion Hin.
  - unfold parseComponents in H; fold parseComponents in H.
    destruct (String.eqb key "" || String.eqb value "") eqn:Ee; [discriminate|].
    apply orb_false_iff in Ee as [Ek Ev].
    apply String.eqb_neq in Ek, Ev.
    change (pairs (key :: value :: rest)) with ((key, value) :: pairs rest).
    destruct (String.eqb key "subscriptions" && String.eqb sub0 "") eqn:Es.
    { apply andb_true_iff in Es as [Es _]. apply String.eqb_eq in Es. subst key.
      destruct (IH _ _ _ _ _ _ H) as (F & Hm & Hmono & Hk & Hsub).
      split; [constructor; [split; assumption|exact F]|].
      split; [intros k v Hkv; destruct (Hm k v Hkv); [left|right; right]; assumption|].
      split; [exact Hmono|].
      split.
      - intros k v Hin. apply elem_of_cons in Hin as [[= -> ->]|Hin]; [auto|eauto].
      - right. destruct Hsub as [->|Hsub]; [left|right; exact Hsub]. }
    destruct (String.eqb key "providers" && String.eqb prov0 "") eqn:Ep.
    { apply andb_true_iff in Ep as [Ep _]. apply String.eqb_eq in Ep. subst key.
      destruct (IH _ _ _ _ _ _ H) as (F & Hm & Hmono & Hk & Hsub).
      split; [constructor; [split; assumption|exact F]|].
      split; [intros k v Hkv; destruct (Hm k v Hkv); [left|right; right]; assumption|].
      split; [exact Hmono|].
      split.
      - intros k v Hin. apply elem_of_cons in Hin as [[= -> ->]|Hin]; [auto|eauto].
      - destruct Hsub as [->|Hsub]; [left; reflexivity|right; right; exact Hsub]. }
    destruct (IH _ _ _ _ _ _ H) as (F & Hm & Hmono & Hk & Hsub).
    split; [constructor; [split; assumption|exact F]|].
    split.
    { intros k v Hkv. destruct (Hm k v Hkv) as [Hins|Hin]; [|right; right; exact Hin].
      destruct (decide (key = k)) as [->|Hne].
      - rewrite lookup_insert_eq in Hins. injection Hins as ->. right. left.
      - rewrite lookup_insert_ne in Hins by exact Hne. left. exact Hins. }
    split.
    { intros k Hk0. apply Hmono. destruct (decide (key = k)) as [->|Hne].
      - rewrite lookup_insert_eq. eauto.
      - rewrite lookup_insert_ne by exact Hne. exact Hk0. }
    split.
    { intros k v Hin. apply elem_of_cons in Hin as [[= -> ->]|Hin]; [|eauto].
      right. right. apply Hmono. rewrite lookup_insert_eq. eauto. }
    destruct Hsub as [->|Hsub]; [left; reflexivity|right; right; exact Hsub].
Qed.

(** What a successful parse says about the input. *)
Lemma SqlRoleAssigmentID_Ok (input : string) (rid : SqlRoleAssigmentId) :
  SqlRoleAssigmentID input = Ok rid ->
  input <> "" /\
  Nat.even (length (pathComponents input)) = true /\
  exists prov (m : gmap string string),
    parseComponents (pathComponents input) "" "" ∅
    = Ok (SubscriptionId rid, prov, m) /\
    SubscriptionId rid <> "" /\
    ResourceGroup rid <> "" /\
    m !! "resourceGroups" = Some (ResourceGroup rid) /\
    m !! "databaseAccounts" = Some (DatabaseAccountName rid) /\
    m !! "sqlRoleAssignments" = Some (SqlRoleAssignmentName rid) /\
    (forall k, is_Some (m !! k) ->
       k = "resourceGroups" \/ k = "databaseAccounts" \/ k = "sqlRoleAssignments").
Proof.
  unfold SqlRoleAssigmentID, ParseAzureResourceID.
  fold (pathComponents input).
  destruct (String.eqb input "") eqn:E0; [discriminate|].
  destruct (Nat.even (length (pathComponents input))) eqn:Eev; [|discriminate].
  cbn [negb].
  destruct (parseComponents (pathComponents input) "" "" ∅)
    as [[[sub prov] m]|e] eqn:Ep; [|discriminate].
  cbn [rbind].
  destruct (String.eqb sub "") eqn:Es; [discriminate|].
  destruct (m !! "resourceGroups") as [rg|] eqn:Erg; cbn [rbind];
    cbn [azure.SubscriptionID azure.ResourceGroup]; rewrite Es;
    [|discriminate].
  destruct (String.eqb rg "") eqn:Eg; [discriminate|].
  unfold PopSegment at 1. cbn [azure.Path].
  destruct (delete "resourceGroups" m !! "databaseAccounts") as [acct|] eqn:Ea;
    [|discriminate].
  cbn [rbind]. unfold PopSegment. cbn [azure.Path].
  destruct (delete "databaseAccounts" (delete "resourceGroups" m)
              !! "sqlRoleAssignments") as [name|] eqn:En; [|discriminate].
  cbn [rbind]. unfold ValidateNoEmptySegments. cbn [azure.Path].
  destruct (size (delete "sqlRoleAssignments"
                    (delete "databaseAccounts" (delete "resourceGroups" m)))
            =? 0)%nat eqn:Esz; [|discriminate].
  cbn [rbind]. intros [= <-]. cbn.
  apply String.eqb_neq in E0, Es, Eg. apply Nat.eqb_eq in Esz.
  apply map_size_empty_iff in Esz.
  rewrite lookup_delete_ne in Ea by discriminate.
  rewrite !lookup_delete_ne in En by discriminate.
  split; [exact E0|]. split; [reflexivity|].
  exists prov, m. repeat (split; [assumption || reflexivity|]).
  intros k Hk.
  destruct (decide (k = "resourceGroups")) as [|H1]; [auto|].
  destruct (decide (k = "databaseAccounts")) as [|H2]; [auto|].
  destruct (decide (k = "sqlRoleAssignments")) as [|H3]; [auto|].
  exfalso.
  assert (delete "sqlRoleAssignments"
            (delete "databaseAccounts" (delete "resourceGroups" m)) !! k = None)
    as Hnone by (rewrite Esz; apply lookup_empty).
  rewrite !lookup_delete_ne in Hnone by congruence.
  rewrite Hnone in Hk. destruct Hk as [? Hk]. discriminate.
Qed.

Lemma pairs_key_elem (components : list string) (k : string) :
  k ∈ (pairs components).*1 <-> exists v, (k, v) ∈ pairs components.
Proof.
  rewrite list_elem_of_fmap. split.
  - intros ([k' v] & -> & Hin). eauto.
  - intros (v & Hin). exists (k, v). auto.
Qed.

Lemma requiredSegments_cases (name : string) :
  name ∈ requiredSegments ->
  name = "subscriptions" \/ name = "resourceGroups" \/
  name = "databaseAccounts" \/ name = "sqlRoleAssignments".
Proof.
  unfold requiredSegments. rewrite !elem_of_cons, elem_of_nil. tauto.
Qed.

(** Membership in a literal list of keys. *)
Ltac in_list := rewrite !elem_of_cons; auto 10.



End ResourceIdFacts.
(** ** Running calls *)

Section SdkFacts.
Context {ResourceId Model Payload Remote E : Type}.
Variable api : Sdk.Call ResourceId Payload -> Remote -> Remote * Sdk.Response Model.

Lemma call_run (c : Sdk.Call ResourceId Payload)
    (w : Sdk.World ResourceId Model Payload Remote) :
  Sdk.call (E := E) api c w = (Ok (Sdk.answer api c w), Sdk.afterCall api c w).
Proof.
  unfold Sdk.call, Sdk.afterCall, Sdk.answer. now destruct (api c (Sdk.remote w)).
Qed.

End SdkFacts.

(** ** The PowerShell 7.2 module: waiting for provisioning *)

Module AutomationFacts.
Import Sdk Automation.

Section Wait.
Context {Payload Remote : Type}.
Variable api : Call PowerShell72ModuleId Payload -> Remote -> Remote * Response Module.
Variable ID : PowerShell72ModuleId -> string.
Variable ParsePowerShell72ModuleID : string -> result error PowerShell72ModuleId.
Variable expandPowerShell72ModuleLink : ResourceData -> Payload.

Local Abbreviation World := (Sdk.World PowerShell72ModuleId Module Payload Remote).

Lemma call_Get (id : PowerShell72ModuleId) (w : World) :
  call (E := error) api (Get id) w = (Ok (answer api (Get id) w), afterCall api (Get id) w).
Proof. apply call_run. Qed.

Lemma refreshModule_run (id : PowerShell72ModuleId) (w : World) :
  refreshModule api ID id w
  = match refreshOutcome ID id (answer api (Get id) w) with
    | (_, Some err) => (Err err, afterCall api (Get id) w)
    | (provisioningState, None) =>
        (Ok (answer api (Get id) w, provisioningState), afterCall api (Get id) w)
    end.
Proof.
  unfold refreshModule, bind. rewrite call_Get.
  now destruct (refreshOutcome ID id (answer api (Get id) w)) as [st [err|]].
Qed.

(** A refresh ends the wait with an error exactly when the Get fails or the
    module reports an error message. *)
Lemma refreshOutcome_error (id : PowerShell72ModuleId) (resp : Response Module) :
  isSome (snd (refreshOutcome ID id resp))
  = isSome (Failure resp) || reportsErrorMessage resp.
Proof.
  unfold refreshOutcome, reportsErrorMessage.
  destruct resp as [status [[[props|]]|] [err|]]; cbn; try reflexivity.
  destruct props as [isGlobal state [[[message|]]|]]; cbn; try reflexivity.
  now destruct (String.eqb message "").
Qed.

(** What a refresh makes of a response, in terms of what the response
    says about the module. *)
Lemma refreshOutcome_fields (id : PowerShell72ModuleId) (resp : Response Module) :
  refreshOutcome ID id resp
  = match Failure resp with
    | Some cause => ("Error", Some (Wrapped ("retrieving " +:+ ID id) (ApiError cause)))
    | None =>
        (default "Unknown" (provisioningStateOf resp),
         if reportsErrorMessage resp
         then Some (Message (default "" (errorMessageOf resp)))
         else None)
    end.
Proof.
  unfold refreshOutcome, reportsErrorMessage, provisioningStateOf, errorMessageOf.
  destruct resp as [status [[[props|]]|] [err|]]; cbn; try reflexivity.
  destruct props as [isGlobal state [[[message|]]|]]; cbn; try reflexivity.
  now destruct (String.eqb message "").
Qed.

Lemma reportsErrorMessage_message (resp : Response Module) :
  reportsErrorMessage resp = true ->
  exists message, errorMessageOf resp = Some message /\ message <> "".
Proof.
  unfold reportsErrorMessage, errorMessageOf.
  destruct resp as [status [[[props|]]|] failure]; cbn; try discriminate.
  destruct props as [isGlobal state [[[message|]]|]]; cbn; try discriminate.
  intros Hmessage. exists message. split; [reflexivity|].
  intros ->. discriminate Hmessage.
Qed.

Lemma inStates_In (state : string) (states : list string) :
  PluginSdk.inStates state states = true <-> In state states.
Proof.
  unfold PluginSdk.inStates. rewrite existsb_exists. split.
  - intros (x & Hin & Heq). apply String.eqb_eq in Heq. now subst.
  - intros Hin. exists state. split; [exact Hin|apply String.eqb_refl].
Qed.

Lemma inStates_target (state : string) :
  PluginSdk.inStates state targetStates = true <->
  state = ModuleProvisioningStateSucceeded.
Proof.
  unfold PluginSdk.inStates, targetStates. simpl. rewrite orb_false_r.
  apply String.eqb_eq.
Qed.

(** A response whose state is a target or a pending state reports that
    state: the default, Unknown, is neither. *)
Lemma reported_state (resp : Response Module) (state : string) :
  state = default "Unknown" (provisioningStateOf resp) ->
  state = ModuleProvisioningStateSucceeded \/ In state pendingStates ->
  provisioningStateOf resp = Some state.
Proof.
  intros Hstate Hor.
  destruct (provisioningStateOf resp) as [reported|]; [now subst|].
  change (default "Unknown" None) with "Unknown" in Hstate. subst state.
  destruct Hor as [Hsucceeded|Hpending]; [discriminate Hsucceeded|].
  apply inStates_In in Hpending. vm_compute in Hpending. discriminate Hpending.
Qed.

(** One more pending response in front of a wait. *)
Lemma Polled_cons (id : PowerShell72ModuleId) (polls : nat)
    (resp : Response Module) (observed : list (Response Module))
    (r : result error unit) :
  pendingResponse resp ->
  Polled ID id polls observed r ->
  Polled ID id (S polls) (resp :: observed) r.
Proof.
  intros Hp H. destruct H as [before last HF Hlen Hs | obs HF Hlen
                             | before last cause HF Hlen He
                             | before last message HF Hlen He Hm Hne
                             | before last state HF Hlen He Hm Hst Ht Hpd].
  - apply (PolledSucceeded ID id (S polls) (resp :: before) last);
      [constructor; assumption | simpl; lia | assumption].
  - apply (PolledTimeout ID id (S polls) (resp :: obs));
      [constructor; assumption | simpl; lia].
  - apply (PolledRefreshFailed ID id (S polls) (resp :: before) last cause);
      [constructor; assumption | simpl; lia | assumption].
  - apply (PolledErrorMessage ID id (S polls) (resp :: before) last message);
      [constructor; assumption | simpl; lia | assumption..].
  - apply (PolledUnexpectedState ID id (S polls) (resp :: before) last state);
      [constructor; assumption | simpl; lia | assumption..].
Qed.

(** Every run of the wait is one of the five outcomes, and the refreshes it
    saw are exactly the calls it issued. *)
Lemma waitForProvisioning_Polled (id : PowerShell72ModuleId) (polls : nat) :
  forall (w w' : World) (r : result error unit),
  waitForProvisioning api ID id polls w = (r, w') ->
  exists observed,
    Polled ID id polls observed r /\
    calls w' = (calls w ++ map (pair (Get id)) observed)%list /\
    data w' = data w.
Proof.
  unfold waitForProvisioning.
  induction polls as [|polls IH]; intros w w' r H.
  - cbn in H. injection H as <- <-. exists [].
    split; [apply PolledTimeout; [constructor|reflexivity]|].
    split; [now rewrite app_nil_r|reflexivity].
  - cbn [PluginSdk.WaitForStateContext] in H. unfold bind in H.
    cbn [PluginSdk.Refresh stateConf] in H.
    rewrite refreshModule_run, refreshOutcome_fields in H.
    set (resp := answer api (Get id) w) in *.
    destruct (Failure resp) as [cause|] eqn:Hfailure.
    { injection H as <- <-. exists [resp].
      split; [|split; reflexivity].
      apply (PolledRefreshFailed ID id (S polls) [] resp cause);
        [constructor | simpl; lia | exact Hfailure]. }
    destruct (reportsErrorMessage resp) eqn:Hmessage.
    { destruct (reportsErrorMessage_message _ Hmessage) as (message & Hreported & Hne).
      rewrite Hreported in H. injection H as <- <-. exists [resp].
      split; [|split; reflexivity].
      apply (PolledErrorMessage ID id (S polls) [] resp message);
        [constructor | simpl; lia | assumption..]. }
    cbn [PluginSdk.Target PluginSdk.Pending stateConf] in H.
    remember (default "Unknown" (provisioningStateOf resp)) as state eqn:Hstate.
    destruct (PluginSdk.inStates state targetStates) eqn:Et.
    + cbn in H. injection H as <- <-. exists [resp].
      split; [|split; reflexivity].
      apply inStates_target in Et.
      apply (PolledSucceeded ID id (S polls) [] resp);
        [constructor | simpl; lia |].
      split; [exact Hfailure|]. split; [exact Hmessage|].
      rewrite <- Et. apply reported_state; [exact Hstate|now left].
    + destruct (PluginSdk.inStates state pendingStates) eqn:Ep.
      * destruct (IH _ _ _ H) as (observed & HP & Hcalls & Hdata).
        apply inStates_In in Ep.
        exists (resp :: observed).
        split; [|split].
        -- apply Polled_cons; [|exact HP].
           split; [exact Hfailure|]. split; [exact Hmessage|].
           exists state. split; [|exact Ep].
           apply reported_state; [exact Hstate|now right].
        -- rewrite Hcalls. cbn. now rewrite <- app_assoc.
        -- exact Hdata.
      * cbn in H. injection H as <- <-. exists [resp].
        split; [|split; reflexivity].
        apply (PolledUnexpectedState ID id (S polls) [] resp state);
          [constructor | simpl; lia | assumption.. | |].
        -- intros Hs. apply inStates_target in Hs. congruence.
        -- intros Hin. apply inStates_In in Hin. congruence.
Qed.

(** Reading only adds calls. *)
Lemma Read_calls (w w' : World) (r : result error unit) :
  resourceAutomationPowerShell72ModuleRead api ID ParsePowerShell72ModuleID w = (r, w') ->
  exists after, calls w' = (calls w ++ after)%list.
Proof.
  unfold resourceAutomationPowerShell72ModuleRead, bind, GetId.
  destruct (ParsePowerShell72ModuleID (Id (data w))) as [id|err].
  - rewrite call_Get.
    destruct (Failure (answer api (Get id) w)) as [err|].
    + destruct (WasNotFound (HttpResponse (answer api (Get id) w)));
        intros [= <- <-]; eexists; reflexivity.
    + intros [= <- <-]. eexists; reflexivity.
  - intros [= <- <-]. exists []. now rewrite app_nil_r.
Qed.

Lemma Create_run (subscriptionId : string) (polls : nat)
    (w w' : World) (r : result error unit) :
  resourceAutomationPowerShell72ModuleCreate api ID ParsePowerShell72ModuleID
    expandPowerShell72ModuleLink subscriptionId polls w = (r, w') ->
  CreateRun ID expandPowerShell72ModuleLink subscriptionId polls w w' r.
Proof.
  intros H. unfold resourceAutomationPowerShell72ModuleCreate in H.
  unfold bind at 1 2 3 in H. unfold GetAttribute in H.
  change (NewPowerShell72ModuleID subscriptionId _ _ _)
    with (configuredId subscriptionId (data w)) in H.
  set (id := configuredId subscriptionId (data w)) in *.
  unfold bind at 1 in H. rewrite call_Get in H.
  set (existing := answer api (Get id) w) in *.
  set (w1 := afterCall api (Get id) w) in *.
  assert (calls w1 = (calls w ++ [(Get id, existing)])%list) as Hc1 by reflexivity.
  assert (forall e, CreateRun ID expandPowerShell72ModuleLink subscriptionId polls
                      w w1 (Err e)) as Hcheck.
  { intros e. apply (FailedOnExistenceCheck _ _ _ _ _ _ _ existing);
      [reflexivity|exact Hc1]. }
  unfold bind at 1 in H.
  assert (match Failure existing with
          | Some err =>
              if negb (WasNotFound (HttpResponse existing))
              then fail (A := unit)
                     (Wrapped ("checking for presence of existing " +:+ ID id)
                        (ApiError err))
              else ret ()
          | None => ret ()
          end w1 = (Ok tt, w1) \/
          exists e, match Failure existing with
          | Some err =>
              if negb (WasNotFound (HttpResponse existing))
              then fail (A := unit)
                     (Wrapped ("checking for presence of existing " +:+ ID id)
                        (ApiError err))
              else ret ()
          | None => ret ()
          end w1 = (Err e, w1)) as [Hpre | [e Hpre]].
  { destruct (Failure existing);
      [destruct (negb (WasNotFound (HttpResponse existing)))|]; eauto. }
  2: { rewrite Hpre in H. injection H as <- <-. apply Hcheck. }
  rewrite Hpre in H. clear Hpre.
  destruct (negb (WasNotFound (HttpResponse existing)) && negb (isGlobalModule existing)).
  { injection H as <- <-. apply Hcheck. }
  unfold bind at 1 in H. unfold GetData in H.
  change (data w1) with (data w) in H.
  unfold bind at 1 in H. rewrite (call_run (E := error)) in H.
  set (cu := CreateOrUpdate id (expandPowerShell72ModuleLink (data w))) in *.
  set (created := answer api cu w1) in *.
  set (w2 := afterCall api cu w1) in *.
  assert (calls w2 = (calls w ++ [(Get id, existing); (cu, created)])%list) as Hc2.
  { change (calls w2) with (calls w1 ++ [(cu, created)])%list.
    rewrite Hc1, <- app_assoc. reflexivity. }
  destruct (Failure created) as [err|] eqn:Ecreated.
  { injection H as <- <-.
    apply (FailedOnCreate _ _ _ _ _ _ _ existing created);
      [reflexivity | now rewrite Ecreated | exact Hc2]. }
  unfold bind at 1 in H.
  destruct (waitForProvisioning api ID id polls w2) as [[[]|e] w3] eqn:Ewait;
    destruct (waitForProvisioning_Polled id polls _ _ _ Ewait)
      as (observed & HP & Hc3 & _).
  - unfold bind at 1 in H. unfold SetId at 1 in H.
    apply Read_calls in H as [after Hafter]. cbn [calls] in Hafter.
    apply (Waited _ _ _ _ _ _ _ existing created observed after (Ok tt));
      [|exact HP|discriminate|reflexivity].
    rewrite Hafter, Hc3, Hc2. rewrite <- !app_assoc. reflexivity.
  - injection H as <- <-.
    apply (Waited _ _ _ _ _ _ _ existing created observed [] (Err e));
      [|exact HP| |discriminate].
    + rewrite Hc3, Hc2. rewrite <- !app_assoc. cbn. now rewrite app_nil_r.
    + intros err [= <-]. auto.
Qed.

(** C9. [resourceAutomationPowerShell72ModuleCreate] succeeds only after a
    refresh has returned the module with the provisioning state Succeeded
    and no error message: the refreshes before it all returned the module in
    one of the pending provisioning states, without failure or error
    message, and a run that reaches the wait and fails in it (the Get of a
    refresh fails, the module reports an error message that is not empty, a
    state that is neither pending nor Succeeded, or the timeout) returns
    that error without a further call.  A refresh fails exactly when its Get
    fails or the module it returns reports an error message that is not
    empty. *)
Theorem Create_waits_until_Succeeded (subscriptionId : string) (polls : nat)
    (w w' : World) (r : result error unit) :
  resourceAutomationPowerShell72ModuleCreate api ID ParsePowerShell72ModuleID
    expandPowerShell72ModuleLink subscriptionId polls w = (r, w') ->
  CreateRun ID expandPowerShell72ModuleLink subscriptionId polls w w' r /\
  (r = Ok tt ->
   exists existing created before resp after,
     calls w'
     = (calls w ++
        (Get (configuredId subscriptionId (data w)), existing)
        :: (CreateOrUpdate (configuredId subscriptionId (data w))
              (expandPowerShell72ModuleLink (data w)), created)
        :: map (pair (Get (configuredId subscriptionId (data w)))) (before ++ [resp])
        ++ after)%list /\
     Forall pendingResponse before /\
     length before < polls /\
     succeededResponse resp) /\
  (forall id resp,
     isSome (snd (refreshOutcome ID id resp))
     = isSome (Failure resp) || reportsErrorMessage resp).
Proof.
  intros H. pose proof (Create_run _ _ _ _ _ H) as Hrun.
  split; [exact Hrun|]. split; [|exact refreshOutcome_error].
  intros ->.
  destruct Hrun as [existing Herr _ | existing created Herr _ _
                   | existing created observed after waited Hcalls HP _ Hok];
    [discriminate Herr | discriminate Herr |].
  rewrite (Hok eq_refl) in HP.
  inversion HP as [before resp HF Hlen Hs Hobs | | | |]; subst.
  exists existing, created, before, resp, after. auto.
Qed.

End Wait.

(** The theorem on a module that is provisioned within three refreshes. *)
Lemma Create_waits_until_Succeeded_witness :
  fst Scenarios.provisioningRun = Ok tt /\
  exists existing created before resp after,
    calls (snd Scenarios.provisioningRun)
    = ([] ++
       (Get Scenarios.module0, existing)
       :: (CreateOrUpdate Scenarios.module0 tt, created)
       :: map (pair (Get Scenarios.module0)) (before ++ [resp])
       ++ after)%list /\
    Forall pendingResponse before /\
    length before < 5 /\
    succeededResponse resp.
Proof.
  assert (fst Scenarios.provisioningRun = Ok tt) as Hok by (vm_compute; reflexivity).
  split; [exact Hok|].
  refine (proj1 (proj2 (Create_waits_until_Succeeded
                   (Scenarios.scripted Scenarios.provisioningScript Scenarios.serverError)
                   Scenarios.moduleID Scenarios.parseModule0 (fun _ => tt)
                   "sub" 5 (Scenarios.start Scenarios.moduleConfig)
                   (snd Scenarios.provisioningRun) (Ok tt) _)) eq_refl).
  rewrite <- Hok. apply surjective_pairing.
Defined.

End AutomationFacts.

(** ** The resource template: the existence check of Create *)

Module CreateFacts.
Import Sdk.

Section ExistenceCheck.
Context {ViewPayload ViewRemote TargetRemote ModulePayload ModuleRemote : Type}.

Variable viewsApi :
  Call CostManagement.ScopedViewId ViewPayload -> ViewRemote ->
  ViewRemote * Response CostManagement.View.
Variable viewID : CostManagement.ScopedViewId -> string.
Variable expandView : ResourceData -> option string -> ViewPayload.

Variable targetsApi :
  Call Chaos.TargetId Chaos.Target -> TargetRemote ->
  TargetRemote * Response Chaos.Target.
Variable targetID : Chaos.TargetId -> string.
Variable Decode : ResourceData -> result error Chaos.TargetResourceModel.

Variable modulesApi :
  Call Automation.PowerShell72ModuleId ModulePayload -> ModuleRemote ->
  ModuleRemote * Response Automation.Module.
Variable moduleID : Automation.PowerShell72ModuleId -> string.
Variable ParsePowerShell72ModuleID :
  string -> result error Automation.PowerShell72ModuleId.
Variable expandPowerShell72ModuleLink : ResourceData -> ModulePayload.

Lemma createFunc_existing (resourceName scopeFieldName : string)
    (w : World CostManagement.ScopedViewId CostManagement.View ViewPayload ViewRemote) :
  let id := CostManagement.NewScopedViewID (attribute (data w) scopeFieldName)
              (attribute (data w) "name") in
  let existing := answer viewsApi (Get id) w in
  WasNotFound (HttpResponse existing) = false ->
  exists e,
    CostManagement.createFunc viewsApi viewID expandView resourceName scopeFieldName w
    = (Err e, afterCall viewsApi (Get id) w) /\
    (Failure existing = None -> e = ImportAsExistsError resourceName (viewID id)) /\
    (forall err, Failure existing = Some err ->
       e = Wrapped ("checking for presence of existing " +:+ viewID id) (ApiError err)).
Proof.
  intros id existing Hnf.
  unfold CostManagement.createFunc.
  unfold bind at 1 2. unfold GetAttribute. fold id.
  unfold bind at 1. rewrite (call_run (E := error)). fold existing.
  unfold bind at 1. rewrite Hnf. cbn [negb].
  destruct (Failure existing) as [err|].
  - eexists. split; [reflexivity|]. split; [discriminate|now intros ? [= <-]].
  - eexists. split; [reflexivity|]. split; [reflexivity|discriminate].
Qed.

Lemma Target_Create_existing (subscriptionId : string)
    (model : Chaos.TargetResourceModel)
    (w : World Chaos.TargetId Chaos.Target Chaos.Target TargetRemote) :
  let id := Chaos.NewTargetID subscriptionId (Chaos.ResourceGroup model)
              (Chaos.ParentProviderNamespace_ model) (Chaos.ParentResourceType_ model)
              (Chaos.ParentName model) (Chaos.Name model) in
  let existing := answer targetsApi (Get id) w in
  Decode (data w) = Ok model ->
  WasNotFound (HttpResponse existing) = false ->
  exists e,
    Chaos.Create targetsApi targetID Decode subscriptionId w
    = (Err e, afterCall targetsApi (Get id) w) /\
    (Failure existing = None ->
     e = ImportAsExistsError Chaos.ResourceType (targetID id)) /\
    (forall err, Failure existing = Some err ->
       e = Wrapped ("checking for presence of existing Chaos " +:+ targetID id)
             (ApiError err)).
Proof.
  intros id existing Hdec Hnf.
  unfold Chaos.Create. unfold bind at 1. unfold GetData. rewrite Hdec. fold id.
  unfold bind at 1. rewrite (call_run (E := error)). fold existing.
  rewrite Hnf. cbn [negb]. rewrite andb_true_r.
  destruct (Failure existing) as [err|]; cbn [isSome].
  - eexists. split; [reflexivity|]. split; [discriminate|now intros ? [= <-]].
  - eexists. split; [reflexivity|]. split; [reflexivity|discriminate].
Qed.

Lemma Module_Create_existing (subscriptionId : string) (polls : nat)
    (w : World Automation.PowerShell72ModuleId Automation.Module ModulePayload
           ModuleRemote) :
  let id := Automation.configuredId subscriptionId (data w) in
  let existing := answer modulesApi (Get id) w in
  WasNotFound (HttpResponse existing) = false ->
  Automation.isGlobalModule existing = false \/ isSome (Failure existing) = true ->
  exists e,
    Automation.resourceAutomationPowerShell72ModuleCreate modulesApi moduleID
      ParsePowerShell72ModuleID expandPowerShell72ModuleLink subscriptionId polls w
    = (Err e, afterCall modulesApi (Get id) w) /\
    (Failure existing = None ->
     e = ImportAsExistsError "azurerm_automation_powershell72_module" (moduleID id)) /\
    (forall err, Failure existing = Some err ->
       e = Wrapped ("checking for presence of existing " +:+ moduleID id) (ApiError err)).
Proof.
  intros id existing Hnf Hown.
  unfold Automation.resourceAutomationPowerShell72ModuleCreate.
  unfold bind at 1 2 3. unfold GetAttribute.
  change (Automation.NewPowerShell72ModuleID subscriptionId _ _ _) with id.
  unfold bind at 1. rewrite (call_run (E := error)). fold existing.
  unfold bind at 1. rewrite Hnf. cbn [negb].
  destruct (Failure existing) as [err|].
  - eexists. split; [reflexivity|]. split; [discriminate|now intros ? [= <-]].
  - destruct Hown as [Hg|Hf]; [|discriminate Hf].
    rewrite Hg. cbn. eexists. split; [reflexivity|]. split; [reflexivity|discriminate].
Qed.


End ExistenceCheck.



End CreateFacts.

(** ** The resource template: Read and the resource that is gone *)

Module ReadFacts.
Import Sdk.

Section ViewRead.
Context {Payload Remote : Type}.
Variable api :
  Call CostManagement.ScopedViewId Payload -> Remote ->
  Remote * Response CostManagement.View.
Variable ID : CostManagement.ScopedViewId -> string.
Variable ParseScopedViewID : string -> result error CostManagement.ScopedViewId.

Local Abbreviation World :=
  (Sdk.World CostManagement.ScopedViewId CostManagement.View Payload Remote).

(** Setting attributes leaves the ID and the calls alone. *)
Lemma SetAttribute_run (key value : string) (w : World) :
  exists w', SetAttribute (E := error) key value w = (Ok tt, w') /\
             Id (data w') = Id (data w) /\ calls w' = calls w /\
             remote w' = remote w.
Proof. eexists. split; [reflexivity|]. cbn. auto. Qed.

(** The view resources' Read, on a failing Get: the resource leaves the state
    when the failure is a 404, and only then; any other failure is returned
    and the resource data stay as they were. *)
Lemma readFunc_on_failure (scopeFieldName : string) (id : CostManagement.ScopedViewId)
    (err : string) (w : World) :
  ParseScopedViewID (Id (data w)) = Ok id ->
  Failure (answer api (Get id) w) = Some err ->
  CostManagement.readFunc api ID ParseScopedViewID scopeFieldName w
  = if WasNotFound (HttpResponse (answer api (Get id) w)) then
      (Ok tt,
       {| remote := remote (afterCall api (Get id) w);
          calls := calls (afterCall api (Get id) w);
          data := {| Id := ""; Attributes := Attributes (data w) |} |})
    else
      (Err (Wrapped ("reading " +:+ ID id) (ApiError err)), afterCall api (Get id) w).
Proof.
  intros Hparse Hfail. unfold CostManagement.readFunc.
  unfold bind at 1. unfold GetId. rewrite Hparse.
  unfold bind at 1. rewrite (call_run (E := error)). rewrite Hfail.
  now destruct (WasNotFound (HttpResponse (answer api (Get id) w))).
Qed.

End ViewRead.

Section TargetRead.
Context {Remote : Type}.
Variable api : Call Chaos.TargetId Chaos.Target -> Remote -> Remote * Response Chaos.Target.
Variable ParseTargetID : string -> result error Chaos.TargetId.
Variable NormalizeNilable : string -> string.

Local Abbreviation World := (Sdk.World Chaos.TargetId Chaos.Target Chaos.Target Remote).

(** The chaos target's Read, on a failing Get: the test on the response is
    the other way round.  A 404 is returned as an error and the resource
    stays in state; every other failure removes the resource from state and
    is swallowed. *)
Lemma Target_Read_on_failure (id : Chaos.TargetId) (err : string) (w : World) :
  ParseTargetID (Id (data w)) = Ok id ->
  Failure (answer api (Get id) w) = Some err ->
  Chaos.Read api ParseTargetID NormalizeNilable w
  = if WasNotFound (HttpResponse (answer api (Get id) w)) then
      (Err (Wrapped ("while checking for Chaos Target's " +:+ Chaos.TargetName id
                     +:+ " existence") (ApiError err)),
       afterCall api (Get id) w)
    else
      (Ok tt,
       {| remote := remote (afterCall api (Get id) w);
          calls := calls (afterCall api (Get id) w);
          data := {| Id := ""; Attributes := Attributes (data w) |} |}).
Proof.
  intros Hparse Hfail. unfold Chaos.Read.
  unfold bind at 1. unfold GetId. rewrite Hparse.
  unfold bind at 1. rewrite (call_run (E := error)). rewrite Hfail.
  now destruct (WasNotFound (HttpResponse (answer api (Get id) w))).
Qed.

End TargetRead.

(** C7 at the inputs where the code departs from it.  With the API answering
    500, the chaos target's Read succeeds and clears the ID; with the API
    answering 404, it returns an error and keeps the ID; and the Cosmos DB
    role assignment's Read, on a 404, returns an error and keeps the ID. *)
Theorem Read_mishandles_not_found :
  (fst Scenarios.targetReadOnServerError = Ok tt /\
   Id (data (snd Scenarios.targetReadOnServerError)) = "") /\
  (is_err (fst Scenarios.targetReadOnNotFound) = true /\
   Id (data (snd Scenarios.targetReadOnNotFound))
   = Scenarios.targetID Scenarios.target0) /\
  (is_err (fst Scenarios.roleAssignmentReadOnNotFound) = true /\
   Id (data (snd Scenarios.roleAssignmentReadOnNotFound))
   = CosmosParse.ID Scenarios.roleAssignment0).
Proof. repeat split; vm_compute; reflexivity. Qed.

End ReadFacts.

(** ** The Kusto scripts client: validation comes first *)

Module KustoFacts.
Import Kusto.

Section Client.
Context {Remote : Type}.
Variable BaseURI : string.
Variable SubscriptionID : string.
Variable Encode : string -> string -> string.
Variable Prepare : Request -> result string Request.
Variable Send : Request -> Remote -> Remote * (option (Z * string) * option string).
Variable unmarshal : string -> result string CheckNameResult.

(** C10. [CheckNameAvailability] returns a validation error, having prepared
    and sent nothing, whenever the name or the type of the request is nil;
    with both set it prepares the request and, when that succeeds, sends the
    prepared request once. *)
Theorem CheckNameAvailability_validates_first
    (resourceGroupName clusterName databaseName : string)
    (scriptName : ScriptCheckNameRequest) (w : Wire (Remote := Remote)) :
  let run := CheckNameAvailability BaseURI SubscriptionID Encode Prepare Send
               unmarshal resourceGroupName clusterName databaseName scriptName w in
  let req := checkNameRequest BaseURI SubscriptionID Encode resourceGroupName
               clusterName databaseName scriptName in
  match Name scriptName, Type_ scriptName with
  | Some _, Some _ =>
      events (snd run)
      = (events w ++
         Prepared req ::
         match Prepare req with
         | Ok prepared => [Sent prepared]
         | Err _ => []
         end)%list
  | _, _ =>
      exists message,
        run = (zeroCheckNameResult,
               Some (ValidationError "kusto.ScriptsClient" "CheckNameAvailability"
                       message),
               w)
  end.
Proof.
  cbv zeta. unfold CheckNameAvailability.
  destruct scriptName as [[name|] [type|]]; cbn [Name Type_];
    try (eexists; reflexivity).
  cbn [Validate fieldIsNil Target Rule String.eqb Ascii.eqb Bool.eqb isSome negb
         andb Name Type_].
  unfold CheckNameAvailabilityPreparer.
  set (req := checkNameRequest _ _ _ _ _ _ _).
  destruct (Prepare req) as [prepared|cause]; [|reflexivity].
  unfold CheckNameAvailabilitySender. cbn [remote events].
  destruct (Send prepared (remote w)) as [remote' [resp [cause|]]].
  - cbn. now rewrite <- app_assoc.
  - destruct (CheckNameAvailabilityResponder unmarshal resp) as [result [cause|]];
      cbn; now rewrite <- app_assoc.
Qed.

End Client.

End KustoFacts.

(** ** The chaos targets client: following the pages of a list *)

Module TargetsSdkFacts.
Import TargetsSdk.

Section Client.
Context {Target ProviderId Remote : Type}.
Variable baseUri : string.
Variable Send : Request -> Remote -> Remote * (option HttpResponse * option string).
Variable ID : ProviderId -> string.
Variable defaultApiVersion : string.
Variable Encode : string -> string -> string.
Variable Prepare : Request -> result string Request.
Variable unmarshalPage : string -> result string (page (Target := Target)).
Variable urlParse : string -> result string (string * gmap string (list string)).
Variable Matches : Target -> bool.

Local Abbreviation Wire := (TargetsSdk.Wire (Remote := Remote)).
Local Abbreviation Serves :=
  (TargetsSdk.Serves baseUri Send Encode Prepare unmarshalPage urlParse).

Local Abbreviation FailsAfter :=
  (TargetsPaging.FailsAfter baseUri Send Encode Prepare unmarshalPage urlParse).

Local Abbreviation matchingItems := (TargetsSdk.matchingItems Matches).

Lemma sendAndRespond_page (req : Request) (w : Wire) (s' : Remote)
    (resp : HttpResponse) (p : page) :
  Send req (remote w) = (s', (Some resp, None)) ->
  StatusCode resp = 200%Z ->
  unmarshalPage (ResponseBody resp) = Ok p ->
  sendAndRespond Send unmarshalPage req w
  = ({| HttpResponse_ := Some resp; Model := Some (Values p); nextLink := NextLink p |},
     None,
     {| remote := s'; sent := (sent w ++ [req])%list |}).
Proof.
  intros Hsend Hstatus Hbody. unfold sendAndRespond, send. rewrite Hsend.
  unfold responderForList. rewrite Hstatus, Hbody. reflexivity.
Qed.

Lemma sendAndRespond_failure (req : Request) (w : Wire) (s' : Remote)
    (resp : option HttpResponse) (cause : string) :
  Send req (remote w) = (s', (resp, Some cause)) ->
  sendAndRespond Send unmarshalPage req w
  = ({| HttpResponse_ := resp; Model := None; nextLink := None |},
     Some (FailureSendingRequest cause),
     {| remote := s'; sent := (sent w ++ [req])%list |}).
Proof.
  intros Hsend. unfold sendAndRespond, send. now rewrite Hsend.
Qed.

(** Following the next links of a response through the pages the service
    still has. *)
Lemma loadRemainingPages_Serves (next : Request) (s1 s' : Remote)
    (rest : list page) (requests : list Request) :
  Serves next s1 rest s' requests ->
  forall (fuel : nat) (current : ListResponse) (link : string)
         (items : list Target) (w : Wire),
  nextLink current = Some link ->
  preparerForListWithNextLink baseUri Encode Prepare urlParse link = Ok next ->
  remote w = s1 ->
  length rest <= fuel ->
  loadRemainingPages baseUri Send Encode Prepare unmarshalPage urlParse fuel Matches
    current items w
  = (Ok {| Items := (items ++ matchingItems rest)%list |},
     {| remote := s'; sent := (sent w ++ requests)%list |}).
Proof.
  induction 1 as [req s0 s' resp p Hsend Hstatus Hbody Hlast
                 | req next s0 s1 s' resp p link' rest requests
                     Hsend Hstatus Hbody Hlink Hprep Hrest IH];
    intros fuel current link items w Hcur Hprepare Hremote Hfuel;
    (destruct fuel as [|fuel]; [simpl in Hfuel; lia|]);
    cbn [loadRemainingPages]; unfold HasMore; rewrite Hcur; cbn [isSome];
    unfold LoadMore; rewrite Hcur; unfold loadNextPage; rewrite Hprepare;
    subst s0; rewrite (sendAndRespond_page _ _ _ _ _ Hsend Hstatus Hbody).
  - destruct fuel; cbn [loadRemainingPages]; unfold HasMore; cbn [nextLink];
      rewrite Hlast; cbn [isSome]; unfold matching, TargetsSdk.matchingItems; cbn;
      now rewrite app_nil_r.
  - rewrite (IH fuel
               {| HttpResponse_ := Some resp; Model := Some (Values p);
                  nextLink := NextLink p |}
               link' _ {| remote := s1; sent := (sent w ++ [req])%list |}
               Hlink Hprep eq_refl) by (simpl in Hfuel; lia).
    unfold matching, TargetsSdk.matchingItems. cbn.
    now rewrite <- !app_assoc.
Qed.

Lemma Serves_requests (req : Request) (s0 s' : Remote) (pages : list page)
    (requests : list Request) :
  Serves req s0 pages s' requests -> length requests = length pages.
Proof. induction 1; simpl; congruence. Qed.

(** Following the next links up to a request the sender fails on. *)
Lemma loadRemainingPages_FailsAfter (next : Request) (s1 s' : Remote)
    (rest : list page) (requests : list Request) (cause : string) :
  FailsAfter next s1 rest s' requests cause ->
  forall (fuel : nat) (current : ListResponse) (link : string)
         (items : list Target) (w : Wire),
  nextLink current = Some link ->
  preparerForListWithNextLink baseUri Encode Prepare urlParse link = Ok next ->
  remote w = s1 ->
  length rest < fuel ->
  loadRemainingPages baseUri Send Encode Prepare unmarshalPage urlParse fuel Matches
    current items w
  = (Err (LoadingTheNextPage (FailureSendingRequest cause)),
     {| remote := s'; sent := (sent w ++ requests)%list |}).
Proof.
  induction 1 as [req s0 s' resp cause Hsend
                 | req next s0 s1 s' resp p link' rest requests cause
                     Hsend Hstatus Hbody Hlink Hprep Hrest IH];
    intros fuel current link items w Hcur Hprepare Hremote Hfuel;
    (destruct fuel as [|fuel]; [simpl in Hfuel; lia|]);
    cbn [loadRemainingPages]; unfold HasMore; rewrite Hcur; cbn [isSome];
    unfold LoadMore; rewrite Hcur; unfold loadNextPage; rewrite Hprepare;
    subst s0.
  - now rewrite (sendAndRespond_failure _ _ _ _ _ Hsend).
  - rewrite (sendAndRespond_page _ _ _ _ _ Hsend Hstatus Hbody).
    rewrite (IH fuel
               {| HttpResponse_ := Some resp; Model := Some (Values p);
                  nextLink := NextLink p |}
               link' _ {| remote := s1; sent := (sent w ++ [req])%list |}
               Hlink Hprep eq_refl) by (simpl in Hfuel; lia).
    cbn. now rewrite <- !app_assoc.
Qed.

Lemma FailsAfter_requests (req : Request) (s0 s' : Remote) (pages : list page)
    (requests : list Request) (cause : string) :
  FailsAfter req s0 pages s' requests cause -> length requests = S (length pages).
Proof. induction 1; simpl; congruence. Qed.

(** C2, as the code has it.  Result pagination is implemented in this
    repository: [ListCompleteMatchingPredicate] sends one request per page,
    following the next link of each page, and returns the matching items of
    all pages in order.  What it leaves to its dependencies is the retrying:
    a request the sender fails on, be it the request of the first page or
    of any later one, is not sent again: the requests sent are those of the
    pages before it and the failing one, once each, and the failure is
    returned. *)
Theorem ListCompleteMatchingPredicate_follows_pages
    (fuel : nat) (id : ProviderId) (options : ListOptions) (w : Wire) :
  (forall (req : Request) (pages : list page) (s' : Remote)
          (requests : list Request),
     preparerForList baseUri ID defaultApiVersion Encode Prepare id options = Ok req ->
     Serves req (remote w) pages s' requests ->
     length pages <= S fuel ->
     ListCompleteMatchingPredicate baseUri Send ID defaultApiVersion Encode Prepare
       unmarshalPage urlParse fuel id options Matches w
     = (Ok {| Items := matchingItems pages |},
        {| remote := s'; sent := (sent w ++ requests)%list |}) /\
     length requests = length pages)
  /\
  (forall (req : Request) (s' : Remote) (resp : option HttpResponse)
          (cause : string),
     preparerForList baseUri ID defaultApiVersion Encode Prepare id options = Ok req ->
     Send req (remote w) = (s', (resp, Some cause)) ->
     ListCompleteMatchingPredicate baseUri Send ID defaultApiVersion Encode Prepare
       unmarshalPage urlParse fuel id options Matches w
     = (Err (LoadingTheInitialPage (FailureSendingRequest cause)),
        {| remote := s'; sent := (sent w ++ [req])%list |}))
  /\
  (forall (req : Request) (pages : list page) (s' : Remote)
          (requests : list Request) (cause : string),
     preparerForList baseUri ID defaultApiVersion Encode Prepare id options = Ok req ->
     FailsAfter req (remote w) pages s' requests cause ->
     length pages <= fuel ->
     ListCompleteMatchingPredicate baseUri Send ID defaultApiVersion Encode Prepare
       unmarshalPage urlParse fuel id options Matches w
     = (Err (match pages with
             | [] => LoadingTheInitialPage (FailureSendingRequest cause)
             | _ :: _ => LoadingTheNextPage (FailureSendingRequest cause)
             end),
        {| remote := s'; sent := (sent w ++ requests)%list |}) /\
     length requests = S (length pages)).
Proof.
  split; [|split].
  - intros req pages s' requests Hprep Hserves Hfuel.
    split; [|exact (Serves_requests _ _ _ _ _ Hserves)].
    unfold ListCompleteMatchingPredicate, List. rewrite Hprep.
    inversion Hserves as [req0 s0 s0' resp p Hsend Hstatus Hbody Hlast
                         | req0 next s0 s1 s0' resp p link rest requests'
                             Hsend Hstatus Hbody Hlink Hnext Hrest]; subst.
    + rewrite (sendAndRespond_page _ _ _ _ _ Hsend Hstatus Hbody).
      destruct fuel; cbn [loadRemainingPages]; unfold HasMore; cbn [nextLink];
        rewrite Hlast; cbn [isSome]; unfold matching, TargetsSdk.matchingItems; cbn;
        now rewrite app_nil_r.
    + rewrite (sendAndRespond_page _ _ _ _ _ Hsend Hstatus Hbody).
      rewrite (loadRemainingPages_Serves _ _ _ _ _ Hrest fuel
                 {| HttpResponse_ := Some resp; Model := Some (Values p);
                    nextLink := NextLink p |}
                 link _ {| remote := s1; sent := (sent w ++ [req])%list |}
                 Hlink Hnext eq_refl) by (simpl in Hfuel; lia).
      unfold matching, TargetsSdk.matchingItems. cbn. now rewrite <- !app_assoc.
  - intros req s' resp cause Hprep Hsend.
    unfold ListCompleteMatchingPredicate, List. rewrite Hprep.
    now rewrite (sendAndRespond_failure _ _ _ _ _ Hsend).
  - intros req pages s' requests cause Hprep Hfails Hfuel.
    split; [|exact (FailsAfter_requests _ _ _ _ _ _ Hfails)].
    unfold ListCompleteMatchingPredicate, List. rewrite Hprep.
    inversion Hfails as [req0 s0 s0' resp cause0 Hsend
                        | req0 next s0 s1 s0' resp p link rest requests' cause0
                            Hsend Hstatus Hbody Hlink Hnext Hrest]; subst.
    + now rewrite (sendAndRespond_failure _ _ _ _ _ Hsend).
    + rewrite (sendAndRespond_page _ _ _ _ _ Hsend Hstatus Hbody).
      rewrite (loadRemainingPages_FailsAfter _ _ _ _ _ _ Hrest fuel
                 {| HttpResponse_ := Some resp; Model := Some (Values p);
                    nextLink := NextLink p |}
                 link _ {| remote := s1; sent := (sent w ++ [req])%list |}
                 Hlink Hnext eq_refl) by (simpl in Hfuel; lia).
      cbn. now rewrite <- !app_assoc.
Qed.

End Client.

(** A list that the service hands out in two pages: the operation sends the
    request of the first page, then the request its next link asks for, and
    returns the targets of both. *)
Lemma ListComplete_loads_two_pages :
  fst Scenarios.listTwoPages
  = Ok {| Items := ["target-a"; "target-b"; "target-c"] |} /\
  sent (snd Scenarios.listTwoPages)
  = [Scenarios.firstPageRequest; Scenarios.secondPageRequest].
Proof. split; vm_compute; reflexivity. Qed.

(** The theorem on the two-page service, on the same service once it
    refuses connections, and on a service that refuses the connection for
    the second page. *)
Lemma ListCompleteMatchingPredicate_follows_pages_witness :
  (ListCompleteMatchingPredicate "https://management.azure.com" Scenarios.twoPages
     (fun id : string => id) "2021-09-15-preview" (fun _ v => v) Ok
     Scenarios.pageBody Scenarios.parseNextLink 8 "/subscriptions/sub"
     DefaultListOptions (fun _ => true) {| remote := 0; sent := [] |}
   = (Ok {| Items := matchingItems (fun _ => true) [Scenarios.page1; Scenarios.page2] |},
      {| remote := 2;
         sent := ([] ++ [Scenarios.firstPageRequest; Scenarios.secondPageRequest])%list |})
   /\ length [Scenarios.firstPageRequest; Scenarios.secondPageRequest]
      = length [Scenarios.page1; Scenarios.page2])
  /\
  ListCompleteMatchingPredicate "https://management.azure.com" Scenarios.twoPages
    (fun id : string => id) "2021-09-15-preview" (fun _ v => v) Ok
    Scenarios.pageBody Scenarios.parseNextLink 8 "/subscriptions/sub"
    DefaultListOptions (fun _ => true) {| remote := 2; sent := [] |}
  = (Err (LoadingTheInitialPage (FailureSendingRequest "connection refused")),
     {| remote := 3; sent := ([] ++ [Scenarios.firstPageRequest])%list |})
  /\
  ListCompleteMatchingPredicate "https://management.azure.com"
    MoreScenarios.onePageThenFailure
    (fun id : string => id) "2021-09-15-preview" (fun _ v => v) Ok
    Scenarios.pageBody Scenarios.parseNextLink 8 "/subscriptions/sub"
    DefaultListOptions (fun _ => true) {| remote := 0; sent := [] |}
  = (Err (LoadingTheNextPage (FailureSendingRequest "connection refused")),
     {| remote := 2;
        sent := ([] ++ [Scenarios.firstPageRequest; Scenarios.secondPageRequest])%list |}).
Proof.
  split; [|split].
  - apply (proj1 (ListCompleteMatchingPredicate_follows_pages
                    "https://management.azure.com" Scenarios.twoPages
                    (fun id : string => id) "2021-09-15-preview" (fun _ v => v) Ok
                    Scenarios.pageBody Scenarios.parseNextLink (fun _ => true)
                    8 "/subscriptions/sub" DefaultListOptions
                    {| remote := 0; sent := [] |})
             Scenarios.firstPageRequest [Scenarios.page1; Scenarios.page2] 2
             [Scenarios.firstPageRequest; Scenarios.secondPageRequest]).
    + vm_compute. reflexivity.
    + eapply ServesMore;
        [reflexivity | reflexivity | reflexivity | reflexivity
        | vm_compute; reflexivity |].
      eapply ServesLast; reflexivity.
    + simpl. lia.
  - apply (proj1 (proj2 (ListCompleteMatchingPredicate_follows_pages
                    "https://management.azure.com" Scenarios.twoPages
                    (fun id : string => id) "2021-09-15-preview" (fun _ v => v) Ok
                    Scenarios.pageBody Scenarios.parseNextLink (fun _ => true)
                    8 "/subscriptions/sub" DefaultListOptions
                    {| remote := 2; sent := [] |}))
             Scenarios.firstPageRequest 3 None "connection refused").
    + vm_compute. reflexivity.
    + reflexivity.
  - apply (proj2 (proj2 (ListCompleteMatchingPredicate_follows_pages
                    "https://management.azure.com" MoreScenarios.onePageThenFailure
                    (fun id : string => id) "2021-09-15-preview" (fun _ v => v) Ok
                    Scenarios.pageBody Scenarios.parseNextLink (fun _ => true)
                    8 "/subscriptions/sub" DefaultListOptions
                    {| remote := 0; sent := [] |}))
             Scenarios.firstPageRequest [Scenarios.page1] 2
             [Scenarios.firstPageRequest; Scenarios.secondPageRequest]
             "connection refused").
    + vm_compute. reflexivity.
    + eapply TargetsPaging.FailsLater with
        (s1 := 1) (link := "https://management.azure.com/next?page=2");
        [reflexivity | reflexivity | reflexivity | reflexivity
        | vm_compute; reflexivity |].
      eapply TargetsPaging.FailsAtOnce. reflexivity.
    + simpl. lia.
Defined.

End TargetsSdkFacts.
(** ** The resource declarations *)

Module DeclarationFacts.
Import Declarations.

(** The Kubernetes Arc extension is declared without an Update function: not
    every declaration implements all five operations. *)
Lemma arc_extension_has_no_Update :
  Untyped "resourceKubernetesArcExtension" resourceKubernetesArcExtension
    ∈ declaredResources /\
  Update resourceKubernetesArcExtension = None /\
  forallb implementsAllFive declaredResources = false.
Proof.
  split; [|split; reflexivity].
  unfold declaredResources. rewrite !elem_of_cons. auto.
Qed.

(** C1, as the code has it.  Every resource declaration supplies a schema and
    implements Create, Read and Delete; Update is left out by the Cosmos DB
    role assignment, the Kubernetes Arc extension and the chaos target, and
    by no other; the importer is left out by the function app host keys, and
    by no other. *)
Theorem declarations_implement_operations :
  Forall (fun d => suppliesSchema d = true /\ implementsCreate d = true /\
                   implementsRead d = true /\ implementsDelete d = true)
    declaredResources /\
  declarationName <$> filter (fun d => implementsUpdate d = false) declaredResources
  = ["resourceCosmosDbRoleAssignment"; "resourceKubernetesArcExtension";
     "azurerm_chaos_target"] /\
  declarationName <$> filter (fun d => implementsImport d = false) declaredResources
  = ["resourceFunctionAppHostKeys"].
Proof.
  split; [|split].
  - unfold declaredResources. repeat constructor.
  - vm_compute. reflexivity.
  - vm_compute. reflexivity.
Qed.

End DeclarationFacts.

(** ** Expanding and flattening a cost management view *)

Module GoValueFacts.
Import GoValue.

Lemma forEach_fmap {A B C : Type} (f : B -> result panic C) (g : A -> B) (h : A -> C)
    (l : list A) :
  (forall x, f (g x) = Ok (h x)) -> forEach f (g <$> l) = Ok (h <$> l).
Proof.
  intros Hf. induction l as [|x l IH]; [reflexivity|].
  cbn. rewrite Hf. cbn. fold (fmap (M := list) g l). rewrite IH. reflexivity.
Qed.

Lemma forEach_cons {A B : Type} (f : A -> result panic B) (x : A) (l : list A) :
  forEach f (x :: l) = (y <-! f x ; ys <-! forEach f l ; Ok (y :: ys)).
Proof. reflexivity. Qed.

Lemma emptyOrNil_blocks {A : Type} (block : A -> value) (l : list A) :
  (forall x, block x <> VNil) ->
  emptyOrNil (block <$> l) = match l with [] => true | _ => false end.
Proof.
  intros Hblock. destruct l as [|x l]; [reflexivity|].
  cbn. specialize (Hblock x). now destruct (block x).
Qed.

End GoValueFacts.

Module ViewConfigFacts.
Import GoValue ViewConfig GoValueFacts.

(** Expanding a list of blocks: the guard passes over every list but the
    empty one, and the loop maps the blocks one by one. *)
Lemma expand_blocks {A B : Type} (f : value -> result panic B) (block : A -> value)
    (h : A -> B) (config : list A) :
  (forall x, block x <> VNil) ->
  (forall x, f (block x) = Ok (h x)) ->
  (if emptyOrNil (block <$> config) then Ok (Some [])
   else (output <-! forEach f (block <$> config) ; Ok (Some output)))
  = Ok (Some (h <$> config)).
Proof.
  intros Hblock Hf. rewrite (emptyOrNil_blocks _ _ Hblock).
  destruct config as [|x config]; [reflexivity|].
  now rewrite (forEach_fmap f block h (x :: config) Hf).
Qed.

Lemma expandKpis_blocks (config : list (bool * string)) :
  expandKpis (uncurry kpiBlock <$> config)
  = Ok (Some ((fun '(enabled, type) =>
                 {| KpiEnabled := Some enabled; KpiType := Some type |}) <$> config)).
Proof.
  unfold expandKpis. apply expand_blocks; intros [enabled type]; [discriminate|reflexivity].
Qed.

Lemma expandPivots_blocks (config : list (string * string)) :
  expandPivots (uncurry pivotBlock <$> config)
  = Ok (Some ((fun '(name, type) =>
                 {| PivotName := Some name; PivotType := Some type |}) <$> config)).
Proof.
  unfold expandPivots. apply expand_blocks; intros [name type]; [discriminate|reflexivity].
Qed.

(** X1. What a configuration's [kpi] and [pivot] blocks expand to flattens
    back to the same blocks, so reading a view back shows no change; and
    what the API returned survives flattening and expanding up to its nil
    pointers, which come back as zero values. *)
Theorem kpis_and_pivots_round_trip :
  (forall config : list (bool * string),
     (kpis <-! expandKpis (uncurry kpiBlock <$> config) ; Ok (flattenKpis kpis))
     = Ok (uncurry kpiBlock <$> config)) /\
  (forall kpis : list KpiProperties,
     expandKpis (flattenKpis (Some kpis)) = Ok (Some (kpiWithZeroValues <$> kpis))) /\
  (forall config : list (string * string),
     (pivots <-! expandPivots (uncurry pivotBlock <$> config) ; Ok (flattenPivots pivots))
     = Ok (uncurry pivotBlock <$> config)) /\
  (forall pivots : list PivotProperties,
     expandPivots (flattenPivots (Some pivots)) = Ok (Some (pivotWithZeroValues <$> pivots))).
Proof.
  repeat apply conj.
  - intros config. rewrite expandKpis_blocks. cbn. f_equal.
    rewrite <- list_fmap_compose. apply list_fmap_ext. now intros _ [enabled type] _.
  - intros kpis. unfold expandKpis, flattenKpis.
    change (map ?f kpis) with (f <$> kpis).
    apply expand_blocks; intros [enabled type]; [discriminate|reflexivity].
  - intros config. rewrite expandPivots_blocks. cbn. f_equal.
    rewrite <- list_fmap_compose. apply list_fmap_ext. now intros _ [name type] _.
  - intros pivots. unfold expandPivots, flattenPivots.
    change (map ?f pivots) with (f <$> pivots).
    apply expand_blocks; intros [name type]; [discriminate|reflexivity].
Qed.

Lemma expandAggregation_loop (config : list (string * string))
    (acc : gmap string ReportConfigAggregation) :
  fold_left
    (fun output item =>
       outputSorting <-! output ;
       v <-! assertMap item ;
       name <-! assertString (index v "name") ;
       columnName <-! assertString (index v "column_name") ;
       Ok (<[name := {| AggregationName := columnName;
                        Function := FunctionTypeSum |}]> outputSorting))
    (uncurry aggregationBlock <$> config) (Ok acc)
  = Ok (list_to_map (reverse (aggregationOf <$> config)) ∪ acc).
Proof.
  revert acc. induction config as [|[name column] config IH]; intros acc.
  - cbn. now rewrite (left_id_L ∅ (∪)).
  - cbn [fmap list_fmap fold_left].
    change (rbind (Ok acc) _)
      with (Ok (E := panic)
              (<[name := {| AggregationName := column; Function := FunctionTypeSum |}]> acc)).
    fold (fmap (M := list) (uncurry aggregationBlock) config).
    rewrite IH. f_equal.
    fold (fmap (M := list) aggregationOf config).
    rewrite reverse_cons, list_to_map_app. cbn [list_to_map foldr aggregationOf fst snd uncurry].
    rewrite <- (assoc_L (∪)). f_equal.
    now rewrite insert_union_singleton_l, insert_empty.
Qed.

Lemma expandAggregation_blocks (config : list (string * string)) :
  expandAggregation (uncurry aggregationBlock <$> config)
  = Ok (Some (list_to_map (reverse (aggregationOf <$> config)))).
Proof.
  unfold expandAggregation.
  rewrite (emptyOrNil_blocks (uncurry aggregationBlock)) by (now intros [name column]).
  destruct config as [|block config]; [reflexivity|].
  rewrite expandAggregation_loop. now rewrite (right_id_L ∅ (∪)).
Qed.

Lemma aggregationOf_names (config : list (string * string)) :
  (aggregationOf <$> config).*1 = config.*1.
Proof. rewrite <- list_fmap_compose. now apply list_fmap_ext. Qed.

(** X2. The [aggregation] blocks of a dataset are keyed by their name.  With
    distinct names, the request holds one aggregation per block, each with
    the block's column and the function Sum, and flattening it gives the
    blocks back in some order.  With a repeated name the later block takes
    the place of the earlier one. *)
Theorem aggregation_round_trip :
  (forall config : list (string * string),
     NoDup config.*1 ->
     exists aggregations,
       expandAggregation (uncurry aggregationBlock <$> config) = Ok (Some aggregations) /\
       (forall name column,
          aggregations !! name
          = Some {| AggregationName := column; Function := FunctionTypeSum |}
          <-> (name, column) ∈ config) /\
       flattenAggregation (Some aggregations) ≡ₚ uncurry aggregationBlock <$> config) /\
  (forall (config : list (string * string)) (name column : string),
     exists aggregations,
       expandAggregation (uncurry aggregationBlock <$> config) = Ok (Some aggregations) /\
       expandAggregation (uncurry aggregationBlock <$> (config ++ [(name, column)])%list)
       = Ok (Some (<[name := {| AggregationName := column; Function := FunctionTypeSum |}]>
                     aggregations))).
Proof.
  split.
  - intros config Hnames. eexists. split; [apply expandAggregation_blocks|].
    assert (Hrev : NoDup (reverse (aggregationOf <$> config)).*1).
    { rewrite <- fmap_reverse, aggregationOf_names, reverse_Permutation. exact Hnames. }
    split.
    + intros name column. rewrite <- elem_of_list_to_map by exact Hrev.
      rewrite elem_of_reverse, list_elem_of_fmap. split.
      * intros [[name' column'] [Heq Hin]]. injection Heq as -> ->. exact Hin.
      * intros Hin. now exists (name, column).
    + unfold flattenAggregation.
      rewrite (map_to_list_to_map _ Hrev), reverse_Permutation.
      change (map ?f ?l) with (f <$> l).
      rewrite <- list_fmap_compose.
      assert (Heq : ((fun '(name, item) =>
                        VMap (<["name" := VString name]>
                                (<["column_name" := VString (AggregationName item)]> ∅)))
                     ∘ aggregationOf) <$> config
                    = uncurry aggregationBlock <$> config)
        by (apply list_fmap_ext; now intros _ [name column] _).
      unfold compose in Heq |- *. now rewrite Heq.
  - intros config name column. eexists. split; [apply expandAggregation_blocks|].
    rewrite expandAggregation_blocks. do 2 f_equal.
    rewrite fmap_app, reverse_app. reflexivity.
Qed.

Lemma aggregation_round_trip_witness :
  NoDup ["totalCost"; "totalCostUSD"] /\
  exists aggregations,
    expandAggregation [aggregationBlock "totalCost" "Cost";
                       aggregationBlock "totalCostUSD" "CostUSD"]
    = Ok (Some aggregations) /\
    aggregations !! "totalCostUSD"
    = Some {| AggregationName := "CostUSD"; Function := FunctionTypeSum |} /\
    flattenAggregation (Some aggregations)
    ≡ₚ [aggregationBlock "totalCost" "Cost"; aggregationBlock "totalCostUSD" "CostUSD"].
Proof.
  assert (Hnames : NoDup ["totalCost"; "totalCostUSD"]).
  { apply NoDup_cons. split; [|apply NoDup_singleton].
    intros Hin. apply list_elem_of_singleton in Hin. discriminate Hin. }
  split; [exact Hnames|].
  destruct (proj1 aggregation_round_trip
              [("totalCost", "Cost"); ("totalCostUSD", "CostUSD")] Hnames)
    as (aggregations & Hexpand & Hlookup & Hflatten).
  exists aggregations. split; [exact Hexpand|]. split; [|exact Hflatten].
  apply Hlookup. apply list_elem_of_further, list_elem_of_here.
Defined.

(** X3. The [grouping] and [sorting] blocks of a dataset expand and flatten
    back unchanged.  From the API's side, groupings survive flattening and
    expanding as they are, while a sorting whose direction is nil is dropped
    by the flattening: only the sortings with a direction come back. *)
Theorem grouping_and_sorting_round_trip :
  (forall config : list (string * string),
     (groupings <-! expandGrouping (uncurry groupingBlock <$> config) ;
      Ok (flattenGrouping groupings))
     = Ok (uncurry groupingBlock <$> config)) /\
  (forall groupings : list ReportConfigGrouping,
     expandGrouping (flattenGrouping (Some groupings)) = Ok (Some groupings)) /\
  (forall config : list (string * string),
     (sortings <-! expandSorting (uncurry sortingBlock <$> config) ;
      Ok (flattenSorting sortings))
     = Ok (uncurry sortingBlock <$> config)) /\
  (forall sortings : list ReportConfigSorting,
     expandSorting (flattenSorting (Some sortings))
     = Ok (Some (List.filter hasDirection sortings))).
Proof.
  repeat apply conj.
  - intros config. unfold expandGrouping.
    rewrite (expand_blocks _ (uncurry groupingBlock)
               (fun '(type, name) => {| GroupingType := type; GroupingName := name |}));
      [|intros [type name]; discriminate|intros [type name]; reflexivity].
    cbn. f_equal. rewrite <- list_fmap_compose. apply list_fmap_ext.
    now intros _ [type name] _.
  - intros groupings. unfold expandGrouping, flattenGrouping.
    change (map ?f groupings) with (f <$> groupings).
    rewrite (expand_blocks _ _ id);
      [now rewrite list_fmap_id|discriminate|now intros [name type]].
  - intros config. unfold expandSorting.
    rewrite (expand_blocks _ (uncurry sortingBlock)
               (fun '(direction, name) =>
                  {| Direction := Some direction; SortingName := name |}));
      [|intros [direction name]; discriminate|intros [direction name]; reflexivity].
    cbn. f_equal. induction config as [|[direction name] config IH]; [reflexivity|].
    cbn. now rewrite IH.
  - intros sortings. unfold expandSorting, flattenSorting.
    set (block := fun item : ReportConfigSorting => _).
    set (f := fun item : value => _).
    assert (Hloop : forEach f (omap block sortings)
                    = Ok (List.filter hasDirection sortings)).
    { induction sortings as [|[[direction|] name] sortings IH]; [reflexivity| |exact IH].
      cbn [omap list_omap List.filter hasDirection isSome Direction block].
      rewrite forEach_cons. fold (omap block sortings). rewrite IH. reflexivity. }
    destruct (omap block sortings) as [|first rest] eqn:Hflat.
    + cbn in Hloop. injection Hloop as <-. reflexivity.
    + destruct first; try (cbn in Hloop; discriminate Hloop).
      cbn [emptyOrNil]. now rewrite Hloop.
Qed.

Lemma expandGrouping_blocks (config : list (string * string)) :
  expandGrouping (uncurry groupingBlock <$> config) = Ok (Some (groupingOf <$> config)).
Proof.
  unfold expandGrouping. apply expand_blocks; intros [type name]; [discriminate|reflexivity].
Qed.

Lemma flattenGrouping_blocks (config : list (string * string)) :
  flattenGrouping (Some (groupingOf <$> config)) = uncurry groupingBlock <$> config.
Proof.
  unfold flattenGrouping. change (map ?f ?l) with (f <$> l).
  rewrite <- list_fmap_compose. apply list_fmap_ext. now intros _ [type name] _.
Qed.

Lemma expandSorting_blocks (config : list (string * string)) :
  expandSorting (uncurry sortingBlock <$> config) = Ok (Some (sortingOf <$> config)).
Proof.
  unfold expandSorting. apply expand_blocks; intros [type name]; [discriminate|reflexivity].
Qed.

Lemma flattenSorting_blocks (config : list (string * string)) :
  flattenSorting (Some (sortingOf <$> config)) = uncurry sortingBlock <$> config.
Proof.
  unfold flattenSorting. induction config as [|[direction name] config IH]; [reflexivity|].
  cbn. cbn in IH. now rewrite IH.
Qed.

(** The [len(...) > 0] guard of [expandDataset] around an expansion. *)
Lemma guarded_expansion {A B : Type} (block : A -> value) (config : list A)
    (expand : list value -> result panic (option B)) (expanded : B) :
  expand (block <$> config) = Ok (Some expanded) ->
  (if (0 <? length (block <$> config))%nat then expand (block <$> config) else Ok None)
  = Ok (match config with [] => None | _ => Some expanded end).
Proof. intros Hexpand. now destruct config. Qed.

(** X4. A [query] block with its dataset expands without a panic and reads
    back as it was written, up to two things: the type is Usage whatever the
    configuration says, and the aggregations come back as a list in the
    order of the request's map.  An empty [query] list expands to nil, and
    flattening nil panics. *)
Theorem query_read_back :
  (forall (type timeframe granularity : string)
          (aggregation sorting grouping : list (string * string)),
     exists query aggregations,
       expandViewReportConfigDefinition
         [queryBlock type timeframe
            [datasetBlock granularity (uncurry aggregationBlock <$> aggregation)
               (uncurry sortingBlock <$> sorting) (uncurry groupingBlock <$> grouping)]]
       = Ok (Some query) /\
       expandAggregation (uncurry aggregationBlock <$> aggregation)
       = Ok (Some aggregations) /\
       flattenQuery (Some query)
       = Ok [queryBlock ReportTypeUsage timeframe
               [datasetState granularity (flattenAggregation (Some aggregations))
                  (uncurry sortingBlock <$> sorting)
                  (uncurry groupingBlock <$> grouping)]]) /\
  (query <-! expandViewReportConfigDefinition [] ; flattenQuery query)
  = Err NilDereference.
Proof.
  split; [|reflexivity].
  intros type timeframe granularity aggregation sorting grouping.
  do 2 eexists. split; [|split; [apply expandAggregation_blocks|]].
  - unfold expandViewReportConfigDefinition, queryBlock.
    cbn [emptyOrNil hd assertMap rbind].
    change (index _ "dataset") with
      (VList [datasetBlock granularity (uncurry aggregationBlock <$> aggregation)
                (uncurry sortingBlock <$> sorting) (uncurry groupingBlock <$> grouping)]).
    change (index _ "timeframe") with (VString timeframe).
    cbn [assertList assertString rbind length Nat.eqb negb].
    unfold expandDataset, datasetBlock.
    cbn [emptyOrNil hd assertMap rbind].
    change (index _ "granularity") with (VString granularity).
    change (index _ "aggregation") with (VSet (uncurry aggregationBlock <$> aggregation)).
    change (index _ "sorting") with (VList (uncurry sortingBlock <$> sorting)).
    change (index _ "grouping") with (VList (uncurry groupingBlock <$> grouping)).
    cbn [assertString assertSetList assertList rbind].
    rewrite (guarded_expansion _ _ _ _ (expandAggregation_blocks aggregation)).
    rewrite (guarded_expansion _ _ _ _ (expandSorting_blocks sorting)).
    rewrite (guarded_expansion _ _ _ _ (expandGrouping_blocks grouping)).
    cbn [rbind]. reflexivity.
  - assert (Htimeframe : (if negb (timeframe =? "") then timeframe else "") = timeframe).
    { destruct (String.eqb_spec timeframe ""); [now subst|reflexivity]. }
    rewrite Htimeframe.
    assert (Haggregation :
              flattenAggregation
                (match aggregation with
                 | [] => None
                 | _ :: _ => Some (list_to_map (reverse (aggregationOf <$> aggregation)))
                 end)
              = flattenAggregation
                  (Some (list_to_map (reverse (aggregationOf <$> aggregation)))))
      by (now destruct aggregation).
    assert (Hsorting :
              flattenSorting
                (match sorting with [] => None | _ :: _ => Some (sortingOf <$> sorting) end)
              = uncurry sortingBlock <$> sorting)
      by (destruct sorting; [reflexivity|apply flattenSorting_blocks]).
    assert (Hgrouping :
              flattenGrouping
                (match grouping with [] => None | _ :: _ => Some (groupingOf <$> grouping) end)
              = uncurry groupingBlock <$> grouping)
      by (destruct grouping; [reflexivity|apply flattenGrouping_blocks]).
    unfold flattenQuery, flattenDataset.
    cbn [DataSet Timeframe Type_ Aggregation Granularity Grouping Sorting rbind].
    rewrite Haggregation, Hsorting, Hgrouping.
    reflexivity.
Qed.

End ViewConfigFacts.
(** ** The resource template: Update, Create of an absent view, Delete *)

Module TemplateFacts.
Import Sdk.

Section Views.
Context {Payload Remote : Type}.
Variable api :
  Call CostManagement.ScopedViewId Payload -> Remote -> Remote * Response CostManagement.View.
Variable ID : CostManagement.ScopedViewId -> string.
Variable ParseScopedViewID : string -> result error CostManagement.ScopedViewId.
Variable expandView : ResourceData -> option string -> Payload.

Local Abbreviation World :=
  (Sdk.World CostManagement.ScopedViewId CostManagement.View Payload Remote).

(** X5. Whatever the API answers, the view resources' Update leaves the
    resource data alone and issues at most a Get followed by one write: the
    calls of a run are none, one Get, or one Get and then one write.  Every
    write it issues carries the ETag of the view that the Get of the same
    run returned, and Update succeeds only when such a write succeeded.  It
    never deletes. *)
Theorem updateFunc_writes_with_fresh_etag (w : World) :
  let run := CostManagement.updateFunc api ID ParseScopedViewID expandView w in
  exists issued,
    calls (snd run) = (calls w ++ issued)%list /\
    data (snd run) = data w /\
    (issued = [] \/
     (exists id got, issued = [(Get id, got)]) \/
     (exists id got payload written,
        issued = [(Get id, got); (CreateOrUpdate id payload, written)])) /\
    (forall c resp, In (c, resp) issued ->
       match c with
       | Get id => ParseScopedViewID (Id (data w)) = Ok id
       | CreateOrUpdate id payload =>
           exists got model etag,
             issued = [(Get id, got); (c, resp)] /\
             Failure got = None /\ Body got = Some model /\
             CostManagement.ETag model = Some etag /\
             payload = expandView (data w) (Some etag)
       | Delete _ => False
       end) /\
    (fst run = Ok tt ->
     exists id payload resp,
       In (CreateOrUpdate id payload, resp) issued /\ Failure resp = None).
Proof.
  cbv zeta.
  remember (CostManagement.updateFunc api ID ParseScopedViewID expandView w) as run eqn:Hrun.
  unfold CostManagement.updateFunc in Hrun. unfold bind at 1 in Hrun. unfold GetId in Hrun.
  cbn beta iota in Hrun.
  destruct (ParseScopedViewID (Id (data w))) as [id|err] eqn:Hparse.
  2: { subst run. exists []. rewrite app_nil_r. cbn.
       split; [reflexivity|]. split; [reflexivity|]. split; [now left|].
       split; [intros c resp []|discriminate]. }
  unfold bind at 1 in Hrun. rewrite (call_run (E := error)) in Hrun.
  set (got := answer api (Get id) w) in *. set (w1 := afterCall api (Get id) w) in *.
  match goal with
  | |- ?G => assert (Hread : forall e : error, run = (Err e, w1) -> G)
  end.
  { intros e ->. exists [(Get id, got)]. cbn.
    split; [reflexivity|]. split; [reflexivity|]. split; [right; left; eauto|].
    split; [|discriminate].
    now intros c resp [[= <- <-]|[]]. }
  destruct (Failure got) as [err|] eqn:Hfailure; [eapply Hread; exact Hrun|].
  destruct (Body got) as [model|] eqn:Hbody; [|eapply Hread; exact Hrun].
  destruct (CostManagement.ETag model) as [etag|] eqn:Hetag; [|eapply Hread; exact Hrun].
  clear Hread.
  unfold CostManagement.createOrUpdateCostManagementView, bind, GetData, ret in Hrun.
  change (data w1) with (data w) in Hrun. rewrite (call_run (E := error)) in Hrun.
  set (write := CreateOrUpdate id (expandView (data w) (Some etag))) in *.
  set (written := answer api write w1) in *.
  exists [(Get id, got); (write, written)].
  assert (Hcalls : calls (afterCall api write w1)
                   = (calls w ++ [(Get id, got); (write, written)])%list)
    by (cbn; now rewrite <- app_assoc).
  destruct (Failure written) as [err|] eqn:Hwritten; subst run; cbn [fst snd].
  - split; [exact Hcalls|]. split; [reflexivity|].
    split; [right; right; subst write; eauto|]. split; [|discriminate].
    intros c resp [[= <- <-]|[[= <- <-]|[]]]; [reflexivity|exists got, model, etag; auto].
  - split; [exact Hcalls|]. split; [reflexivity|].
    split; [right; right; subst write; eauto|]. split.
    + intros c resp [[= <- <-]|[[= <- <-]|[]]]; [reflexivity|exists got, model, etag; auto].
    + intros _. exists id, (expandView (data w) (Some etag)), written.
      split; [right; left; reflexivity|exact Hwritten].
Qed.


(** X6. When the existence check of the view resources' Create reports
    not-found, Create writes the view with no ETag, as the second and last
    call; the ID is recorded exactly when that write succeeded, and a failed
    write leaves the resource data as they were. *)
Theorem createFunc_creates_absent_view (resourceName scopeFieldName : string) (w : World) :
  let id := CostManagement.NewScopedViewID (attribute (data w) scopeFieldName)
              (attribute (data w) "name") in
  let existing := answer api (Get id) w in
  let w1 := afterCall api (Get id) w in
  let write := CreateOrUpdate id (expandView (data w) None) in
  let created := answer api write w1 in
  let run := CostManagement.createFunc api ID expandView resourceName scopeFieldName w in
  WasNotFound (HttpResponse existing) = true ->
  calls (snd run) = (calls w ++ [(Get id, existing); (write, created)])%list /\
  match Failure created with
  | Some err =>
      fst run = Err (Wrapped ("creating " +:+ ID id) (ApiError err)) /\
      data (snd run) = data w
  | None =>
      fst run = Ok tt /\
      data (snd run) = {| Id := ID id; Attributes := Attributes (data w) |}
  end.
Proof.
  intros id existing w1 write created run Hnf.
  assert (Hrun : run = match Failure created with
                       | Some err =>
                           (Err (Wrapped ("creating " +:+ ID id) (ApiError err)),
                            afterCall api write w1)
                       | None => SetId (ID id) (afterCall api write w1)
                       end).
  { subst run. unfold CostManagement.createFunc.
    unfold bind at 1 2. unfold GetAttribute. cbn beta iota. fold id.
    unfold bind at 1. rewrite (call_run (E := error)). fold existing. fold w1.
    unfold bind at 1. rewrite Hnf. cbn [negb].
    assert (Hcheck : match Failure existing with
                     | Some _ => ret (E := error) tt
                     | None => ret tt
                     end w1 = (Ok tt, w1)) by (now destruct (Failure existing)).
    rewrite Hcheck.
    unfold CostManagement.createOrUpdateCostManagementView, bind, GetData, ret.
    change (data w1) with (data w). rewrite (call_run (E := error)).
    fold write. fold created. now destruct (Failure created). }
  rewrite Hrun.
  destruct (Failure created); cbn; rewrite <- app_assoc; auto.
Qed.

End Views.

Lemma createFunc_creates_absent_view_witness :
  let run := CostManagement.createFunc
               (Scenarios.scripted [Scenarios.notFound; Scenarios.accepted]
                  Scenarios.serverError)
               Scenarios.viewID (fun _ _ => tt)
               "azurerm_subscription_cost_management_view" "subscription_id"
               (Scenarios.start Scenarios.viewConfig) in
  fst run = Ok tt /\
  map fst (calls (snd run))
  = [Get Scenarios.view0; CreateOrUpdate Scenarios.view0 tt] /\
  Id (data (snd run)) = Scenarios.viewID Scenarios.view0.
Proof.
  destruct (createFunc_creates_absent_view
              (Scenarios.scripted [Scenarios.notFound; Scenarios.accepted]
                 Scenarios.serverError)
              Scenarios.viewID (fun _ _ => tt)
              "azurerm_subscription_cost_management_view" "subscription_id"
              (Scenarios.start Scenarios.viewConfig) eq_refl)
    as (Hcalls & Hrun & Hdata).
  cbv zeta. rewrite Hcalls, Hrun, Hdata. repeat split.
Defined.

Section Deletes.
Context {ViewPayload ViewRemote TargetRemote ModulePayload ModuleRemote : Type}.

Variable viewsApi :
  Call CostManagement.ScopedViewId ViewPayload -> ViewRemote ->
  ViewRemote * Response CostManagement.View.
Variable viewID : CostManagement.ScopedViewId -> string.
Variable ParseScopedViewID : string -> result error CostManagement.ScopedViewId.

Variable targetsApi :
  Call Chaos.TargetId Chaos.Target -> TargetRemote ->
  TargetRemote * Response Chaos.Target.
Variable ParseTargetID : string -> result error Chaos.TargetId.

Variable modulesApi :
  Call Automation.PowerShell72ModuleId ModulePayload -> ModuleRemote ->
  ModuleRemote * Response Automation.Module.
Variable moduleID : Automation.PowerShell72ModuleId -> string.
Variable ParsePowerShell72ModuleID :
  string -> result error Automation.PowerShell72ModuleId.


Local Abbreviation ModuleWorld :=
  (Sdk.World Automation.PowerShell72ModuleId Automation.Module ModulePayload ModuleRemote).

(** X7. Deleting what is already gone: when the Delete call fails, the
    PowerShell 7.2 module's Delete succeeds if the failure is a 404 and
    returns the error otherwise, while the Delete of a view and of a chaos
    target return the error whatever the status.  Each has issued the one
    Delete call and nothing else. *)
Theorem Delete_of_a_resource_already_gone :
  (forall (w : ModuleWorld) (id : Automation.PowerShell72ModuleId) (err : string),
     ParsePowerShell72ModuleID (Id (data w)) = Ok id ->
     Failure (answer modulesApi (Delete id) w) = Some err ->
     AutomationLifecycle.resourceAutomationPowerShell72ModuleDelete modulesApi moduleID
       ParsePowerShell72ModuleID w
     = (if WasNotFound (HttpResponse (answer modulesApi (Delete id) w)) then Ok tt
        else Err (Wrapped ("deleting " +:+ moduleID id) (ApiError err)),
        afterCall modulesApi (Delete id) w)) /\
  (forall (w : Sdk.World CostManagement.ScopedViewId CostManagement.View ViewPayload
                 ViewRemote)
          (id : CostManagement.ScopedViewId) (err : string),
     ParseScopedViewID (Id (data w)) = Ok id ->
     Failure (answer viewsApi (Delete id) w) = Some err ->
     CostManagement.deleteFunc viewsApi viewID ParseScopedViewID w
     = (Err (Wrapped ("deleting " +:+ viewID id) (ApiError err)),
        afterCall viewsApi (Delete id) w)) /\
  (forall (w : Sdk.World Chaos.TargetId Chaos.Target Chaos.Target TargetRemote)
          (id : Chaos.TargetId) (err : string),
     ParseTargetID (Id (data w)) = Ok id ->
     Failure (answer targetsApi (Delete id) w) = Some err ->
     Chaos.Delete_ targetsApi ParseTargetID w
     = (Err (Wrapped ("while removing Chaos Target " +:+ Chaos.TargetName id)
               (ApiError err)),
        afterCall targetsApi (Delete id) w)).
Proof.
  repeat apply conj.
  - intros w id err Hparse Hfailure.
    unfold AutomationLifecycle.resourceAutomationPowerShell72ModuleDelete, bind, GetId.
    rewrite Hparse, (call_run (E := error)), Hfailure.
    now destruct (WasNotFound _).
  - intros w id err Hparse Hfailure.
    unfold CostManagement.deleteFunc, bind, GetId.
    now rewrite Hparse, (call_run (E := error)), Hfailure.
  - intros w id err Hparse Hfailure.
    unfold Chaos.Delete_, bind, GetId.
    now rewrite Hparse, (call_run (E := error)), Hfailure.
Qed.

End Deletes.

Lemma Delete_of_a_resource_already_gone_witness :
  AutomationLifecycle.resourceAutomationPowerShell72ModuleDelete
    (Payload := unit) (Scenarios.scripted [Scenarios.notFound] Scenarios.serverError)
    Scenarios.moduleID Scenarios.parseModule0
    (Scenarios.start MoreScenarios.moduleState)
  = (Ok tt,
     {| remote := 1; calls := [(Delete Scenarios.module0, Scenarios.notFound)];
        data := MoreScenarios.moduleState |}) /\
  fst (CostManagement.deleteFunc
         (Payload := unit) (Scenarios.scripted [Scenarios.notFound] Scenarios.serverError)
         Scenarios.viewID Scenarios.parseView0 (Scenarios.start Scenarios.viewState))
  = Err (Wrapped ("deleting " +:+ Scenarios.viewID Scenarios.view0)
           (ApiError "404 Not Found")) /\
  fst (Chaos.Delete_ (Scenarios.scripted [Scenarios.notFound] Scenarios.serverError)
         Scenarios.parseTarget0 (Scenarios.start Scenarios.targetState))
  = Err (Wrapped "while removing Chaos Target microsoft-cosmosdb" (ApiError "404 Not Found")).
Proof.
  destruct (Delete_of_a_resource_already_gone
              (ViewPayload := unit) (ModulePayload := unit)
              (Scenarios.scripted [Scenarios.notFound] Scenarios.serverError)
              Scenarios.viewID Scenarios.parseView0
              (Scenarios.scripted [Scenarios.notFound] Scenarios.serverError)
              Scenarios.parseTarget0
              (Scenarios.scripted [Scenarios.notFound] Scenarios.serverError)
              Scenarios.moduleID Scenarios.parseModule0)
    as (Hmodule & Hview & Htarget).
  split; [|split].
  - rewrite (Hmodule (Scenarios.start MoreScenarios.moduleState) Scenarios.module0
               "404 Not Found" eq_refl eq_refl).
    reflexivity.
  - rewrite (Hview (Scenarios.start Scenarios.viewState) Scenarios.view0
               "404 Not Found" eq_refl eq_refl).
    reflexivity.
  - rewrite (Htarget (Scenarios.start Scenarios.targetState) Scenarios.target0
               "404 Not Found" eq_refl eq_refl).
    reflexivity.
Defined.

End TemplateFacts.
(** ** The PowerShell 7.2 module: Update *)

Module AutomationLifecycleFacts.
Import Sdk Automation AutomationLifecycle.

Section Update.
Context {Payload Remote : Type}.
Variable api : Call PowerShell72ModuleId Payload -> Remote -> Remote * Response Module.
Variable ID : PowerShell72ModuleId -> string.
Variable ParsePowerShell72ModuleID : string -> result error PowerShell72ModuleId.
Variable expandPowerShell72ModuleLink : ResourceData -> Payload.

Local Abbreviation World := (Sdk.World PowerShell72ModuleId Module Payload Remote).

(** Reading keeps the ID, or clears it. *)
Lemma Read_id (w w' : World) (r : result error unit) :
  resourceAutomationPowerShell72ModuleRead api ID ParsePowerShell72ModuleID w = (r, w') ->
  Id (data w') = Id (data w) \/ Id (data w') = "".
Proof.
  unfold resourceAutomationPowerShell72ModuleRead, bind, GetId.
  destruct (ParsePowerShell72ModuleID (Id (data w))) as [id|err].
  - rewrite (call_run (E := error)).
    destruct (Failure (answer api (Get id) w)) as [err|].
    + destruct (WasNotFound (HttpResponse (answer api (Get id) w)));
        intros [= <- <-]; cbn; auto.
    + intros [= <- <-]. cbn. auto.
  - intros [= <- <-]. auto.
Qed.

(** X8. The PowerShell 7.2 module's Update does not look for the module
    first: its first call is the write.  When the write fails its error is
    returned as it is and nothing else is called; otherwise Update polls as
    Create does, fails with the wait's error without a further call, and
    succeeds only after a refresh has returned the module with the
    provisioning state Succeeded and no error message, the refreshes before
    it having returned it in pending states.  It never gives the resource a
    new ID. *)
Theorem Update_skips_the_existence_check (subscriptionId : string) (polls : nat)
    (w : World) :
  let id := configuredId subscriptionId (data w) in
  let write := CreateOrUpdate id (expandPowerShell72ModuleLink (data w)) in
  let created := answer api write w in
  let run := resourceAutomationPowerShell72ModuleUpdate api ID ParsePowerShell72ModuleID
               expandPowerShell72ModuleLink subscriptionId polls w in
  match Failure created with
  | Some err => run = (Err (ApiError err), afterCall api write w)
  | None =>
      exists observed waited after,
        Polled ID id polls observed waited /\
        calls (snd run)
        = (calls w ++ (write, created) :: map (pair (Get id)) observed ++ after)%list /\
        (forall err, waited = Err err -> fst run = Err err /\ after = []) /\
        (is_ok (fst run) = true -> waited = Ok tt) /\
        (is_ok (fst run) = true ->
         exists before resp,
           observed = (before ++ [resp])%list /\
           Forall pendingResponse before /\
           length before < polls /\
           succeededResponse resp) /\
        (Id (data (snd run)) = Id (data w) \/ Id (data (snd run)) = "")
  end.
Proof.
  intros id write created run.
  assert (Hrun : run = match Failure created with
                       | Some err => (Err (ApiError err), afterCall api write w)
                       | None =>
                           bind (waitForProvisioning api ID id polls)
                             (fun _ => resourceAutomationPowerShell72ModuleRead api ID
                                         ParsePowerShell72ModuleID)
                             (afterCall api write w)
                       end).
  { subst run. unfold resourceAutomationPowerShell72ModuleUpdate.
    unfold bind at 1 2 3. unfold GetAttribute. cbn beta iota.
    change (NewPowerShell72ModuleID subscriptionId _ _ _) with id.
    unfold bind at 1. unfold GetData. cbn beta iota.
    unfold bind at 1. rewrite (call_run (E := error)). fold write. fold created.
    now destruct (Failure created). }
  destruct (Failure created) as [err|]; [exact Hrun|].
  set (w1 := afterCall api write w) in *.
  unfold bind in Hrun.
  destruct (waitForProvisioning api ID id polls w1) as [[[]|e] w2] eqn:Hwait;
    destruct (AutomationFacts.waitForProvisioning_Polled _ _ _ _ _ _ _ Hwait)
      as (observed & Hpolled & Hcalls & Hdata).
  - destruct (resourceAutomationPowerShell72ModuleRead api ID ParsePowerShell72ModuleID w2)
      as [r w3] eqn:Hread.
    destruct (AutomationFacts.Read_calls _ _ _ _ _ _ Hread) as [after Hafter].
    exists observed, (Ok tt), after. rewrite Hrun. cbn [fst snd].
    split; [exact Hpolled|]. split.
    { rewrite Hafter, Hcalls. cbn. now rewrite <- !app_assoc. }
    split; [discriminate|]. split; [reflexivity|].
    split.
    { intros _. inversion Hpolled as [before resp HF Hlen Hs Hobs | | | |]; subst.
      exists before, resp. auto. }
    destruct (Read_id _ _ _ Hread) as [Hid|Hid]; [left|right; exact Hid].
    now rewrite Hid, Hdata.
  - exists observed, (Err e), []. rewrite Hrun. cbn [fst snd].
    split; [exact Hpolled|]. split.
    { rewrite Hcalls. cbn. now rewrite <- !app_assoc, app_nil_r. }
    split; [now intros err [= <-]|]. split; [discriminate|]. split; [discriminate|].
    left. now rewrite Hdata.
Qed.

End Update.
End AutomationLifecycleFacts.
(** ** The Kubernetes Arc extension *)

Module ArcExtensionFacts.
Import Sdk ArcExtension.

Section Resource.
Context {Payload Remote : Type}.
Variable api : Call ConnectedClusterRef Payload -> Remote -> Remote * Response ConnectedCluster.

Local Abbreviation World := (Sdk.World ConnectedClusterRef ConnectedCluster Payload Remote).

(** X9. The Create, Read and Delete of the Kubernetes Arc extension are one
    and the same operation: a single Get of the connected cluster, after
    which the resource data are as before.  In particular Delete deletes
    nothing.  Each succeeds exactly when the Get did not fail with anything
    but a 404 and returned no ID, and fails with the import-as-exists error
    when the Get succeeded and returned one. *)
Theorem Arc_extension_operations_only_look (w : World) :
  let cluster := {| ResourceGroupName := attribute (data w) "resource_group_name";
                    ClusterName := attribute (data w) "name" |} in
  let existing := answer api (Get cluster) w in
  let run := resourceKubernetesArcExtensionDelete api w in
  resourceKubernetesArcExtensionCreate api w = run /\
  resourceKubernetesArcExtensionRead api w = run /\
  snd run = afterCall api (Get cluster) w /\
  (fst run = Ok tt <->
   (Failure existing = None \/ WasNotFound (HttpResponse existing) = true) /\
   (existingID existing = None \/ existingID existing = Some "")) /\
  (Failure existing = None ->
   forall id, existingID existing = Some id -> id <> "" ->
   fst run = Err (ImportAsExistsError "azurerm_kubernetes_cluster" id)).
Proof.
  intros cluster existing run.
  split; [reflexivity|]. split; [reflexivity|].
  assert (Hrun : run = (match Failure existing with
                        | Some err =>
                            if negb (WasNotFound (HttpResponse existing)) then
                              Err (checkingForPresence (ClusterName cluster)
                                     (ResourceGroupName cluster) err)
                            else
                              match existingID existing with
                              | Some id =>
                                  if negb (String.eqb id "") then
                                    Err (ImportAsExistsError "azurerm_kubernetes_cluster" id)
                                  else Ok tt
                              | None => Ok tt
                              end
                        | None =>
                            match existingID existing with
                            | Some id =>
                                if negb (String.eqb id "") then
                                  Err (ImportAsExistsError "azurerm_kubernetes_cluster" id)
                                else Ok tt
                            | None => Ok tt
                            end
                        end, afterCall api (Get cluster) w)).
  { subst run. unfold resourceKubernetesArcExtensionDelete.
    unfold bind at 1 2. unfold GetAttribute. cbn beta iota. fold cluster.
    unfold bind at 1. rewrite (call_run (E := error)). fold existing.
    unfold bind, ret, fail.
    destruct (Failure existing) as [err|];
      [destruct (WasNotFound (HttpResponse existing)); cbn [negb]|];
      try reflexivity;
      destruct (existingID existing) as [id|]; try reflexivity;
      now destruct (String.eqb id ""). }
  rewrite Hrun. cbn [fst snd]. split; [reflexivity|]. split.
  - destruct (Failure existing) as [err|];
      [destruct (WasNotFound (HttpResponse existing)); cbn [negb]|];
      (destruct (existingID existing) as [id|];
       [destruct (String.eqb_spec id ""); cbn [negb]; subst|]);
      split; try discriminate; try (intros _; auto; fail);
      try (intros [[?|?] [?|?]]; congruence).
  - intros -> id -> Hid. destruct (String.eqb_spec id ""); [contradiction|reflexivity].
Qed.

End Resource.
End ArcExtensionFacts.
(** ** The Kusto scripts client: CreateOrUpdate and Update *)

Module KustoScriptsFacts.
Import KustoScripts.

Section Client.
Context {Remote : Type}.
Variable BaseURI : string.
Variable SubscriptionID : string.
Variable Encode : string -> string -> string.
Variable Prepare : Request -> result string Request.
Variable Send : Request -> Remote -> Remote * (option HttpResponse * option string).
Variable NewFutureFromResponse : option HttpResponse -> result string Future.

(** X10. [CreateOrUpdate] of the Kusto scripts client checks the script
    before it prepares anything: properties that are set but lack the script
    URL or its SAS token give a validation error, and nothing is prepared or
    sent.  A script without properties, or with both, is prepared and, when
    that succeeds, sent once; the body of the request carries no system
    data. *)
Theorem CreateOrUpdate_validates_the_script
    (resourceGroupName clusterName databaseName scriptName : string)
    (parameters : Script) (w : Wire (Remote := Remote)) :
  let run := CreateOrUpdate BaseURI SubscriptionID Encode Prepare Send
               NewFutureFromResponse resourceGroupName clusterName databaseName
               scriptName parameters w in
  let req := createOrUpdateRequest BaseURI SubscriptionID Encode resourceGroupName
               clusterName databaseName scriptName parameters in
  match Properties parameters with
  | Some {| ScriptURL := Some _; ScriptURLSasToken := Some _ |} | None =>
      events (snd run) = (events w ++ preparedAndSent Prepare req)%list /\
      JSON req = Some {| Properties := Properties parameters; SystemData := None |}
  | Some _ =>
      exists message,
        run = (zeroFuture,
               Some (Kusto.ValidationError "kusto.ScriptsClient" "CreateOrUpdate" message),
               w)
  end.
Proof.
  cbv zeta. unfold CreateOrUpdate.
  set (req := createOrUpdateRequest _ _ _ _ _ _ _ _).
  assert (Hsent : forall (result : Future * option Kusto.error * Wire),
            result
            = match CreateOrUpdatePreparer BaseURI SubscriptionID Encode Prepare
                      resourceGroupName clusterName databaseName scriptName parameters w with
              | (Err cause, w1) =>
                  (zeroFuture, Some (Kusto.FailurePreparingRequest cause), w1)
              | (Ok req, w1) =>
                  match CreateOrUpdateSender Send NewFutureFromResponse req w1 with
                  | (result, Some cause, w2) =>
                      (result, Some (Kusto.FailureSendingRequest cause), w2)
                  | (result, None, w2) => (result, None, w2)
                  end
              end ->
            events (snd result) = (events w ++ preparedAndSent Prepare req)%list).
  { intros result ->. unfold CreateOrUpdatePreparer, prepare, preparedAndSent. fold req.
    destruct (Prepare req) as [prepared|cause]; [|reflexivity].
    unfold CreateOrUpdateSender, send. cbn [remote events].
    destruct (Send prepared (remote w)) as [remote' [resp [cause|]]];
      [cbn; now rewrite <- app_assoc|].
    destruct (NewFutureFromResponse resp); cbn; now rewrite <- app_assoc. }
  destruct parameters as [[[[url|] [token|] tag continue]|] systemData];
    cbn [Properties ScriptURL ScriptURLSasToken];
    try (eexists; reflexivity);
    (split; [apply Hsent; reflexivity|reflexivity]).
Qed.

(** X11. [Update] of the Kusto scripts client validates nothing: whatever
    the script, a PATCH request is prepared and, when that succeeds, sent
    once, its body carrying the script without system data; a validation
    error is never returned. *)
Theorem Update_sends_the_script_unvalidated
    (resourceGroupName clusterName databaseName scriptName : string)
    (parameters : Script) (w : Wire (Remote := Remote)) :
  let run := Update BaseURI SubscriptionID Encode Prepare Send NewFutureFromResponse
               resourceGroupName clusterName databaseName scriptName parameters w in
  let req := updateRequest BaseURI SubscriptionID Encode resourceGroupName
               clusterName databaseName scriptName parameters in
  events (snd run) = (events w ++ preparedAndSent Prepare req)%list /\
  Method req = "PATCH" /\
  JSON req = Some {| Properties := Properties parameters; SystemData := None |} /\
  (forall packageType method message,
     snd (fst run) <> Some (Kusto.ValidationError packageType method message)).
Proof.
  cbv zeta. unfold Update, UpdatePreparer, prepare, preparedAndSent.
  set (req := updateRequest _ _ _ _ _ _ _ _).
  split; [|split; [reflexivity|split; [reflexivity|]]].
  - destruct (Prepare req) as [prepared|cause]; [|reflexivity].
    unfold UpdateSender, send. cbn [remote events].
    destruct (Send prepared (remote w)) as [remote' [resp [cause|]]];
      [cbn; now rewrite <- app_assoc|].
    destruct (NewFutureFromResponse resp); cbn; now rewrite <- app_assoc.
  - intros packageType method message.
    destruct (Prepare req) as [prepared|cause]; [|discriminate].
    unfold UpdateSender, send. cbn [remote events].
    destruct (Send prepared (remote w)) as [remote' [resp [cause|]]]; [discriminate|].
    destruct (NewFutureFromResponse resp); discriminate.
Qed.

End Client.
End KustoScriptsFacts.
(** ** The Service Bus queue authorization rule data source *)

Module RestFacts.

Section Client.
Context {CallRecord Remote E A : Type}.

Lemma call_recorded (method : Remote -> Remote * A) (record : A -> CallRecord)
    (w : Rest.World CallRecord Remote) :
  Rest.call (E := E) method record w
  = (Ok (Rest.answer method w), Rest.afterCall method record w).
Proof.
  unfold Rest.call, Rest.afterCall, Rest.answer. now destruct (method (Rest.remote w)).
Qed.

Lemma bind_SetAttribute {B : Type} (key value : string) (k : unit -> Rest.M CallRecord Remote E B)
    (w : Rest.World CallRecord Remote) :
  Rest.bind (Rest.SetAttribute key value) k w = k tt (Rest.withAttribute key value w).
Proof. reflexivity. Qed.

Lemma bind_SetId {B : Type} (id : string) (k : unit -> Rest.M CallRecord Remote E B)
    (w : Rest.World CallRecord Remote) :
  Rest.bind (Rest.SetId id) k w = k tt (Rest.withId id w).
Proof. reflexivity. Qed.

Lemma bind_ret {B C : Type} (b : B) (k : B -> Rest.M CallRecord Remote E C)
    (w : Rest.World CallRecord Remote) :
  Rest.bind (Rest.ret b) k w = k b w.
Proof. reflexivity. Qed.

Lemma bind_call {B : Type} (method : Remote -> Remote * A) (record : A -> CallRecord)
    (k : A -> Rest.M CallRecord Remote E B) (w : Rest.World CallRecord Remote) :
  Rest.bind (Rest.call method record) k w
  = k (Rest.answer method w) (Rest.afterCall method record w).
Proof. unfold Rest.bind. now rewrite call_recorded. Qed.

Lemma bind_fail {B C : Type} (e : E) (k : B -> Rest.M CallRecord Remote E C)
    (w : Rest.World CallRecord Remote) :
  Rest.bind (Rest.fail e) k w = (Err e, w).
Proof. reflexivity. Qed.

Lemma bind_GetAttribute {B : Type} (key : string) (k : string -> Rest.M CallRecord Remote E B)
    (w : Rest.World CallRecord Remote) :
  Rest.bind (Rest.GetAttribute key) k w = k (Sdk.attribute (Rest.data w) key) w.
Proof. reflexivity. Qed.

Lemma bind_bind {B C D : Type} (c : Rest.M CallRecord Remote E B)
    (k1 : B -> Rest.M CallRecord Remote E C) (k2 : C -> Rest.M CallRecord Remote E D)
    (w : Rest.World CallRecord Remote) :
  Rest.bind (Rest.bind c k1) k2 w = Rest.bind c (fun b => Rest.bind (k1 b) k2) w.
Proof. unfold Rest.bind. destruct (c w) as [[b|e] w1]; reflexivity. Qed.

End Client.
End RestFacts.

Module ServiceBusFacts.
Import Rest ServiceBus RestFacts.

Section DataSource.
Context {Remote : Type}.
Variable getAuthorizationRule :
  string -> string -> string -> string -> Remote -> Remote * Sdk.Response SBAuthorizationRule.
Variable listKeys :
  string -> string -> string -> string -> Remote -> Remote * Sdk.Response AccessKeys.
Variable ID : QueueAuthorizationRuleId -> string.
Variable describe : QueueAuthorizationRuleId -> string.
Variable flattenAuthorizationRuleRights : option (list string) -> bool * bool * bool.

Local Abbreviation World := (Rest.World CallRecord Remote).


End DataSource.
End ServiceBusFacts.
(** ** Creating a Cosmos DB SQL role assignment *)

Module CosmosRoleAssignmentFacts.
Import Rest CosmosRoleAssignment RestFacts.

(** Without a definition that carries the role name, the loop ends with the
    empty ID. *)
Lemma roleDefinitionIdByName_none (roleName : string)
    (roleDefinitions : list SQLRoleDefinitionGetResults) :
  Forall (fun roleDefinition => roleNameOf roleDefinition <> Some roleName) roleDefinitions ->
  roleDefinitionIdByName roleName roleDefinitions = Ok "".
Proof.
  induction 1 as [|roleDefinition rest Hname _ IH]; [reflexivity|].
  cbn. unfold roleNameOf in Hname.
  destruct (Resource roleDefinition) as [[[name|]]|]; try exact IH.
  cbn in Hname. destruct (String.eqb_spec name roleName) as [->|_]; [congruence|exact IH].
Qed.

(** The loop stops at the first definition that carries the role name:
    what comes after it does not matter. *)
Lemma roleDefinitionIdByName_first (roleName id : string)
    (before after : list SQLRoleDefinitionGetResults)
    (roleDefinition : SQLRoleDefinitionGetResults) :
  Forall (fun roleDefinition => roleNameOf roleDefinition <> Some roleName) before ->
  roleNameOf roleDefinition = Some roleName ->
  ID roleDefinition = Some id ->
  roleDefinitionIdByName roleName (before ++ roleDefinition :: after) = Ok id.
Proof.
  intros Hbefore Hname Hid.
  induction Hbefore as [|other before Hother _ IH]; cbn.
  - unfold roleNameOf in Hname.
    destruct (Resource roleDefinition) as [[[name|]]|]; try discriminate Hname.
    cbn in Hname. injection Hname as ->. now rewrite String.eqb_refl, Hid.
  - unfold roleNameOf in Hother.
    destruct (Resource other) as [[[name|]]|]; try exact IH.
    cbn in Hother. destruct (String.eqb_spec name roleName) as [->|_]; [congruence|exact IH].
Qed.

Section Resource.
Context {Future Remote : Type}.
Variable listSQLRoleDefinitions :
  string -> string -> Remote -> Remote * (SQLRoleDefinitionListResult * option string).
Variable createUpdateSQLRoleAssignment :
  string -> string -> string -> Cosmos.SQLRoleAssignmentResource ->
  Remote -> Remote * (Future * option string).
Variable waitForCompletionRef : Future -> Remote -> Remote * option string.
Variable generateUUID : result string string.
Variable describe : CosmosParse.SqlRoleAssigmentId -> string.
Variable resourceCosmosDbRoleAssignmentRead : M (CallRecord Future) Remote error unit.

Local Abbreviation World := (Rest.World (CallRecord Future) Remote).
Local Abbreviation CreateUpdate :=
  (resourceCosmosDbRoleAssignmentCreateUpdate listSQLRoleDefinitions
     createUpdateSQLRoleAssignment waitForCompletionRef generateUUID describe
     resourceCosmosDbRoleAssignmentRead).

Hypothesis Read_adds_calls :
  forall w : World,
  exists after, calls (snd (resourceCosmosDbRoleAssignmentRead w)) = (calls w ++ after)%list.

(** The run from the create call on, once the role definition is known. *)
Lemma create_from (subscriptionId name roleDefinitionId : string) (w0 : World) :
  let id := assignmentId subscriptionId name (data w0) in
  let parameters := assignmentParameters roleDefinitionId (data w0) in
  forall run,
  run = bind (SetAttribute "role_definition_id" roleDefinitionId)
          (fun _ =>
           bind (GetAttribute "scope")
             (fun scope =>
              bind (GetAttribute "principal_id")
                (fun principalId =>
                 let roleAssignmentProperties :=
                   {| Cosmos.RoleDefinitionID := Some roleDefinitionId;
                      Cosmos.Scope := Some scope;
                      Cosmos.PrincipalID := Some principalId |} in
                 bind
                   (call (createUpdateSQLRoleAssignment (CosmosParse.SqlRoleAssignmentName id)
                            (CosmosParse.ResourceGroup id) (CosmosParse.DatabaseAccountName id)
                            roleAssignmentProperties)
                      (fun '(future, err) =>
                         CreateUpdateSQLRoleAssignment (CosmosParse.SqlRoleAssignmentName id)
                           (CosmosParse.ResourceGroup id) (CosmosParse.DatabaseAccountName id)
                           roleAssignmentProperties future err))
                   (fun created =>
                    match snd created with
                    | Some err =>
                        fail (Wrapped ("creating/updating " +:+ describe id) (ApiError err))
                    | None =>
                        bind (call (waitForCompletionRef (fst created))
                                (WaitForCompletionRef (fst created)))
                          (fun waited =>
                           match waited with
                           | Some err =>
                               fail (Wrapped ("waiting for " +:+ describe id
                                              +:+ " to complete creation") (ApiError err))
                           | None =>
                               bind (SetId (CosmosParse.ID id))
                                 (fun _ => resourceCosmosDbRoleAssignmentRead)
                           end)
                    end)))) w0 ->
  exists future err rest,
    calls (snd run)
    = (calls w0 ++
       CreateUpdateSQLRoleAssignment name (Sdk.attribute (data w0) "resource_group_name")
         (Sdk.attribute (data w0) "cosmosdb_account_name") parameters future err
       :: rest)%list.
Proof.
  intros id parameters run ->.
  rewrite bind_SetAttribute. unfold bind at 1 2. unfold GetAttribute. cbn beta iota zeta.
  assert (Hscope : Sdk.attribute
                     (data (withAttribute "role_definition_id" roleDefinitionId w0)) "scope"
                   = Sdk.attribute (data w0) "scope").
  { unfold Sdk.attribute. cbn. now rewrite lookup_insert_ne by discriminate. }
  assert (Hprincipal : Sdk.attribute
                         (data (withAttribute "role_definition_id" roleDefinitionId w0))
                         "principal_id"
                       = Sdk.attribute (data w0) "principal_id").
  { unfold Sdk.attribute. cbn. now rewrite lookup_insert_ne by discriminate. }
  rewrite Hscope, Hprincipal. fold (assignmentParameters roleDefinitionId (data w0)).
  fold parameters.
  set (create := createUpdateSQLRoleAssignment _ _ _ _).
  set (created := fun _ : Future * option string => _).
  unfold bind at 1. rewrite (call_recorded create created).
  set (w1 := withAttribute "role_definition_id" roleDefinitionId w0) in *.
  destruct (answer create w1) as [future err] eqn:Hanswer.
  exists future, err.
  assert (Hcalls1 : calls (afterCall create created w1)
                    = (calls w0 ++
                       [CreateUpdateSQLRoleAssignment name
                          (Sdk.attribute (data w0) "resource_group_name")
                          (Sdk.attribute (data w0) "cosmosdb_account_name")
                          parameters future err])%list).
  { cbn [calls afterCall]. now rewrite Hanswer. }
  cbn [fst snd]. destruct err as [err|].
  { exists []. cbn [snd fail]. exact Hcalls1. }
  unfold bind at 1. rewrite call_recorded.
  set (w2 := afterCall create created w1) in *.
  set (w3 := afterCall _ _ w2).
  assert (Hcalls3 : calls w3
                    = (calls w0 ++
                       CreateUpdateSQLRoleAssignment name
                         (Sdk.attribute (data w0) "resource_group_name")
                         (Sdk.attribute (data w0) "cosmosdb_account_name")
                         parameters future None
                       :: [WaitForCompletionRef future
                             (answer (waitForCompletionRef future) w2)])%list).
  { subst w3. cbn [calls afterCall]. rewrite Hcalls1. now rewrite <- app_assoc. }
  destruct (answer (waitForCompletionRef future) w2) as [err|] eqn:Hwaited.
  { eexists. cbn [snd fail]. exact Hcalls3. }
  rewrite bind_SetId.
  destruct (Read_adds_calls (withId (CosmosParse.ID id) w3)) as [after Hafter].
  exists (WaitForCompletionRef future None :: after).
  rewrite Hafter. cbn [calls withId]. rewrite Hcalls3. now rewrite <- app_assoc.
Qed.

(** X13. How creating a SQL role assignment finds the role definition.  A
    configured [role_definition_id] is used as it is, and the role
    definitions are not listed.  Without it, a configured
    [role_definition_name] makes the first call the list of the account's
    role definitions: when that fails, or returns no list, creating fails
    there; otherwise the ID that the loop over the definitions finds goes
    into the create call, which follows at once.  The loop finds the ID of
    the first definition with that name, whatever comes after it in the
    list; where no definition carries the name that ID is the empty string,
    and the create call is sent all the same.  With neither configured,
    creating fails before any call. *)
Theorem CreateUpdate_resolves_the_role_definition (subscriptionId name : string) (w : World) :
  assignmentName generateUUID (data w) = Ok name ->
  let resourceGroupName := Sdk.attribute (data w) "resource_group_name" in
  let accountName := Sdk.attribute (data w) "cosmosdb_account_name" in
  let roleDefinitionId := Sdk.attribute (data w) "role_definition_id" in
  let roleName := Sdk.attribute (data w) "role_definition_name" in
  let list := listSQLRoleDefinitions resourceGroupName accountName in
  let listed := fun '(resp, err) =>
                  ListSQLRoleDefinitions (Future := Future) resourceGroupName accountName
                    resp err in
  let run := CreateUpdate subscriptionId w in
  (if negb (String.eqb roleDefinitionId "") then
     exists future err rest,
       calls (snd run)
       = (calls w ++
          CreateUpdateSQLRoleAssignment name resourceGroupName accountName
            (assignmentParameters roleDefinitionId (data w)) future err
          :: rest)%list
   else if negb (String.eqb roleName "") then
     match snd (answer list w), Value (fst (answer list w)) with
     | Some err, _ =>
         run = (Err (Wrapped "loading Role Definition List" (ApiError err)),
                afterCall list listed w)
     | None, None =>
         run = (Err (Message ("loading Role Definition List: could not find role '"
                              +:+ roleName +:+ "'")),
                afterCall list listed w)
     | None, Some roleDefinitions =>
         match roleDefinitionIdByName roleName roleDefinitions with
         | Err panic => run = (Err panic, afterCall list listed w)
         | Ok found =>
             exists future err rest,
               calls (snd run)
               = (calls w ++
                  ListSQLRoleDefinitions resourceGroupName accountName
                    (fst (answer list w)) None
                  :: CreateUpdateSQLRoleAssignment name resourceGroupName accountName
                       (assignmentParameters found (data w)) future err
                  :: rest)%list
         end
     end
   else
     run = (Err (Message "either role_definition_id or role_definition_name needs to be set"),
            w)) /\
  (forall roleDefinitions,
     Forall (fun roleDefinition => roleNameOf roleDefinition <> Some roleName)
       roleDefinitions ->
     roleDefinitionIdByName roleName roleDefinitions = Ok "") /\
  (forall before roleDefinition after id,
     Forall (fun roleDefinition => roleNameOf roleDefinition <> Some roleName) before ->
     roleNameOf roleDefinition = Some roleName ->
     ID roleDefinition = Some id ->
     roleDefinitionIdByName roleName (before ++ roleDefinition :: after)%list = Ok id).
Proof.
  intros Hname resourceGroupName accountName roleDefinitionId roleName list listed run.
  split; [|split; [apply roleDefinitionIdByName_none|]].
  2: { intros before roleDefinition after id.
       apply roleDefinitionIdByName_first. }
  remember run as result eqn:Hrun. subst run.
  unfold resourceCosmosDbRoleAssignmentCreateUpdate in Hrun.
  unfold bind at 1 in Hrun. unfold GetAttribute at 1 in Hrun. cbn beta iota in Hrun.
  unfold bind at 1 in Hrun.
  assert (Hnamed : (if String.eqb (Sdk.attribute (data w) "name") "" then
                      match generateUUID with
                      | Ok uuid => ret uuid
                      | Err err =>
                          fail (Wrapped "generating UUID for Role Assignment" (Message err))
                      end
                    else ret (E := error) (Sdk.attribute (data w) "name")) w
                   = (Ok name, w)).
  { unfold assignmentName in Hname.
    destruct (String.eqb (Sdk.attribute (data w) "name") ""); [|now injection Hname as ->].
    now rewrite Hname. }
  rewrite Hnamed in Hrun. clear Hnamed.
  unfold bind at 1 2 in Hrun. unfold GetAttribute at 1 2 in Hrun. cbn beta iota zeta in Hrun.
  fold resourceGroupName in Hrun. fold accountName in Hrun.
  unfold bind at 1 2 in Hrun. unfold GetOk in Hrun. cbn beta iota zeta in Hrun.
  fold roleDefinitionId in Hrun. fold roleName in Hrun. cbn [fst snd] in Hrun.
  cbn [CosmosParse.ResourceGroup CosmosParse.DatabaseAccountName
         CosmosParse.NewSqlRoleAssigmentID] in Hrun.
  fold list in Hrun. fold listed in Hrun.
  unfold bind at 1 in Hrun.
  destruct (negb (String.eqb roleDefinitionId "")).
  { cbn [ret] in Hrun.
    destruct (create_from subscriptionId name roleDefinitionId w result Hrun)
      as (future & err & rest & Hcalls).
    exists future, err, rest. exact Hcalls. }
  destruct (negb (String.eqb roleName "")); [|exact Hrun].
  unfold bind at 1 in Hrun. rewrite (call_recorded list listed) in Hrun.
  destruct (answer list w) as [resp listErr] eqn:Hlisted. cbn [fst snd] in Hrun |- *.
  destruct listErr as [err|]; [exact Hrun|].
  destruct (Value resp) as [roleDefinitions|]; [|exact Hrun].
  destruct (roleDefinitionIdByName roleName roleDefinitions) as [found|panic];
    [|exact Hrun].
  cbn [ret] in Hrun.
  destruct (create_from subscriptionId name found (afterCall list listed w) result Hrun)
    as (future & err & rest & Hcalls).
  exists future, err, rest. rewrite Hcalls. cbn [calls afterCall data].
  rewrite Hlisted. cbn. now rewrite <- app_assoc.
Qed.

End Resource.

Lemma CreateUpdate_resolves_the_role_definition_witness :
  exists rest,
    calls (snd (resourceCosmosDbRoleAssignmentCreateUpdate MoreScenarios.listSQLRoleDefinitions
                  MoreScenarios.createUpdateSQLRoleAssignment MoreScenarios.waitForCompletionRef (Ok "uuid")
                  CosmosParse.ID (ret tt) "sub" MoreScenarios.roleAssignmentStart))
    = (ListSQLRoleDefinitions "rg" "account" MoreScenarios.roleDefinitions None
       :: CreateUpdateSQLRoleAssignment "assignment1" "rg" "account"
            {| Cosmos.RoleDefinitionID := Some MoreScenarios.builtinReaderId;
               Cosmos.Scope := Some "/";
               Cosmos.PrincipalID := Some "principal" |} tt None
       :: rest)%list.
Proof.
  assert (Hread : forall w : World (CallRecord unit) nat,
            exists after, calls (snd (ret (E := error) tt w)) = (calls w ++ after)%list).
  { intros w. exists []. cbn. now rewrite app_nil_r. }
  destruct (CreateUpdate_resolves_the_role_definition MoreScenarios.listSQLRoleDefinitions
              MoreScenarios.createUpdateSQLRoleAssignment MoreScenarios.waitForCompletionRef (Ok "uuid")
              CosmosParse.ID (ret tt) Hread "sub" "assignment1" MoreScenarios.roleAssignmentStart
              eq_refl) as [Hrun _].
  vm_compute in Hrun. destruct Hrun as (future & err & rest & Hcalls).
  exists rest. vm_compute. destruct future.
  injection Hcalls as <- <-. reflexivity.
Defined.

End CosmosRoleAssignmentFacts.
(** ** Host keys, maintenance windows and the firewall policy's identity *)

Module FlattenFacts.
Import GoValue GoValueFacts.

(** X14. [flattenFunctionKeys] either returns a map with exactly the keys of
    its input, each with the string its value points to, or it panics on a
    nil pointer, which it does exactly when some value of the input is
    nil. *)
Theorem flattenFunctionKeys_keeps_keys (input : gmap string (option string)) :
  match FunctionAppHostKeys.flattenFunctionKeys input with
  | Ok output => forall k, input !! k = Some <$> (output !! k)
  | Err p => p = NilDereference /\ exists k, input !! k = Some None
  end.
Proof.
  unfold FunctionAppHostKeys.flattenFunctionKeys.
  apply (map_fold_weak_ind
           (fun r (m : gmap string (option string)) =>
              match r with
              | Ok output => forall k, m !! k = Some <$> (output !! k)
              | Err p => p = NilDereference /\ exists k, m !! k = Some None
              end)).
  - intros k. now rewrite !lookup_empty.
  - intros k v m r Hfresh IH. destruct r as [output|p].
    + destruct v as [value|]; cbn.
      * intros k'. destruct (decide (k = k')) as [->|Hne].
        -- now rewrite !lookup_insert_eq.
        -- rewrite !lookup_insert_ne by exact Hne. apply IH.
      * split; [reflexivity|]. exists k. apply lookup_insert_eq.
    + cbn. destruct IH as [-> [k' Hk']]. split; [reflexivity|].
      exists k'. rewrite lookup_insert_ne; [exact Hk'|]. intros ->. congruence.
Qed.

Import MaintenanceConfiguration.

Lemma int32_in_range (v : Z) : (- 2 ^ 31 <= v < 2 ^ 31)%Z -> int32 v = v.
Proof. intros Hv. unfold int32. rewrite Z.mod_small; lia. Qed.

(** X15. [expandTimeInWeek] makes one entry per [maintenance_allowed] block,
    in order, and the day of every entry is Friday, whatever day the block
    names; the hour slots are the block's, narrowed to 32 bits, which leaves
    the hours the schema allows (0 to 24) as they are. *)
Theorem expandTimeInWeek_is_always_Friday :
  (forall config : list (string * list Z),
     expandTimeInWeek (uncurry maintenanceAllowedBlock <$> config)
     = Ok (Some ((fun block => {| Day := "Friday";
                                  HourSlots := Some (int32 <$> snd block) |}) <$> config))) /\
  (forall v : Z, (0 <= v <= 24)%Z -> int32 v = v).
Proof.
  split; [|intros v Hv; apply int32_in_range; lia].
  intros config. unfold expandTimeInWeek.
  rewrite (forEach_fmap _ (uncurry maintenanceAllowedBlock)
             (fun block => {| Day := "Friday"; HourSlots := Some (int32 <$> snd block) |}));
    [reflexivity|].
  intros [day hourSlots]. cbn [uncurry maintenanceAllowedBlock assertMap rbind snd].
  change (index _ "hour_slots") with (VSet (VInt <$> hourSlots)).
  cbn [assertSetList rbind].
  now rewrite (forEach_fmap _ VInt int32).
Qed.

Import FirewallPolicy.

Lemma identities_loop (identityIds : list string) (acc : gmap string unit) :
  fold_left
    (fun output id =>
       userAssignedIdentities <-! output ;
       id <-! assertString id ;
       Ok (<[id := tt]> userAssignedIdentities))
    (VString <$> identityIds) (Ok acc)
  = Ok (list_to_map ((fun id => (id, tt)) <$> reverse identityIds) ∪ acc).
Proof.
  revert acc. induction identityIds as [|id identityIds IH]; intros acc.
  - cbn. now rewrite (left_id_L ∅ (∪)).
  - cbn [fmap list_fmap fold_left].
    change (rbind (Ok acc) _) with (Ok (E := panic) (<[id := tt]> acc)).
    fold (fmap (M := list) VString identityIds).
    rewrite IH. f_equal.
    rewrite reverse_cons, fmap_app, list_to_map_app. cbn [fmap list_fmap list_to_map foldr].
    rewrite <- (assoc_L (∪)). f_equal.
    now rewrite insert_union_singleton_l, insert_empty.
Qed.

Lemma identity_keys (identityIds : list string) :
  ((fun id : string => (id, tt)) <$> identityIds).*1 = identityIds.
Proof.
  rewrite <- list_fmap_compose. rewrite <- (list_fmap_id identityIds) at 2.
  now apply list_fmap_ext.
Qed.

(** X16. The identity of a firewall policy: an [identity] block expands to an
    identity whose user assigned identities are exactly the block's IDs, and
    flattening it gives the block back with the IDs in some order.  No
    block at all expands to nil and flattens to the empty list; a nil block
    makes the expansion panic, for its guard looks at the length only. *)
Theorem identity_round_trip :
  (forall (type principalId tenantId : string) (identityIds : list string),
     NoDup identityIds ->
     exists identity flattenedIds,
       expandFirewallPolicyIdentity [identityBlock type principalId tenantId identityIds]
       = Ok (Some identity) /\
       (forall id, is_Some (UserAssignedIdentities identity !! id) <-> id ∈ identityIds) /\
       flattenFirewallPolicyIdentity (Some identity)
       = [identityState type principalId tenantId flattenedIds] /\
       flattenedIds ≡ₚ identityIds) /\
  (x <-! expandFirewallPolicyIdentity [] ; Ok (flattenFirewallPolicyIdentity x)) = Ok [] /\
  (forall rest, expandFirewallPolicyIdentity (VNil :: rest) = Err InterfaceConversion).
Proof.
  split; [|split; reflexivity].
  intros type principalId tenantId identityIds Hids.
  set (pairs := (fun id : string => (id, tt)) <$> reverse identityIds).
  assert (Hpairs : NoDup pairs.*1).
  { subst pairs. now rewrite identity_keys, reverse_Permutation. }
  exists {| Type_ := type; PrincipalID := Some principalId; TenantID := Some tenantId;
            UserAssignedIdentities := list_to_map pairs |},
         (map fst (map_to_list (list_to_map pairs : gmap string unit))).
  split; [|split; [|split]].
  - unfold expandFirewallPolicyIdentity, identityBlock. cbn [assertMap rbind].
    change (_ !! "user_assigned_identity_ids") with (Some (VSet (VString <$> identityIds))).
    cbn [assertSetList rbind]. rewrite identities_loop.
    now rewrite (right_id_L ∅ (∪)).
  - intros id'. cbn [UserAssignedIdentities]. rewrite <- elem_of_dom, dom_list_to_map_L.
    rewrite elem_of_list_to_set. subst pairs.
    now rewrite identity_keys, elem_of_reverse.
  - reflexivity.
  - rewrite (map_to_list_to_map _ Hpairs). change (map fst pairs) with (pairs.*1).
    subst pairs. now rewrite identity_keys, reverse_Permutation.
Qed.

Lemma identity_round_trip_witness :
  NoDup ["/identities/a"; "/identities/b"] /\
  exists identity flattenedIds,
    expandFirewallPolicyIdentity
      [identityBlock "UserAssigned" "" "" ["/identities/a"; "/identities/b"]]
    = Ok (Some identity) /\
    flattenFirewallPolicyIdentity (Some identity)
    = [identityState "UserAssigned" "" "" flattenedIds] /\
    flattenedIds ≡ₚ ["/identities/a"; "/identities/b"].
Proof.
  assert (Hids : NoDup ["/identities/a"; "/identities/b"]).
  { apply NoDup_cons. split; [|apply NoDup_singleton].
    intros Hin. apply list_elem_of_singleton in Hin. discriminate Hin. }
  split; [exact Hids|].
  destruct (proj1 identity_round_trip "UserAssigned" "" ""
              ["/identities/a"; "/identities/b"] Hids)
    as (identity & flattenedIds & Hexpand & _ & Hflatten & Hsame).
  now exists identity, flattenedIds.
Defined.

End FlattenFacts.
(** ** The Chaos SDK's paged list: failing part of the way *)

Module TargetsPagingFacts.
Import TargetsSdk TargetsPaging.

Section Client.
Context {Target ProviderId Remote : Type}.
Variable baseUri : string.
Variable Send : Request -> Remote -> Remote * (option HttpResponse * option string).
Variable ID : ProviderId -> string.
Variable defaultApiVersion : string.
Variable Encode : string -> string -> string.
Variable Prepare : Request -> result string Request.
Variable unmarshalPage : string -> result string (page (Target := Target)).
Variable urlParse : string -> result string (string * gmap string (list string)).
Variable Matches : Target -> bool.

Local Abbreviation Wire := (TargetsSdk.Wire (Remote := Remote)).
Local Abbreviation FailsAfter :=
  (TargetsPaging.FailsAfter baseUri Send Encode Prepare unmarshalPage urlParse).

(** X17. A list that fails part of the way fails as a whole.  When the
    sender fails on the request for some page, [ListCompleteMatchingPredicate]
    returns an error and no items, also when pages were loaded before: the
    error says whether it was the initial page or a next one.  Every page up
    to the failing one was asked for once, and the failing request was not
    sent again. *)
Theorem ListCompleteMatchingPredicate_fails_as_a_whole
    (fuel : nat) (id : ProviderId) (options : ListOptions) (w : Wire)
    (req : Request) (pages : list page) (s' : Remote) (requests : list Request)
    (cause : string) :
  preparerForList baseUri ID defaultApiVersion Encode Prepare id options = Ok req ->
  FailsAfter req (remote w) pages s' requests cause ->
  length pages <= fuel ->
  ListCompleteMatchingPredicate baseUri Send ID defaultApiVersion Encode Prepare
    unmarshalPage urlParse fuel id options Matches w
  = (Err (match pages with
          | [] => LoadingTheInitialPage (FailureSendingRequest cause)
          | _ :: _ => LoadingTheNextPage (FailureSendingRequest cause)
          end),
     {| remote := s'; sent := (sent w ++ requests)%list |}) /\
  length requests = S (length pages).
Proof.
  intros Hprep Hfails Hfuel. split.
  - unfold ListCompleteMatchingPredicate, List. rewrite Hprep.
    inversion Hfails as [req0 s0 s0' resp cause0 Hsend
                        | req0 next s0 s1 s0' resp p link rest requests' cause0
                            Hsend Hstatus Hbody Hlink Hnext Hrest]; subst.
    + now rewrite (TargetsSdkFacts.sendAndRespond_failure _ _ _ _ _ _ _ Hsend).
    + rewrite (TargetsSdkFacts.sendAndRespond_page _ _ _ _ _ _ _ Hsend Hstatus Hbody).
      rewrite (TargetsSdkFacts.loadRemainingPages_FailsAfter _ _ _ _ _ _ _ _ _ _ _ _ _ Hrest fuel
                 {| HttpResponse_ := Some resp; Model := Some (Values p);
                    nextLink := NextLink p |}
                 link _ {| remote := s1; sent := (sent w ++ [req])%list |}
                 Hlink Hnext eq_refl) by (simpl in Hfuel; lia).
      cbn. now rewrite <- !app_assoc.
  - clear Hprep Hfuel. induction Hfails; cbn; congruence.
Qed.

End Client.

Lemma ListCompleteMatchingPredicate_fails_as_a_whole_witness :
  ListCompleteMatchingPredicate "https://management.azure.com" MoreScenarios.onePageThenFailure
    (fun id : string => id) "2021-09-15-preview" (fun _ v => v) Ok Scenarios.pageBody
    Scenarios.parseNextLink 8 "/subscriptions/sub" DefaultListOptions (fun _ => true)
    {| remote := 0; sent := [] |}
  = (Err (LoadingTheNextPage (FailureSendingRequest "connection refused")),
     {| remote := 2; sent := [Scenarios.firstPageRequest; Scenarios.secondPageRequest] |}).
Proof.
  assert (Hfails : FailsAfter "https://management.azure.com" MoreScenarios.onePageThenFailure
                     (fun _ v => v) Ok Scenarios.pageBody Scenarios.parseNextLink
                     Scenarios.firstPageRequest 0 [Scenarios.page1] 2 [Scenarios.firstPageRequest; Scenarios.secondPageRequest]
                     "connection refused").
  { eapply FailsLater with (s1 := 1) (link := "https://management.azure.com/next?page=2");
      [reflexivity|reflexivity|reflexivity|reflexivity|reflexivity|].
    eapply FailsAtOnce. reflexivity. }
  destruct (ListCompleteMatchingPredicate_fails_as_a_whole
              "https://management.azure.com" MoreScenarios.onePageThenFailure (fun id : string => id)
              "2021-09-15-preview" (fun _ v => v) Ok Scenarios.pageBody Scenarios.parseNextLink (fun _ => true)
              8 "/subscriptions/sub" DefaultListOptions {| remote := 0; sent := [] |}
              Scenarios.firstPageRequest [Scenarios.page1] 2 [Scenarios.firstPageRequest; Scenarios.secondPageRequest]
              "connection refused" eq_refl Hfails) as [Hrun _]; [simpl; lia|].
  exact Hrun.
Defined.

End TargetsPagingFacts.
(** ** The SQL role assignment ID: distinct assignments, distinct IDs *)

Module IdFacts.
Import GoStrings CosmosParse CosmosIds.

Lemma formattedComponents_slashFree (id : SqlRoleAssigmentId) :
  slashFree id ->
  Forall (fun p => contains "/" p = false) (formattedComponents id).
Proof.
  intros (Hs & Hg & Ha & Hn). unfold formattedComponents.
  repeat (apply Forall_cons; split); try assumption; try reflexivity.
  constructor.
Qed.

(** X24. The ID formatter of the SQL role assignment tells apart any two
    assignments whose components hold no slash: equal ID strings mean equal
    components.  With a slash in a component it does not. *)
Theorem ID_is_injective :
  (forall a b : SqlRoleAssigmentId,
     slashFree a -> slashFree b -> ID a = ID b -> a = b) /\
  (exists a b : SqlRoleAssigmentId, a <> b /\ ID a = ID b).
Proof.
  split.
  - intros a b Ha Hb Heq.
    rewrite !ResourceIdFacts.ID_Join in Heq.
    assert (Hjoined : Join (formattedComponents a) "/" = Join (formattedComponents b) "/")
      by congruence.
    clear Heq. apply (f_equal (fun s => Split s "/")) in Hjoined.
    rewrite !Split_Join in Hjoined
      by (try discriminate; now apply formattedComponents_slashFree).
    rename Hjoined into Heq.
    destruct a, b. unfold formattedComponents in Heq. cbn in Heq.
    now injection Heq as -> -> -> ->.
  - exists (NewSqlRoleAssigmentID "sub" "rg" "account/sqlRoleAssignments/x" "name"),
           (NewSqlRoleAssigmentID "sub" "rg" "account" "x/sqlRoleAssignments/name").
    split; [discriminate|reflexivity].
Qed.

Lemma ID_is_injective_witness :
  slashFree Scenarios.roleAssignment0 /\
  ID Scenarios.roleAssignment0
  = ID (NewSqlRoleAssigmentID "sub" "rg" "account" "assignment1") /\
  Scenarios.roleAssignment0 = NewSqlRoleAssigmentID "sub" "rg" "account" "assignment1".
Proof.
  assert (Hfree : slashFree Scenarios.roleAssignment0) by (repeat split).
  split; [exact Hfree|]. split; [reflexivity|].
  exact (proj1 ID_is_injective Scenarios.roleAssignment0
           (NewSqlRoleAssigmentID "sub" "rg" "account" "assignment1") Hfree Hfree eq_refl).
Defined.

End IdFacts.
(** ** The SQL managed instance: create and update *)

Module SqlManagedInstanceResourceFacts.
Import GoValue Rest RestFacts SqlManagedInstanceResource.

Section Resource.
Context {UUID Properties Future Remote : Type}.
Variable FromString : string -> UUID.
Variable get : string -> string -> Remote -> Remote * Sdk.Response ManagedInstance.
Variable createOrUpdate :
  string -> string -> ManagedInstanceParameters UUID Properties ->
  Remote -> Remote * (Future * option string).
Variable azureADOnlyAuthenticationsDelete :
  string -> string -> Remote -> Remote * (Future * option string).
Variable administratorsCreateOrUpdate :
  string -> string -> ManagedInstanceAdministrator UUID ->
  Remote -> Remote * (Future * option string).
Variable azureADOnlyAuthenticationsCreateOrUpdate :
  string -> string -> option bool -> Remote -> Remote * (Future * option string).
Variable administratorsDelete :
  string -> string -> Remote -> Remote * (Future * option string).
Variable waitForCompletionRef : Future -> Remote -> Remote * option string.
Variable Response : Future -> option Z.
Variable IDString : ManagedInstanceId -> string.
Variable String_ : ManagedInstanceId -> string.
Variable Quote : string -> string.
Variable IsNewResource : Sdk.ResourceData -> bool.
Variable HasChange : Sdk.ResourceData -> string -> bool.
Variable blocks : Sdk.ResourceData -> string -> list value.
Variable expandProperties : Sdk.ResourceData -> Properties.
Variable Expand : list value -> result string string.
Variable resourceArmSqlMiServerRead :
  M (CallRecord UUID Properties Future) Remote failure unit.

Local Abbreviation World := (Rest.World (CallRecord UUID Properties Future) Remote).
Local Abbreviation CreateUpdate :=
  (resourceArmSqlMiServerCreateUpdate FromString get createOrUpdate
     azureADOnlyAuthenticationsDelete administratorsCreateOrUpdate
     azureADOnlyAuthenticationsCreateOrUpdate administratorsDelete waitForCompletionRef
     Response IDString String_ Quote IsNewResource HasChange blocks expandProperties Expand
     resourceArmSqlMiServerRead).


(** X18. A SKU name that [expandManagedInstanceSkuName] rejects stops the
    create and update of a SQL managed instance before anything is written:
    the function fails, the resource data are as before, and the only call
    that may have been issued is the Get of the existence check, which is
    issued exactly when the resource is new.  On an update the error is the
    one of the SKU name. *)
Theorem sku_name_is_checked_before_any_write (subscriptionId : string) (w : World)
    (cause : SqlManagedInstance.error) :
  SqlManagedInstance.expandManagedInstanceSkuName (Sdk.attribute (data w) "sku_name")
  = Err cause ->
  let resGroup := Sdk.attribute (data w) "resource_group_name" in
  let name := Sdk.attribute (data w) "name" in
  let id := NewManagedInstanceID subscriptionId resGroup name in
  let run := CreateUpdate subscriptionId w in
  (exists err, fst run = Err err) /\
  snd run = (if IsNewResource (data w) then afterCall (get resGroup name) (Get resGroup name) w
             else w) /\
  (IsNewResource (data w) = false ->
   fst run = Err (ExpandingSkuName
                    ("error expanding `sku_name` for SQL Managed Instance Server "
                     +:+ Quote (IDString id)) cause)).
Proof.
  intros Hsku resGroup name id run.
  remember run as result eqn:Hrun. subst run.
  unfold resourceArmSqlMiServerCreateUpdate in Hrun.
  rewrite !bind_GetAttribute in Hrun. fold name in Hrun. fold resGroup in Hrun.
  unfold GetData in Hrun. unfold bind at 1 in Hrun. cbn beta iota in Hrun.
  fold id in Hrun.
  destruct (IsNewResource (data w)) eqn:Hnew.
  - rewrite bind_bind, bind_call in Hrun.
    set (existing := answer _ w) in *. set (w1 := afterCall _ _ w) in *.
    rewrite bind_bind in Hrun.
    destruct (Sdk.Failure existing) as [err|];
      [destruct (Sdk.WasNotFound (Sdk.HttpResponse existing)); cbn [negb] in Hrun|];
      try (rewrite bind_fail in Hrun; subst result; cbn;
           split; [eauto|split; [reflexivity|discriminate]]);
      rewrite bind_ret in Hrun;
      (destruct (existingID existing) as [existingId|];
       [destruct (String.eqb existingId ""); cbn [negb] in Hrun|]);
      try (rewrite bind_fail in Hrun; subst result; cbn;
           split; [eauto|split; [reflexivity|discriminate]]);
      rewrite bind_ret, bind_GetAttribute in Hrun;
      change (data w1) with (data w) in Hrun; rewrite Hsku in Hrun;
      subst result; cbn; (split; [eauto|split; [reflexivity|discriminate]]).
  - rewrite bind_ret, bind_GetAttribute, Hsku in Hrun. subst result. cbn.
    split; [eauto|]. split; [reflexivity|]. reflexivity.
Qed.

Lemma calls_afterCall {A : Type} (method : Remote -> Remote * A)
    (record : A -> CallRecord UUID Properties Future) (w : World) :
  calls (afterCall method record w) = (calls w ++ [record (answer method w)])%list.
Proof. reflexivity. Qed.

Ltac located H :=
  unfold fail in H;
  lazymatch type of H with
  | _ = (Err _, ?W) => eexists; exists W
  | _ = resourceArmSqlMiServerRead (withId _ ?W) => eexists; exists W
  end;
  split;
  [ rewrite ?calls_afterCall;
    repeat match goal with Heq : answer _ _ = _ |- _ => rewrite Heq end;
    cbn beta iota; rewrite <- ?app_assoc; cbn [app];
    first [reflexivity | symmetry; apply app_nil_r]
  | split; [reflexivity|split; [first [left; exact H | right; eexists; exact H]|]] ].

Ltac located_outcome H :=
  unfold fail in H;
  lazymatch type of H with
  | _ = (Err ?e, ?W) => eexists; exists W, (Some e)
  | _ = resourceArmSqlMiServerRead (withId _ ?W) => eexists; exists W, None
  end;
  split;
  [ rewrite ?calls_afterCall;
    repeat match goal with Heq : answer _ _ = _ |- _ => rewrite Heq end;
    cbn beta iota; rewrite <- ?app_assoc; cbn [app];
    first [reflexivity | symmetry; apply app_nil_r]
  | split; [reflexivity|split; [exact H|]] ].

Ltac found :=
  intros;
  repeat match goal with
         | H : Ok _ = Ok _ |- _ => first [discriminate H | injection H as H | clear H]
         end;
  subst; eexists; split; cbn [In]; repeat first [left; reflexivity | right].

Ltac member :=
  repeat match goal with
         | H : In _ [] |- _ => destruct H
         | H : In _ (_ :: _) |- _ => destruct H as [H|H]; [try discriminate H|]
         | H : CreateOrUpdate _ _ _ _ _ = CreateOrUpdate _ _ _ _ _ |- _ =>
             injection H as <- <- <- <- <-
         | H : AdministratorsCreateOrUpdate _ _ _ _ _ = AdministratorsCreateOrUpdate _ _ _ _ _
           |- _ => injection H as <- <- <- <- <-
         | H : AzureADOnlyAuthenticationsCreateOrUpdate _ _ _ _ _
               = AzureADOnlyAuthenticationsCreateOrUpdate _ _ _ _ _ |- _ =>
             injection H as <- <- <- <- <-
         | H : AdministratorsDelete _ _ _ _ = AdministratorsDelete _ _ _ _ |- _ =>
             injection H as <- <- <- <-
         end.

Ltac step H :=
  first
  [ rewrite bind_ret in H
  | rewrite bind_fail in H
  | rewrite bind_GetAttribute in H
  | rewrite bind_SetId in H; cbv beta in H
  | rewrite bind_call in H; cbv beta in H
  | rewrite bind_bind in H
  | progress unfold orPanic, wait in H
  | match type of H with
    | context [bind (match snd ?a with _ => _ end) _ _] =>
        destruct a as [? [?|]] eqn:?; cbn [fst snd] in H
    | context [bind (match ?x with _ => _ end) _ _] => destruct x eqn:?
    | context [bind (if ?x then _ else _) _ _] => destruct x eqn:?
    end
  | match type of H with
    | _ = match snd ?a with _ => _ end _ =>
        destruct a as [? [?|]] eqn:?; cbn [fst snd] in H
    | _ = match ?x with _ => _ end _ => destruct x eqn:?
    | _ = (if ?x then _ else _) _ => destruct x eqn:?
    end ].

(** X20. Updating a SQL managed instance never puts the administrator into
    the instance's own parameters.  The administrators client and the Azure
    AD only authentications client are called only when
    [azuread_administrator] has changed, and then only after the instance
    was written and waited for without error, and after the deletion of the
    Azure AD only authentication was requested.  The administrator is
    created when a block is configured and deleted when none is: a run that
    gets as far as the final read with [azuread_administrator] changed has
    created the configured administrator, or deleted the administrator when
    none is configured, and has waited for that without error; with the
    flag set it has then switched on Azure AD only authentication.  Azure AD
    only authentication is switched on only with the flag set, after the
    administrator was created and that creation was waited for. *)
Theorem update_sets_the_administrator_through_its_own_client (subscriptionId : string)
    (w : World) :
  IsNewResource (data w) = false ->
  let resGroup := Sdk.attribute (data w) "resource_group_name" in
  let name := Sdk.attribute (data w) "name" in
  let id := NewManagedInstanceID subscriptionId resGroup name in
  let configured := blocks (data w) "azuread_administrator" in
  let run := CreateUpdate subscriptionId w in
  exists issued w' outcome,
    calls w' = (calls w ++ issued)%list /\
    data w' = data w /\
    run = match outcome with
          | None => resourceArmSqlMiServerRead (withId (IDString id) w')
          | Some err => (Err err, w')
          end /\
    (forall rg n parameters future err,
       In (CreateOrUpdate rg n parameters future err) issued ->
       Administrators parameters = None) /\
    (HasChange (data w) "azuread_administrator" = false ->
     Forall (fun c => administratorCall c = false) issued) /\
    (forall rg n administrator future err,
       In (AdministratorsCreateOrUpdate rg n administrator future err) issued ->
       expandMsSqlInstanceAdministrator FromString configured = Ok (Some administrator)) /\
    (forall rg n future err,
       In (AdministratorsDelete rg n future err) issued ->
       expandMsSqlInstanceAdministrator FromString configured = Ok None) /\
    (forall rg n flag future err,
       In (AzureADOnlyAuthenticationsCreateOrUpdate rg n flag future err) issued ->
       flag = Some true /\
       expandMsSqlInstanceAADOnlyAuthentictions configured = Ok true /\
       exists administrator created,
         In (AdministratorsCreateOrUpdate rg n administrator created None) issued /\
         In (WaitForCompletionRef created None) issued) /\
    (forall c, In c issued -> administratorCall c = true ->
       exists parameters written deleted err,
         In (CreateOrUpdate resGroup name parameters written None) issued /\
         In (WaitForCompletionRef written None) issued /\
         In (AzureADOnlyAuthenticationsDelete resGroup name deleted err) issued) /\
    (outcome = None ->
     HasChange (data w) "azuread_administrator" = true ->
     (forall administrator,
        expandMsSqlInstanceAdministrator FromString configured = Ok (Some administrator) ->
        exists created,
          In (AdministratorsCreateOrUpdate resGroup name administrator created None) issued /\
          In (WaitForCompletionRef created None) issued) /\
     (expandMsSqlInstanceAdministrator FromString configured = Ok None ->
      exists deleted,
        In (AdministratorsDelete resGroup name deleted None) issued /\
        In (WaitForCompletionRef deleted None) issued) /\
     (forall administrator,
        expandMsSqlInstanceAdministrator FromString configured = Ok (Some administrator) ->
        expandMsSqlInstanceAADOnlyAuthentictions configured = Ok true ->
        exists enabled,
          In (AzureADOnlyAuthenticationsCreateOrUpdate resGroup name (Some true) enabled
                None) issued /\
          In (WaitForCompletionRef enabled None) issued)).
Proof.
  intros Hnew resGroup name id configured run.
  remember run as result eqn:Hrun. subst run.
  unfold resourceArmSqlMiServerCreateUpdate in Hrun.
  rewrite !bind_GetAttribute in Hrun. fold name in Hrun. fold resGroup in Hrun.
  unfold GetData in Hrun. unfold bind at 1 in Hrun. cbn beta iota in Hrun.
  fold id in Hrun. fold configured in Hrun. rewrite Hnew in Hrun.
  cbn [andb negb] in Hrun. rewrite andb_true_r in Hrun.
  rewrite bind_ret, bind_GetAttribute in Hrun.
  repeat step Hrun.
  all: located_outcome Hrun.
  all: repeat apply conj; intros; member; try reflexivity; try congruence;
    try (repeat constructor; fail).
  all: try (match goal with
            | |- (forall _, _ -> exists _, _) /\ _ => repeat apply conj; found
            end).
  all: try (repeat split; eexists _, _;
            split; cbn [In]; repeat first [left; reflexivity | right]).
  all: subst; cbn [administratorCall] in *; try discriminate.
  all: eexists _, _, _, _; repeat split; cbn [In];
    repeat first [left; reflexivity | right].
Qed.

Lemma expandMsSqlInstanceAdministrators_flag (input : list value)
    (administrator : ManagedInstanceExternalAdministrator UUID) :
  expandMsSqlInstanceAdministrators FromString input = Ok (Some administrator) ->
  AzureADOnlyAuthentication administrator = None.
Proof.
  unfold expandMsSqlInstanceAdministrators.
  destruct (emptyOrNil input); [discriminate|].
  destruct (assertMap (hd VNil input)) as [admin|]; [cbn|discriminate].
  destruct (assertString (index admin "object_id")) as [objectId|]; [cbn|discriminate].
  destruct (assertString (index admin "login_username")) as [login|]; [cbn|discriminate].
  destruct (match admin !! "tenant_id" with
            | Some v =>
                if negb (isEmptyString v) then
                  v <-! assertString v ; Ok (Some (FromString v))
                else Ok None
            | None => Ok None
            end) as [tenantId|]; [cbn|discriminate].
  now intros [= <-].
Qed.

Ltac booleans :=
  repeat match goal with
         | H : negb _ = false |- _ => apply negb_false_iff in H
         | H : negb _ = true |- _ => apply negb_true_iff in H
         | H : String.eqb _ _ = true |- _ => apply String.eqb_eq in H; subst
         end.




End Resource.

Lemma sku_name_is_checked_before_any_write_witness :
  MoreScenarios.instanceCreateUpdate false false [] "sub"
    (MoreScenarios.instanceStart MoreScenarios.instanceConfig)
  = (Err (ExpandingSkuName
            ("error expanding `sku_name` for SQL Managed Instance Server "
             +:+ MoreScenarios.quoted
                   (MoreScenarios.managedInstanceID
                      (NewManagedInstanceID "sub" "rg" "instance1")))
            (SqlManagedInstance.WrongNumberOfParts "GP" 1)),
     MoreScenarios.instanceStart MoreScenarios.instanceConfig).
Proof.
  destruct (sku_name_is_checked_before_any_write
              (fun s : string => s)
              (fun _ _ n => (S n, Scenarios.notFound))
              (fun _ _ _ => MoreScenarios.succeeds) (fun _ _ => MoreScenarios.succeeds)
              (fun _ _ _ => MoreScenarios.succeeds) (fun _ _ _ => MoreScenarios.succeeds)
              (fun _ _ => MoreScenarios.succeeds)
              (fun _ n => (S n, None))
              (fun _ => Some 200%Z)
              MoreScenarios.managedInstanceID MoreScenarios.managedInstanceID
              MoreScenarios.quoted
              (fun _ => false) (fun _ _ => false) (MoreScenarios.administratorOnly [])
              (fun _ : Sdk.ResourceData => tt) (fun _ => Ok "SystemAssigned")
              (Rest.ret tt)
              "sub" (MoreScenarios.instanceStart MoreScenarios.instanceConfig)
              (SqlManagedInstance.WrongNumberOfParts "GP" 1) eq_refl)
    as (_ & Hworld & Herror).
  specialize (Herror eq_refl). cbv zeta in Hworld, Herror.
  unfold MoreScenarios.instanceCreateUpdate.
  apply injective_projections; [exact Herror|exact Hworld].
Defined.


Lemma update_sets_the_administrator_through_its_own_client_witness :
  fst (MoreScenarios.instanceCreateUpdate false true MoreScenarios.administrator0 "sub"
         (MoreScenarios.instanceStart MoreScenarios.instanceConfigGen5)) = Ok tt /\
  exists created enabled,
    In (AdministratorsCreateOrUpdate "rg" "instance1"
          {| AdministratorType_ := Some "ActiveDirectory";
             Login_ := Some "admin";
             Sid_ := Some "00000000-0000-0000-0000-000000000001";
             TenantID_ := None |} created None)
      (calls (snd (MoreScenarios.instanceCreateUpdate false true
                     MoreScenarios.administrator0 "sub"
                     (MoreScenarios.instanceStart MoreScenarios.instanceConfigGen5)))) /\
    In (AzureADOnlyAuthenticationsCreateOrUpdate "rg" "instance1" (Some true) enabled None)
      (calls (snd (MoreScenarios.instanceCreateUpdate false true
                     MoreScenarios.administrator0 "sub"
                     (MoreScenarios.instanceStart MoreScenarios.instanceConfigGen5)))).
Proof.
  assert (Hok : fst (MoreScenarios.instanceCreateUpdate false true
                       MoreScenarios.administrator0 "sub"
                       (MoreScenarios.instanceStart MoreScenarios.instanceConfigGen5))
                = Ok tt) by (vm_compute; reflexivity).
  split; [exact Hok|].
  destruct (update_sets_the_administrator_through_its_own_client
              (fun s : string => s)
              (fun _ _ n => (S n, Scenarios.notFound))
              (fun _ _ _ => MoreScenarios.succeeds) (fun _ _ => MoreScenarios.succeeds)
              (fun _ _ _ => MoreScenarios.succeeds) (fun _ _ _ => MoreScenarios.succeeds)
              (fun _ _ => MoreScenarios.succeeds)
              (fun _ n => (S n, None))
              (fun _ => Some 200%Z)
              MoreScenarios.managedInstanceID MoreScenarios.managedInstanceID
              MoreScenarios.quoted
              (fun _ => false) (fun _ _ => true)
              (MoreScenarios.administratorOnly MoreScenarios.administrator0)
              (fun _ : Sdk.ResourceData => tt) (fun _ => Ok "SystemAssigned")
              (Rest.ret tt)
              "sub" (MoreScenarios.instanceStart MoreScenarios.instanceConfigGen5) eq_refl)
    as (issued & w' & outcome & Hcalls & _ & Hrun & _ & _ & _ & _ & _ & _ & Hdone).
  unfold MoreScenarios.instanceCreateUpdate in Hok |- *.
  cbv zeta in Hrun. rewrite Hrun in Hok |- *.
  destruct outcome as [err|]; [discriminate Hok|].
  destruct (Hdone eq_refl eq_refl) as (Hcreated & _ & Henabled).
  destruct (Hcreated _ eq_refl) as (created & Hcreate & _).
  destruct (Henabled _ eq_refl eq_refl) as (enabled & Henable & _).
  exists created, enabled.
  cbn [snd ret calls withId]. rewrite Hcalls. cbn [MoreScenarios.instanceStart calls app].
  split; [exact Hcreate|exact Henable].
Defined.

End SqlManagedInstanceResourceFacts.

Module SqlManagedInstanceAdministratorFacts.
Import GoValue SqlManagedInstanceResource.

Section Administrators.
Context {UUID : Type}.
Variable FromString : string -> UUID.
Variable UUIDString : UUID -> string.

(** X21. An [azuread_administrator] block expands without a panic, and what
    it expands to flattens back to the block with the login as configured,
    the object ID and the tenant ID as the UUID library prints what it
    parsed (an empty tenant ID stays empty), and the Azure AD only flag
    false whatever was configured: the flag is not part of the expanded
    administrator and is read by [expandMsSqlInstanceAADOnlyAuthentictions]
    alone.  Both expansions of the administrator agree on login, object ID
    and tenant ID. *)
Theorem administrator_reads_back_without_the_AAD_only_flag
    (loginUsername objectId tenantId : string) (azureadAuthenticationOnly : bool) :
  let configured :=
    [administratorBlock loginUsername objectId tenantId azureadAuthenticationOnly] in
  exists external administrator,
    expandMsSqlInstanceAdministrators FromString configured = Ok (Some external) /\
    flatternMsSqlInstanceAdministrators UUIDString external
    = [administratorBlock loginUsername (UUIDString (FromString objectId))
         (if String.eqb tenantId "" then "" else UUIDString (FromString tenantId))
         false] /\
    expandMsSqlInstanceAADOnlyAuthentictions configured = Ok azureadAuthenticationOnly /\
    expandMsSqlInstanceAdministrator FromString configured = Ok (Some administrator) /\
    Login_ administrator = Login external /\
    Sid_ administrator = Sid external /\
    TenantID_ administrator = TenantID external /\
    AdministratorType_ administrator = Some (AdministratorType external).
Proof.
  cbv zeta.
  unfold expandMsSqlInstanceAdministrators, expandMsSqlInstanceAdministrator,
    expandMsSqlInstanceAADOnlyAuthentictions, administratorBlock.
  cbn [emptyOrNil hd assertMap rbind].
  change (index _ "object_id") with (VString objectId).
  change (index _ "login_username") with (VString loginUsername).
  change (_ !! "tenant_id") with (Some (VString tenantId)).
  change (_ !! "azuread_authentication_only") with (Some (VBool azureadAuthenticationOnly)).
  cbn [assertString assertBool rbind isEmptyString isNil negb].
  destruct (String.eqb tenantId ""); cbn [negb rbind assertString];
    do 2 eexists; repeat split.
Qed.

End Administrators.
End SqlManagedInstanceAdministratorFacts.
(** ** The host keys of a function app: writing and deleting *)

Module FunctionAppHostKeysFacts.
Import GoValue Rest RestFacts FunctionAppHostKeysResource.

Section Resource.
Context {Remote : Type}.
Variable createOrUpdateHostSecret :
  string -> string -> string -> string -> option string -> Remote -> Remote * option string.
Variable deleteHostSecret :
  string -> string -> string -> string -> Remote -> Remote * (option Z * option string).
Variable mapAttribute : Sdk.ResourceData -> string -> gmap string value.
Variable HasChange : Sdk.ResourceData -> string -> bool.
Variable GetChange : Sdk.ResourceData -> string -> gmap string value * gmap string value.
Variable FunctionAppID : string -> string -> string -> string.
Variable Quote : string -> string.
Variable resourceFunctionAppHostKeysRead : M CallRecord Remote failure unit.

Local Abbreviation World := (Rest.World CallRecord Remote).

(** The loop of the delete function: it goes through the keys in order and
    stops at the first failure that is not a 404. *)
Lemma deleteHostSecrets_run (resourceGroup name : string) (keys : list string) (w : World) :
  let run := deleteHostSecrets deleteHostSecret Quote resourceGroup name keys w in
  exists issued,
    calls (snd run) = (calls w ++ issued)%list /\
    data (snd run) = data w /\
    keyName <$> issued `prefix_of` keys /\
    Forall (fun c => exists res err,
              c = DeleteHostSecret resourceGroup name "functionKeys" (keyName c) res err)
      issued /\
    (fst run = Ok tt <->
     keyName <$> issued = keys /\ Forall (fun c => tolerated c = true) issued) /\
    (forall c, In c issued -> tolerated c = false ->
       exists before err,
         issued = (before ++ [c])%list /\
         fst run = Err (removing Quote (keyName c) name resourceGroup err)).
Proof.
  revert w. induction keys as [|key keys IH]; intros w; cbv zeta.
  - exists []. cbn. rewrite app_nil_r. repeat split; auto using prefix_nil.
    intros c [].
  - cbn [deleteHostSecrets]. rewrite bind_call.
    set (delete := deleteHostSecret resourceGroup name "functionKeys" key).
    set (deleted := fun _ : option Z * option string => _).
    set (w1 := afterCall delete deleted w).
    destruct (answer delete w) as [res err] eqn:Hanswer. cbn [fst snd].
    assert (Hcalls : calls w1
                     = (calls w ++ [DeleteHostSecret resourceGroup name "functionKeys" key
                                      res err])%list).
    { subst w1 deleted. cbn [calls afterCall]. now rewrite Hanswer. }
    assert (Hnext : tolerated (DeleteHostSecret resourceGroup name "functionKeys" key res err)
                    = true ->
              let run := deleteHostSecrets deleteHostSecret Quote resourceGroup name keys w1 in
              exists issued,
                calls (snd run) = (calls w ++ issued)%list /\
                data (snd run) = data w /\
                keyName <$> issued `prefix_of` key :: keys /\
                Forall (fun c => exists res err,
                          c = DeleteHostSecret resourceGroup name "functionKeys" (keyName c)
                                res err) issued /\
                (fst run = Ok tt <->
                 keyName <$> issued = key :: keys /\
                 Forall (fun c => tolerated c = true) issued) /\
                (forall c, In c issued -> tolerated c = false ->
                   exists before err,
                     issued = (before ++ [c])%list /\
                     fst run = Err (removing Quote (keyName c) name resourceGroup err))).
    { intros Htolerated. cbv zeta.
      destruct (IH w1) as (issued & Hissued & Hdata & Hprefix & Hshape & Hok & Hlast).
      exists (DeleteHostSecret resourceGroup name "functionKeys" key res err :: issued).
      split; [rewrite Hissued, Hcalls; now rewrite <- app_assoc|].
      split; [exact Hdata|].
      split; [cbn; now apply prefix_cons|].
      split; [constructor; [cbn; eauto|exact Hshape]|].
      split.
      - rewrite Hok. cbn [fmap list_fmap keyName]. split.
        + intros [-> Hall]. split; [reflexivity|]. now constructor.
        + intros [[= Hkeys] Hall]. apply Forall_cons in Hall as [_ Hall]. auto.
      - intros c [<-|Hin] Hfailed; [congruence|].
        destruct (Hlast c Hin Hfailed) as (before & cause & -> & Hrun).
        exists (DeleteHostSecret resourceGroup name "functionKeys" key res err :: before),
               cause.
        split; [reflexivity|exact Hrun]. }
    destruct err as [err|].
    + destruct (Sdk.WasNotFound res) eqn:Hnf.
      * apply Hnext. cbn. exact Hnf.
      * exists [DeleteHostSecret resourceGroup name "functionKeys" key res (Some err)].
        cbn [fst snd fail]. split; [exact Hcalls|]. split; [reflexivity|].
        split; [cbn; apply prefix_cons, prefix_nil|].
        split; [repeat constructor; cbn; eauto|].
        split; [split; [discriminate|]|].
        -- intros [_ Hall]. apply Forall_cons in Hall as [Hall _]. cbn in Hall. congruence.
        -- intros c [<-|[]] _. exists [], err. split; reflexivity.
    + apply Hnext. reflexivity.
Qed.

(** X22. Deleting the host keys of a function app issues delete calls only,
    one per key of the [host_keys] map and no key twice, and leaves the
    resource data alone.  A delete that fails with a 404 is passed over;
    any other failure ends the run: the failed call is the last one issued
    and its error is returned.  It succeeds exactly when every key of the
    map was asked to be deleted and no call failed with anything but a
    404. *)
Theorem Delete_removes_every_host_key (w : World) :
  let resourceGroup := Sdk.attribute (data w) "resource_group_name" in
  let name := Sdk.attribute (data w) "name" in
  let keys := mapAttribute (data w) "host_keys" in
  let run := resourceFunctionAppHostKeysDelete deleteHostSecret mapAttribute Quote w in
  exists issued,
    calls (snd run) = (calls w ++ issued)%list /\
    data (snd run) = data w /\
    NoDup (keyName <$> issued) /\
    Forall (fun c =>
              is_Some (keys !! keyName c) /\
              exists res err,
                c = DeleteHostSecret resourceGroup name "functionKeys" (keyName c) res err)
      issued /\
    (fst run = Ok tt <->
     (forall key, is_Some (keys !! key) -> key ∈ keyName <$> issued) /\
     Forall (fun c => tolerated c = true) issued) /\
    (forall c, In c issued -> tolerated c = false ->
       exists before err,
         issued = (before ++ [c])%list /\
         fst run = Err (removing Quote (keyName c) name resourceGroup err)).
Proof.
  intros resourceGroup name keys run.
  assert (Hkeys : forall key, key ∈ (map_to_list keys).*1 <-> is_Some (keys !! key)).
  { intros key. rewrite <- elem_of_dom, dom_alt. now rewrite elem_of_list_to_set. }
  assert (Hnodup : NoDup (map_to_list keys).*1) by apply NoDup_fst_map_to_list.
  destruct (deleteHostSecrets_run resourceGroup name (map_to_list keys).*1 w)
    as (issued & Hcalls & Hdata & [rest Hprefix] & Hshape & Hok & Hlast).
  exists issued. split; [exact Hcalls|]. split; [exact Hdata|].
  rewrite Hprefix in Hnodup. apply NoDup_app in Hnodup as (Hnames & Hdisjoint & _).
  split; [exact Hnames|]. split.
  - apply Forall_forall. intros c Hc. split.
    + apply Hkeys. rewrite Hprefix. apply elem_of_app. left.
      apply list_elem_of_fmap. now exists c.
    + rewrite Forall_forall in Hshape. now apply Hshape.
  - split; [|exact Hlast].
    change (fst run = Ok tt) with
      (fst (deleteHostSecrets deleteHostSecret Quote resourceGroup name
              (map_to_list keys).*1 w) = Ok tt).
    rewrite Hok. split; intros [Hall Htolerated]; (split; [|exact Htolerated]).
    + intros key Hkey. rewrite Hall. now apply Hkeys.
    + destruct rest as [|key rest]; [now rewrite app_nil_r in Hprefix|].
      exfalso. apply (Hdisjoint key).
      * apply Hall, Hkeys. rewrite Hprefix. apply elem_of_app. right. left.
      * left.
Qed.

(** The first loop of the create and update function. *)
Lemma updateHostSecrets_run (resourceGroup name : string) (input : list (string * value))
    (w : World) :
  let run := updateHostSecrets createOrUpdateHostSecret Quote resourceGroup name input w in
  exists issued,
    calls (snd run) = (calls w ++ issued)%list /\
    data (snd run) = data w /\
    Forall (fun c => exists k v err,
              c = CreateOrUpdateHostSecret resourceGroup name "functionKeys" k (Some v) err /\
              (k, VString v) ∈ input) issued /\
    (fst run = Ok tt ->
     forall k v, (k, v) ∈ input ->
     exists s, v = VString s /\
               CreateOrUpdateHostSecret resourceGroup name "functionKeys" k (Some s) None
               ∈ issued).
Proof.
  revert w. induction input as [|[k v] input IH]; intros w; cbv zeta.
  - exists []. cbn. rewrite app_nil_r. repeat split; auto.
    intros _ k v Hin. inversion Hin.
  - cbn [updateHostSecrets].
    destruct v as [|s| | | | |];
      try (exists []; cbn; rewrite app_nil_r; repeat split; auto; discriminate).
    cbn [assertString]. rewrite bind_call.
    set (write := createOrUpdateHostSecret resourceGroup name "functionKeys" k (Some s)).
    set (written := CreateOrUpdateHostSecret resourceGroup name "functionKeys" k (Some s)).
    set (w1 := afterCall write written w).
    destruct (answer write w) as [err|] eqn:Hanswer.
    + exists [written (Some err)]. cbn [fst snd fail].
      split; [subst w1; cbn [calls afterCall]; now rewrite Hanswer|].
      split; [reflexivity|]. split; [|discriminate].
      repeat constructor. exists k, s, (Some err). split; [reflexivity|left].
    + destruct (IH w1) as (issued & Hissued & Hdata & Hshape & Hok).
      exists (written None :: issued).
      split; [rewrite Hissued; subst w1; cbn [calls afterCall];
              rewrite Hanswer; now rewrite <- app_assoc|].
      split; [exact Hdata|]. split.
      * constructor; [exists k, s, None; split; [reflexivity|left]|].
        eapply Forall_impl; [exact Hshape|].
        intros c (k' & v' & err & -> & Hin). exists k', v', err. split; [reflexivity|].
        now right.
      * intros Hrun k' v' Hin. apply elem_of_cons in Hin as [[= -> ->]|Hin].
        -- exists s. split; [reflexivity|left].
        -- destruct (Hok Hrun k' v' Hin) as (s' & -> & Hwritten).
           exists s'. split; [reflexivity|now right].
Qed.

(** Its second loop. *)
Lemma deleteRemovedKeys_run (resourceGroup name : string) (newKeys : gmap string value)
    (old : list string) (w : World) :
  let run := deleteRemovedKeys deleteHostSecret Quote resourceGroup name newKeys old w in
  exists issued,
    calls (snd run) = (calls w ++ issued)%list /\
    data (snd run) = data w /\
    Forall (fun c => exists k res err,
              c = DeleteHostSecret resourceGroup name "functionKeys" k res err /\
              k ∈ old /\ removedFrom newKeys k = Ok true) issued.
Proof.
  revert w. induction old as [|oldKey old IH]; intros w; cbv zeta.
  - exists []. cbn. rewrite app_nil_r. repeat split; auto.
  - cbn [deleteRemovedKeys].
    assert (Hnext : forall w1 before,
              calls w1 = (calls w ++ before)%list -> data w1 = data w ->
              Forall (fun c => exists k res err,
                        c = DeleteHostSecret resourceGroup name "functionKeys" k res err /\
                        k ∈ oldKey :: old /\ removedFrom newKeys k = Ok true) before ->
              let run := deleteRemovedKeys deleteHostSecret Quote resourceGroup name newKeys
                           old w1 in
              exists issued,
                calls (snd run) = (calls w ++ issued)%list /\
                data (snd run) = data w /\
                Forall (fun c => exists k res err,
                          c = DeleteHostSecret resourceGroup name "functionKeys" k res err /\
                          k ∈ oldKey :: old /\ removedFrom newKeys k = Ok true) issued).
    { intros w1 before Hbefore Hdata1 Hshape1. cbv zeta.
      destruct (IH w1) as (issued & Hissued & Hdata & Hshape).
      exists (before ++ issued)%list.
      split; [rewrite Hissued, Hbefore; now rewrite <- app_assoc|].
      split; [now rewrite Hdata|].
      apply Forall_app. split; [exact Hshape1|].
      eapply Forall_impl; [exact Hshape|].
      intros c (k & res & err & -> & Hin & Hremoved). exists k, res, err.
      split; [reflexivity|]. split; [now right|exact Hremoved]. }
    destruct (removedFrom newKeys oldKey) as [[|]|p] eqn:Hremoved.
    + rewrite bind_call.
      set (delete := deleteHostSecret resourceGroup name "functionKeys" oldKey).
      set (deleted := fun _ : option Z * option string => _).
      set (w1 := afterCall delete deleted w).
      destruct (answer delete w) as [res err] eqn:Hanswer. cbn [fst snd].
      assert (Hcalls : calls w1
                       = (calls w ++ [DeleteHostSecret resourceGroup name "functionKeys"
                                        oldKey res err])%list).
      { subst w1 deleted. cbn [calls afterCall]. now rewrite Hanswer. }
      assert (Hshape : Forall (fun c => exists k res err,
                          c = DeleteHostSecret resourceGroup name "functionKeys" k res err /\
                          k ∈ oldKey :: old /\ removedFrom newKeys k = Ok true)
                         [DeleteHostSecret resourceGroup name "functionKeys" oldKey res err]).
      { repeat constructor. exists oldKey, res, err. split; [reflexivity|].
        split; [left|exact Hremoved]. }
      destruct err as [err|]; [destruct (Sdk.WasNotFound res)|];
        try (apply (Hnext w1 _ Hcalls eq_refl Hshape)).
      eexists. cbn [fst snd fail]. split; [exact Hcalls|]. split; [reflexivity|exact Hshape].
    + apply (Hnext w []); [now rewrite app_nil_r|reflexivity|constructor].
    + exists []. cbn. rewrite app_nil_r. repeat split; auto.
Qed.

(** X23. Creating or updating the host keys calls the API only when
    [host_keys] has changed.  Every key it writes is a key of the configured
    map, with the string configured for it.  It deletes a key only if the
    key is in the old map and the new map leaves it out or gives it the
    empty string, so a key with a value is never deleted; and it deletes
    only after every configured key was written without error. *)
Theorem CreateUpdate_deletes_only_removed_keys (subscriptionId : string) (w : World) :
  let resourceGroup := Sdk.attribute (data w) "resource_group_name" in
  let name := Sdk.attribute (data w) "name" in
  let input := mapAttribute (data w) "host_keys" in
  let old := fst (GetChange (data w) "host_keys") in
  let new := snd (GetChange (data w) "host_keys") in
  let run := resourceFunctionAppHostKeysCreateUpdate createOrUpdateHostSecret
               deleteHostSecret mapAttribute HasChange GetChange FunctionAppID Quote
               resourceFunctionAppHostKeysRead subscriptionId w in
  exists issued w',
    calls w' = (calls w ++ issued)%list /\
    data w' = data w /\
    (run = resourceFunctionAppHostKeysRead
             (withId (FunctionAppID subscriptionId resourceGroup name) w') \/
     exists err, run = (Err err, w')) /\
    (HasChange (data w) "host_keys" = false -> issued = []) /\
    (forall rg n t k v err,
       In (CreateOrUpdateHostSecret rg n t k v err) issued ->
       exists s, v = Some s /\ input !! k = Some (VString s)) /\
    (forall rg n t k res err,
       In (DeleteHostSecret rg n t k res err) issued ->
       is_Some (old !! k) /\
       (index new k = VNil \/ index new k = VString "") /\
       forall k' v', input !! k' = Some v' ->
         exists s, v' = VString s /\
                   In (CreateOrUpdateHostSecret rg n t k' (Some s) None) issued).
Proof.
  intros resourceGroup name input old new run.
  remember run as result eqn:Hrun. subst run.
  unfold resourceFunctionAppHostKeysCreateUpdate in Hrun.
  rewrite !bind_GetAttribute in Hrun. fold name in Hrun. fold resourceGroup in Hrun.
  unfold GetData in Hrun. unfold bind at 1 in Hrun. cbn beta iota in Hrun.
  fold input in Hrun.
  destruct (HasChange (data w) "host_keys") eqn:Hchange.
  2: { rewrite bind_ret, bind_SetId in Hrun. exists [], w.
       rewrite app_nil_r. repeat split; auto; intros; contradiction. }
  rewrite bind_bind in Hrun. unfold bind at 1 in Hrun.
  destruct (updateHostSecrets_run resourceGroup name (map_to_list input) w)
    as (written & Hwritten & Hdata1 & Hshape1 & Hall). cbv zeta in *.
  assert (Hwrites : forall rg n t k v err,
            In (CreateOrUpdateHostSecret rg n t k v err) written ->
            exists s, v = Some s /\ input !! k = Some (VString s)).
  { intros rg n t k v err Hin. rewrite Forall_forall in Hshape1.
    apply list_elem_of_In in Hin.
    destruct (Hshape1 _ Hin) as (k' & s & err' & [= -> -> -> -> -> ->] & Hmember).
    exists s. split; [reflexivity|]. now apply elem_of_map_to_list. }
  assert (Hno_delete : forall rg n t k res err,
            ~ In (DeleteHostSecret rg n t k res err) written).
  { intros rg n t k res err Hin. rewrite Forall_forall in Hshape1.
    apply list_elem_of_In in Hin.
    destruct (Hshape1 _ Hin) as (k' & s & err' & Heq & _). discriminate Heq. }
  destruct (updateHostSecrets createOrUpdateHostSecret Quote resourceGroup name
              (map_to_list input) w) as [[[]|err] w1] eqn:Hupdate; cbn [fst snd] in *.
  2: { exists written, w1. split; [exact Hwritten|]. split; [exact Hdata1|].
       split; [right; eauto|]. split; [discriminate|]. split; [exact Hwrites|].
       intros rg n t k res err' Hin. now destruct (Hno_delete _ _ _ _ _ _ Hin). }
  specialize (Hall eq_refl).
  destruct (GetChange (data w) "host_keys") as [old0 new0] eqn:Hchanged.
  cbn [fst snd] in old, new. 
  destruct (deleteRemovedKeys_run resourceGroup name new0 (map_to_list old0).*1 w1)
    as (deleted & Hdeleted & Hdata2 & Hshape2). cbv zeta in *.
  assert (Hissued : forall w2 : World,
            calls w2 = (calls w1 ++ deleted)%list ->
            calls w2 = (calls w ++ written ++ deleted)%list).
  { intros w2 ->. rewrite Hwritten. now rewrite <- app_assoc. }
  assert (Hdeletes : forall rg n t k res err,
            In (DeleteHostSecret rg n t k res err) (written ++ deleted) ->
            is_Some (old !! k) /\
            (index new k = VNil \/ index new k = VString "") /\
            forall k' v', input !! k' = Some v' ->
              exists s, v' = VString s /\
                        In (CreateOrUpdateHostSecret rg n t k' (Some s) None)
                          (written ++ deleted)).
  { intros rg n t k res err Hin. apply in_app_or in Hin as [Hin|Hin];
      [now destruct (Hno_delete _ _ _ _ _ _ Hin)|].
    rewrite Forall_forall in Hshape2. apply list_elem_of_In in Hin.
    destruct (Hshape2 _ Hin) as (k' & res' & err' & [= -> -> -> -> -> ->] & Hold & Hremoved).
    split; [|split].
    - subst old. rewrite <- elem_of_dom, dom_alt. now rewrite elem_of_list_to_set.
    - subst new. unfold removedFrom in Hremoved.
      destruct (index new0 k') as [|s| | | | |]; try discriminate; [now left|].
      cbn in Hremoved. injection Hremoved as Hs. apply String.eqb_eq in Hs as ->. now right.
    - intros k v Hk. apply elem_of_map_to_list in Hk.
      destruct (Hall k v Hk) as (s & -> & Hs). exists s. split; [reflexivity|].
      apply in_or_app. left. now apply list_elem_of_In. }
  assert (Hboth : forall rg n t k v err,
            In (CreateOrUpdateHostSecret rg n t k v err) (written ++ deleted) ->
            exists s, v = Some s /\ input !! k = Some (VString s)).
  { intros rg n t k v err Hin. apply in_app_or in Hin as [Hin|Hin]; [eauto|].
    rewrite Forall_forall in Hshape2. apply list_elem_of_In in Hin.
    destruct (Hshape2 _ Hin) as (k' & res' & err' & Heq & _). discriminate Heq. }
  unfold bind at 1 in Hrun.
  destruct (deleteRemovedKeys deleteHostSecret Quote resourceGroup name new0
              (map_to_list old0).*1 w1) as [[[]|err] w2] eqn:Hdelete; cbn [fst snd] in *.
  - rewrite bind_SetId in Hrun. exists (written ++ deleted)%list, w2.
    split; [auto|]. split; [congruence|]. split; [now left|].
    split; [discriminate|]. split; assumption.
  - exists (written ++ deleted)%list, w2.
    split; [auto|]. split; [congruence|]. split; [right; eauto|].
    split; [discriminate|]. split; assumption.
Qed.

End Resource.
End FunctionAppHostKeysFacts.
